(** * ServiceOpsAI: tool registry, MCP server manager and tool loader

    A shallow embedding of [backend/core/tool_registry.py],
    [backend/core/mcp_server_manager.py] and
    [backend/agents/tool_loader.py], with the properties of the registry,
    the connection cache and the provider lifecycle stated over it.

    Conventions of the embedding:
    - Python [str] is [string]; [dict] is an insertion-ordered association
      list ([ODict]), because the registry iterates over [_tools.items()];
    - object identity of runtime objects ([MCPTools], [MultiMCPTools], local
      tool instances) is an allocation serial taken from the registry state;
    - a raised exception is the [Raise] outcome of the function. *)

From Stdlib Require Import List String Ascii Bool Arith ZArith Lia Permutation.
Import ListNotations.
Open Scope string_scope.
Open Scope list_scope.

Set Implicit Arguments.

(** ** Python string primitives *)

Module PyStr.

(** [s.startswith(p)] *)
Definition startswith (p s : string) : bool := String.prefix p s.

(** [s.split(c)] for a one-character separator. *)
Fixpoint split (c : ascii) (s : string) : list string :=
  match s with
  | EmptyString => [EmptyString]
  | String a r =>
      if Ascii.eqb a c then EmptyString :: split c r
      else match split c r with
           | h :: t => String a h :: t
           | [] => [String a EmptyString]
           end
  end.

(** [s.index(c)]: position of the first occurrence, [None] for the
    [ValueError] of a missing character. *)
Fixpoint index (c : ascii) (s : string) : option nat :=
  match s with
  | EmptyString => None
  | String a r =>
      if Ascii.eqb a c then Some 0
      else match index c r with Some n => Some (S n) | None => None end
  end.

(** [c in s] for a one-character [c]. *)
Fixpoint contains (c : ascii) (s : string) : bool :=
  match s with
  | EmptyString => false
  | String a r => Ascii.eqb a c || contains c r
  end.

(** [s[i:j]] for non-negative bounds. *)
Definition slice (i j : nat) (s : string) : string :=
  String.substring i (j - i) s.

(** [s[i:]] *)
Fixpoint drop (i : nat) (s : string) : string :=
  match i, s with
  | O, _ => s
  | S n, String _ r => drop n r
  | S _, EmptyString => EmptyString
  end.

(** ASCII white space as recognised by [str.strip()]. *)
Definition is_space (a : ascii) : bool :=
  let n := nat_of_ascii a in
  (Nat.leb 9 n && Nat.leb n 13) || (Nat.leb 28 n && Nat.leb n 32).

Fixpoint lstrip (s : string) : string :=
  match s with
  | EmptyString => EmptyString
  | String a r => if is_space a then lstrip r else s
  end.

Fixpoint rstrip (s : string) : string :=
  match s with
  | EmptyString => EmptyString
  | String a r =>
      match rstrip r with
      | EmptyString => if is_space a then EmptyString else String a EmptyString
      | r' => String a r'
      end
  end.

Definition strip (s : string) : string := rstrip (lstrip s).

(** [sep.join(parts)] *)
Fixpoint join (sep : string) (parts : list string) : string :=
  match parts with
  | [] => EmptyString
  | [p] => p
  | p :: rest => p ++ sep ++ join sep rest
  end.

(** Truth value of a [str]. *)
Definition truthy (s : string) : bool :=
  match s with EmptyString => false | _ => true end.

(** The last character, if any. *)
Fixpoint last (s : string) : option ascii :=
  match s with
  | EmptyString => None
  | String a EmptyString => Some a
  | String _ r => last r
  end.

(** [s.endswith(c)] for a one-character [c]. *)
Definition endswith (c : ascii) (s : string) : bool :=
  match last s with Some a => Ascii.eqb a c | None => false end.

(** [s[:-1]] *)
Fixpoint drop_last (s : string) : string :=
  match s with
  | EmptyString => EmptyString
  | String a EmptyString => EmptyString
  | String a r => String a (drop_last r)
  end.

End PyStr.

(** ** Insertion-ordered dictionaries *)

Module ODict.

Section Dict.
Variable V : Type.

Definition t := list (string * V).

(** [d.get(k)] *)
Fixpoint get (d : t) (k : string) : option V :=
  match d with
  | [] => None
  | (k', v) :: r => if String.eqb k' k then Some v else get r k
  end.

(** [k in d] *)
Definition mem (d : t) (k : string) : bool :=
  match get d k with Some _ => true | None => false end.

(** [d[k] = v]: an existing key keeps its position, a new key goes last. *)
Fixpoint set (d : t) (k : string) (v : V) : t :=
  match d with
  | [] => [(k, v)]
  | (k', v') :: r =>
      if String.eqb k' k then (k', v) :: r else (k', v') :: set r k v
  end.

(** [d.update(e)] *)
Definition update (d e : t) : t :=
  fold_left (fun acc kv => set acc (fst kv) (snd kv)) e d.

Definition keys (d : t) : list string := map fst d.

(** A batch of writes in which a key always comes with the same value. *)
Definition functional (e : t) : Prop :=
  forall k v v', In (k, v) e -> In (k, v') e -> v = v'.

End Dict.

End ODict.


(** ** Values, outcomes and runtime objects *)

(** The values a runtime configuration holds: [None], a string, or a
    string-to-string mapping (the [env] entry). *)
Inductive CfgVal : Type :=
| VNone
| VStr (s : string)
| VDict (d : ODict.t string).

Definition Config := ODict.t CfgVal.

(** Python truth value of a configuration value. *)
Definition truthy (v : CfgVal) : bool :=
  match v with
  | VNone => false
  | VStr s => PyStr.truthy s
  | VDict [] => false
  | VDict _ => true
  end.

(** [v if v else None] *)
Definition or_none (v : CfgVal) : CfgVal := if truthy v then v else VNone.

Inductive Exn : Type :=
| TypeError
| ValueError
| AttributeError
| ConnectionFailure.

Inductive Outcome (A : Type) : Type :=
| Ok (a : A)
| Raise (e : Exn).
Arguments Ok {A} a.
Arguments Raise {A} e.

(** [d.update(v)] for a configuration value [v]: a mapping is merged, [None]
    is not iterable, an empty string iterates over nothing, and the
    characters of a non-empty string are not key/value pairs. *)
Definition dict_update (d : ODict.t string) (v : CfgVal)
  : Outcome (ODict.t string) :=
  match v with
  | VDict e => Ok (ODict.update d e)
  | VNone => Raise TypeError
  | VStr EmptyString => Ok d
  | VStr _ => Raise ValueError
  end.

(** A runtime object; [oid] is its identity (allocation serial). A local
    tool instance records the class its factory instantiates. Runtime
    objects are truthy, so [if tool:] and [if mcp_tools:] test for [None]. *)
Inductive Runtime : Type :=
| LocalTool (oid : nat) (cls : string)
| MCPTools (oid : nat) (command : CfgVal) (env : CfgVal)
           (include_tools : option (list string))
| MultiMCPTools (oid : nat) (commands : list CfgVal) (env : CfgVal)
                (include_tools : option (list string)).

Definition oid_of (h : Runtime) : nat :=
  match h with
  | LocalTool o _ => o
  | MCPTools o _ _ _ => o
  | MultiMCPTools o _ _ _ => o
  end.

Definition is_mcp_handle (h : Runtime) : bool :=
  match h with LocalTool _ _ => false | _ => true end.

(** ** The tool registry ([core/tool_registry.py]) *)

Inductive ToolType : Type := LOCAL | MCP.

Definition ToolType_eqb (a b : ToolType) : bool :=
  match a, b with
  | LOCAL, LOCAL | MCP, MCP => true
  | _, _ => false
  end.

(** [runtime_factory] is a zero-argument callable; it is represented by the
    class it instantiates. *)
Record ToolMetadata : Type := mkToolMetadata {
  name : string;
  type : ToolType;
  server : option string;
  runtime_factory : option string;
  config : Config
}.

Record ToolRegistry : Type := mkToolRegistry {
  _tools : ODict.t ToolMetadata;
  _mcp_runtime_cache : ODict.t Runtime;
  next_oid : nat
}.

(** [ToolRegistry()] *)
Definition init : ToolRegistry := mkToolRegistry [] [] 0.

Definition with_tools (r : ToolRegistry) (d : ODict.t ToolMetadata) :=
  mkToolRegistry d (_mcp_runtime_cache r) (next_oid r).

(** [config or {}] *)
Definition config_or_empty (c : option Config) : Config :=
  match c with
  | Some (x :: l) => x :: l
  | _ => []
  end.

Definition register_local_tool (nm : string) (factory_func : string)
    (cfg : option Config) (r : ToolRegistry) : ToolRegistry :=
  with_tools r
    (ODict.set (_tools r) nm
       (mkToolMetadata nm LOCAL None (Some factory_func) (config_or_empty cfg))).

(** Truth value of the optional tool name. *)
Definition name_truthy (nm : option string) : bool :=
  match nm with Some s => PyStr.truthy s | None => false end.

(** [f"mcp:{server}:{name}" if name else f"mcp:{server}"] *)
Definition full_name (srv : string) (nm : option string) : string :=
  match nm with
  | Some (String a s) => "mcp:" ++ srv ++ ":" ++ String a s
  | _ => "mcp:" ++ srv
  end.

(** [name or server] *)
Definition name_or_server (srv : string) (nm : option string) : string :=
  match nm with
  | Some (String a s) => String a s
  | _ => srv
  end.

Definition register_mcp_tool (nm : option string) (srv : string)
    (cfg : option Config) (r : ToolRegistry) : ToolRegistry :=
  with_tools r
    (ODict.set (_tools r) (full_name srv nm)
       (mkToolMetadata (name_or_server srv nm) MCP (Some srv) None
          (config_or_empty cfg))).

Definition register_mcp_server_tools (srv : string) (tools : list string)
    (cfg : Config) (r : ToolRegistry) : ToolRegistry :=
  let r' :=
    fold_left (fun acc tool => register_mcp_tool (Some tool) srv (Some cfg) acc)
      tools r in
  register_mcp_tool None srv (Some cfg) r'.

Definition option_string_eqb (a : option string) (b : string) : bool :=
  match a with Some s => String.eqb s b | None => false end.

Definition config_truthy (c : Config) : bool :=
  match c with [] => false | _ => true end.

(** The loop of [_get_mcp_runtime] over [self._tools.items()]: the pair
    [(server_tools, server_config)] after the last entry. *)
Definition scan_server (srv : string) (tools : ODict.t ToolMetadata)
  : list string * option Config :=
  fold_left
    (fun (acc : list string * option Config) (kv : string * ToolMetadata) =>
       let md := snd kv in
       if ToolType_eqb (type md) MCP && option_string_eqb (server md) srv then
         let cfg' := if config_truthy (config md) then Some (config md)
                     else snd acc in
         let tl' := if PyStr.truthy (name md) then fst acc ++ [name md]
                    else fst acc in
         (tl', cfg')
       else acc)
    tools ([], None).

(** [d.get(k)] and [d.get(k, {})] on a configuration. *)
Definition cfg_get (c : Config) (k : string) : CfgVal :=
  match ODict.get c k with Some v => v | None => VNone end.

Definition cfg_get_env (c : Config) : CfgVal :=
  match ODict.get c "env" with Some v => v | None => VDict [] end.

(** [_get_mcp_runtime] after the cache check: parse the reference, look the
    server up, construct the runtime and cache it under the reference. *)
Definition mcp_construct (tool_ref : string) (r : ToolRegistry)
  : option Runtime * ToolRegistry :=
  let parts := PyStr.split ":" tool_ref in
  match parts with
  | _ :: srv :: rest =>
      let specific_tools := match rest with [] => None | _ => Some rest end in
      match snd (scan_server srv (_tools r)) with
      | None => (None, r)
      | Some server_config =>
          let command := cfg_get server_config "command" in
          let env := cfg_get_env server_config in
          let include_tools :=
            match specific_tools with
            | Some (x :: l) => Some (x :: l)
            | _ => None
            end in
          let mcp_runtime :=
            MCPTools (next_oid r) command (or_none env) include_tools in
          (Some mcp_runtime,
           mkToolRegistry (_tools r)
             (ODict.set (_mcp_runtime_cache r) tool_ref mcp_runtime)
             (S (next_oid r)))
      end
  | _ => (None, r)
  end.

Definition _get_mcp_runtime (tool_ref : string) (r : ToolRegistry)
  : option Runtime * ToolRegistry :=
  match ODict.get (_mcp_runtime_cache r) tool_ref with
  | Some h => (Some h, r)
  | None => mcp_construct tool_ref r
  end.

(** [tool_ref in self._tools and self._tools[tool_ref].type == LOCAL] *)
Definition local_entry (tool_ref : string) (r : ToolRegistry)
  : option ToolMetadata :=
  match ODict.get (_tools r) tool_ref with
  | Some md => if ToolType_eqb (type md) LOCAL then Some md else None
  | None => None
  end.

(** The body of [get_tool_runtime], executed while [self._lock] is held. *)
Definition get_tool_runtime (tool_ref : string) (r : ToolRegistry)
  : option Runtime * ToolRegistry :=
  match local_entry tool_ref r with
  | Some md =>
      match runtime_factory md with
      | Some cls =>
          (Some (LocalTool (next_oid r) cls),
           mkToolRegistry (_tools r) (_mcp_runtime_cache r) (S (next_oid r)))
      | None => (None, r)
      end
  | None =>
      if PyStr.startswith "mcp:" tool_ref then _get_mcp_runtime tool_ref r
      else (None, r)
  end.

Definition clear_mcp_cache (r : ToolRegistry) : ToolRegistry :=
  mkToolRegistry (_tools r) [] (next_oid r).

Definition list_tools (tool_type : option ToolType) (r : ToolRegistry)
  : list string :=
  match tool_type with
  | Some ty =>
      map fst (filter (fun kv => ToolType_eqb (type (snd kv)) ty) (_tools r))
  | None => ODict.keys (_tools r)
  end.

Definition get_tool_metadata (tool_ref : string) (r : ToolRegistry)
  : option ToolMetadata :=
  ODict.get (_tools r) tool_ref.

(** *** Combining MCP references *)

(** The per-server record [{"command": ..., "tools": ...}]. *)
Record ServerInfo : Type := mkServerInfo {
  si_command : CfgVal;
  si_tools : option (list string)
}.

(** The inner loop of [_get_combined_mcp_runtime]: the first catalog entry of
    the server that carries a configuration (the loop [break]s there). *)
Definition first_server_entry (srv : string) (tools : ODict.t ToolMetadata)
  : option ToolMetadata :=
  match
    find (fun kv : string * ToolMetadata =>
            ToolType_eqb (type (snd kv)) MCP
            && option_string_eqb (server (snd kv)) srv
            && config_truthy (config (snd kv))) tools
  with
  | Some kv => Some (snd kv)
  | None => None
  end.

(** One iteration of [for ref in mcp_refs]. *)
Definition combine_step (catalog : ODict.t ToolMetadata)
    (acc : ODict.t ServerInfo * ODict.t string) (ref : string)
  : Outcome (ODict.t ServerInfo * ODict.t string) :=
  let (servers, all_env) := acc in
  match PyStr.split ":" ref with
  | _ :: srv :: rest =>
      let tools := match rest with
                   | [] => None
                   | p2 :: _ => Some (PyStr.split "," p2)
                   end in
      match first_server_entry srv catalog with
      | Some md =>
          if ODict.mem servers srv then Ok (servers, all_env)
          else
            let servers' :=
              ODict.set servers srv
                (mkServerInfo (cfg_get (config md) "command") tools) in
            match dict_update all_env (cfg_get_env (config md)) with
            | Ok all_env' => Ok (servers', all_env')
            | Raise e => Raise e
            end
      | None => Ok (servers, all_env)
      end
  | _ => Ok (servers, all_env)
  end.

Fixpoint combine_loop (catalog : ODict.t ToolMetadata) (mcp_refs : list string)
    (acc : ODict.t ServerInfo * ODict.t string)
  : Outcome (ODict.t ServerInfo * ODict.t string) :=
  match mcp_refs with
  | [] => Ok acc
  | ref :: rest =>
      match combine_step catalog acc ref with
      | Ok acc' => combine_loop catalog rest acc'
      | Raise e => Raise e
      end
  end.

(** [include_tools.extend(info["tools"])] for every server with a non-empty
    filter. *)
Definition extend_tools (servers : ODict.t ServerInfo) : list string :=
  fold_left
    (fun (acc : list string) (kv : string * ServerInfo) =>
       match si_tools (snd kv) with
       | Some (x :: l) => acc ++ x :: l
       | _ => acc
       end)
    servers [].

Definition list_or_none (l : list string) : option (list string) :=
  match l with [] => None | _ => Some l end.

Definition _get_combined_mcp_runtime (mcp_refs : list string)
    (r : ToolRegistry) : Outcome (option Runtime) * ToolRegistry :=
  match combine_loop (_tools r) mcp_refs ([], []) with
  | Raise e => (Raise e, r)
  | Ok (servers, all_env) =>
      let bump := mkToolRegistry (_tools r) (_mcp_runtime_cache r)
                    (S (next_oid r)) in
      match servers with
      | [] => (Ok None, r)
      | [(server_name, server_info)] =>
          (Ok (Some (MCPTools (next_oid r) (si_command server_info)
                       (or_none (VDict all_env)) (si_tools server_info))),
           bump)
      | _ =>
          let commands := map (fun kv => si_command (snd kv)) servers in
          (Ok (Some (MultiMCPTools (next_oid r) commands
                       (or_none (VDict all_env))
                       (list_or_none (extend_tools servers)))),
           bump)
      end
  end.

(** The loop of [get_tools_for_agent] over [tool_refs], carrying [tools],
    [mcp_configs] and the registry. *)
Fixpoint agent_loop (tool_refs : list string) (tools : list Runtime)
    (mcp_configs : list string) (r : ToolRegistry)
  : list Runtime * list string * ToolRegistry :=
  match tool_refs with
  | [] => (tools, mcp_configs, r)
  | ref :: rest =>
      if PyStr.startswith "mcp:" ref then
        agent_loop rest tools (mcp_configs ++ [ref]) r
      else
        match get_tool_runtime ref r with
        | (Some tool, r') => agent_loop rest (tools ++ [tool]) mcp_configs r'
        | (None, r') => agent_loop rest tools mcp_configs r'
        end
  end.

Definition get_tools_for_agent (tool_refs : list string) (r : ToolRegistry)
  : Outcome (list Runtime) * ToolRegistry :=
  match agent_loop tool_refs [] [] r with
  | (tools, mcp_configs, r1) =>
      match mcp_configs with
      | [] => (Ok tools, r1)
      | _ =>
          match _get_combined_mcp_runtime mcp_configs r1 with
          | (Ok (Some mcp_tools), r2) => (Ok (tools ++ [mcp_tools]), r2)
          | (Ok None, r2) => (Ok tools, r2)
          | (Raise e, r2) => (Raise e, r2)
          end
      end
  end.

(** ** The MCP server manager ([core/mcp_server_manager.py]) *)

(** A YAML scalar in an [args] list: a string, or a number (which
    [" ".join] rejects). *)
Inductive Scalar : Type :=
| SStr (s : string)
| SInt (z : Z).

(** A server description of [mcp_config.yaml], each key optional: [type] and
    [command] are strings, [args] a list of scalars, [env] a mapping from
    strings to strings. *)
Record ServerConfig : Type := mkServerConfig {
  sc_type : option string;
  sc_command : option string;
  sc_args : option (list Scalar);
  sc_env : option (ODict.t string)
}.

(** The value under a server name: a mapping, or some other YAML value
    (for instance [null] for a key without a body). *)
Inductive ServerEntry : Type :=
| SMapping (c : ServerConfig)
| SOther.

Record MCPServerManager : Type := mkManager {
  mcp_servers : ODict.t ServerEntry;
  initialized_servers : ODict.t bool
}.

(** The manager and the global [tool_registry] it registers into. *)
Definition World : Type := (MCPServerManager * ToolRegistry)%type.

Definition mark (nm : string) (b : bool) (m : MCPServerManager) :=
  mkManager (mcp_servers m) (ODict.set (initialized_servers m) nm b).

(** What the manager suspends on: the event loop resumes the task later with
    the probe's outcome. *)
Inductive Phase : Type :=
| Finished (status : Outcome bool)
| Suspended (runtime_config : Config) (command : string) (env : CfgVal).

Record Pending : Type := mkPending {
  p_name : string;
  p_config : Config;
  p_command : string;
  p_env : CfgVal
}.

Section Manager.

(** [os.getenv] and the outcome of connecting to a server and listing its
    tools ([MCPTools(command, env)] followed by [list_tools()]). *)
Variable getenv : string -> option string.
Variable probe : string -> CfgVal -> Outcome (list string).

(** [_resolve_env_vars] on a string. *)
Definition resolve_str (value : string) : string :=
  if PyStr.startswith "${" value && PyStr.endswith "}" value then
    match getenv (PyStr.drop_last (PyStr.drop 2 value)) with
    | Some v => v
    | None => EmptyString
    end
  else value.

Definition resolve_scalar (v : Scalar) : Scalar :=
  match v with
  | SStr s => SStr (resolve_str s)
  | SInt z => SInt z
  end.

Definition resolve_env (e : ODict.t string) : ODict.t string :=
  map (fun kv => (fst kv, resolve_str (snd kv))) e.

(** [_resolve_env_vars] on a server description. *)
Definition _resolve_env_vars (c : ServerConfig) : ServerConfig :=
  mkServerConfig
    (option_map resolve_str (sc_type c))
    (option_map resolve_str (sc_command c))
    (option_map (map resolve_scalar) (sc_args c))
    (option_map resolve_env (sc_env c)).

(** [" ".join(command_parts)]: every part has to be a string. *)
Fixpoint join_parts (parts : list Scalar) : Outcome (list string) :=
  match parts with
  | [] => Ok []
  | SStr s :: rest =>
      match join_parts rest with
      | Ok l => Ok (s :: l)
      | Raise e => Raise e
      end
  | SInt _ :: _ => Raise TypeError
  end.

Definition _build_command (server_config : ServerConfig)
  : Outcome (option string) :=
  let server_config := _resolve_env_vars server_config in
  let command_parts :=
    (match sc_command server_config with Some c => [SStr c] | None => [] end)
    ++ (match sc_args server_config with Some a => a | None => [] end) in
  match command_parts with
  | [] => Ok None
  | _ =>
      match join_parts command_parts with
      | Ok l => Ok (Some (PyStr.join " " l))
      | Raise e => Raise e
      end
  end.

(** [self._resolve_env_vars(server_config.get("env", {}))] *)
Definition resolved_env (server_config : ServerConfig) : ODict.t string :=
  resolve_env (match sc_env server_config with Some e => e | None => [] end).

(** [discover_server_tools] up to the point where it awaits the connection:
    either the list it returns without connecting, or the command and
    environment it connects with. *)
Definition discover_begin (server_config : ServerConfig)
  : list string + (string * CfgVal) :=
  match _build_command server_config with
  | Raise _ => inl []
  | Ok None => inl []
  | Ok (Some EmptyString) => inl []
  | Ok (Some command) =>
      inr (command, or_none (VDict (resolved_env server_config)))
  end.

(** ... and after the connection attempt: a failure of any kind is caught and
    gives the empty list. *)
Definition discover_end (outcome : Outcome (list string)) : list string :=
  match outcome with
  | Ok tools => tools
  | Raise _ => []
  end.

Definition discover_server_tools (server_config : ServerConfig)
  : list string :=
  match discover_begin server_config with
  | inl tools => tools
  | inr (command, env) => discover_end (probe command env)
  end.

(** The registration that follows discovery in [initialize_server]. *)
Definition register_discovered (server_name : string) (tools : list string)
    (runtime_config : Config) (w : World) : World :=
  let (m, r) := w in
  let r' := match tools with
            | [] => register_mcp_tool None server_name (Some runtime_config) r
            | _ => register_mcp_server_tools server_name tools runtime_config r
            end in
  (mark server_name true m, r').

Definition opt_str (o : option string) : CfgVal :=
  match o with Some s => VStr s | None => VNone end.

(** [initialize_server] up to its first suspension. *)
Definition init_begin (server_name : string) (w : World) : Phase * World :=
  let (m, r) := w in
  match ODict.get (initialized_servers m) server_name with
  | Some b => (Finished (Ok b), w)
  | None =>
      match ODict.get (mcp_servers m) server_name with
      | None => (Finished (Ok false), w)
      | Some SOther => (Finished (Raise AttributeError), w)
      | Some (SMapping server_config) =>
          if negb (match sc_type server_config with
                   | Some t => String.eqb t "stdio"
                   | None => false
                   end)
          then (Finished (Ok false), w)
          else
            match _build_command server_config with
            | Raise _ => (Finished (Ok false), (mark server_name false m, r))
            | Ok command =>
                let runtime_config : Config :=
                  [("command", opt_str command);
                   ("env", VDict (resolved_env server_config));
                   ("type", VStr "stdio")] in
                match discover_begin server_config with
                | inl tools =>
                    (Finished (Ok true),
                     register_discovered server_name tools runtime_config w)
                | inr (cmd, env) => (Suspended runtime_config cmd env, w)
                end
            end
      end
  end.

(** [initialize_server] from the point where the probe has completed. *)
Definition init_finish (p : Pending) (outcome : Outcome (list string))
    (w : World) : bool * World :=
  (true, register_discovered (p_name p) (discover_end outcome) (p_config p) w).

(** [await initialize_server(name)] run on its own. *)
Definition initialize_server (server_name : string) (w : World)
  : Outcome bool * World :=
  match init_begin server_name w with
  | (Finished status, w') => (status, w')
  | (Suspended rc cmd env, w') =>
      let (b, w'') :=
        init_finish (mkPending server_name rc cmd env) (probe cmd env) w' in
      (Ok b, w'')
  end.

(** [asyncio.gather]: every task first runs to its first suspension, in the
    order the tasks were created. A task suspends where
    [discover_server_tools] opens the connection; one that returns before
    that point runs to its end at once. *)
Fixpoint start_all (names : list string) (w : World)
  : ODict.t (Outcome bool) * list Pending * World :=
  match names with
  | [] => ([], [], w)
  | nm :: rest =>
      match init_begin nm w with
      | (Finished status, w') =>
          let '(done, pend, w'') := start_all rest w' in
          ((nm, status) :: done, pend, w'')
      | (Suspended rc cmd env, w') =>
          let '(done, pend, w'') := start_all rest w' in
          (done, mkPending nm rc cmd env :: pend, w'')
      end
  end.

(** Removes the [i]-th element of a non-empty list. *)
Fixpoint pick {A : Type} (i : nat) (l : list A) {struct l}
  : option (A * list A) :=
  match l with
  | [] => None
  | x :: rest =>
      match i with
      | O => Some (x, rest)
      | S j =>
          match pick j rest with
          | Some (y, rest') => Some (y, x :: rest')
          | None => Some (x, rest)
          end
      end
  end.

(** The suspended tasks resume in the order their probes complete; the
    number [choose k] selects which of the tasks still pending completes at
    step [k]. *)
Fixpoint finish_all (choose : nat -> nat) (k : nat) (fuel : nat)
    (pend : list Pending) (w : World) : ODict.t (Outcome bool) * World :=
  match fuel with
  | O => ([], w)
  | S fuel' =>
      match pick (choose k) pend with
      | None => ([], w)
      | Some (p, pend') =>
          let (b, w') := init_finish p (probe (p_command p) (p_env p)) w in
          let (done, w'') := finish_all choose (S k) fuel' pend' w' in
          ((p_name p, Ok b) :: done, w'')
      end
  end.

(** [results[server_name] = ...] for every pair of
    [zip(mcp_servers.keys(), statuses)]. *)
Definition collect (names : list string) (statuses : ODict.t (Outcome bool))
  : ODict.t bool :=
  fold_left
    (fun (results : ODict.t bool) (nm : string) =>
       match ODict.get statuses nm with
       | Some (Ok status) => ODict.set results nm status
       | Some (Raise _) => ODict.set results nm false
       | None => results
       end)
    names [].

Definition initialize_all_servers (choose : nat -> nat) (w : World)
  : ODict.t bool * World :=
  let names := ODict.keys (mcp_servers (fst w)) in
  let '(done1, pend, w1) := start_all names w in
  let (done2, w2) := finish_all choose 0 (List.length pend) pend w1 in
  (collect names (done1 ++ done2), w2).

End Manager.

(** ** The dynamic tool loader ([agents/tool_loader.py]) *)

(** The dictionary [parse_mcp_config] returns; [servers] maps a server name
    to its ["tools"] entry. *)
Record ParseResult : Type := mkParseResult {
  commands : list string;
  env : ODict.t string;
  include_tools : option (list string);
  servers : ODict.t (option (list string))
}.

Section Loader.

Variable getenv : string -> option string.

(** The configuration file's [mcp_servers] mapping. *)
Variable loader_servers : ODict.t ServerEntry.

(** [build_mcp_command] is the manager's [_build_command], word for word. *)
Definition build_mcp_command : ServerConfig -> Outcome (option string) :=
  _build_command getenv.

(** The bracket syntax of one configuration string, after the ["mcp:"]
    prefix was removed: the server name and the requested tools. *)
Definition parse_brackets (config : string)
  : Outcome (string * option (list string)) :=
  if PyStr.contains "[" config && PyStr.contains "]" config then
    match PyStr.index "[" config, PyStr.index "]" config with
    | Some i, Some j =>
        let server_name := PyStr.slice 0 i config in
        let tools_str := PyStr.slice (i + 1) j config in
        Ok (server_name, Some (map PyStr.strip (PyStr.split "," tools_str)))
    | _, _ => Raise ValueError
    end
  else Ok (config, None).

(** One iteration of [for config in mcp_configs]; the accumulator is
    [result] (whose [include_tools] is still unset) and [all_include_tools]. *)
Definition parse_step (acc : ParseResult * list string) (config : string)
  : Outcome (ParseResult * list string) :=
  let (result, all_include_tools) := acc in
  if PyStr.startswith "mcp:" config then
    let config := PyStr.drop 4 config in
    match parse_brackets config with
    | Raise e => Raise e
    | Ok (server_name, tools) =>
        let all_include_tools :=
          match tools with
          | Some l => all_include_tools ++ l
          | None => all_include_tools
          end in
        match ODict.get loader_servers server_name with
        | None => Ok (result, all_include_tools)
        | Some SOther => Raise AttributeError
        | Some (SMapping server_config) =>
            if match sc_type server_config with
               | Some t => String.eqb t "stdio"
               | None => false
               end
            then
              match build_mcp_command server_config with
              | Raise e => Raise e
              | Ok (Some (String a c)) =>
                  Ok (mkParseResult
                        (commands result ++ [String a c])
                        (ODict.update (env result)
                           (resolved_env getenv server_config))
                        (include_tools result)
                        (ODict.set (servers result) server_name tools),
                      all_include_tools)
              | Ok _ => Ok (result, all_include_tools)
              end
            else Ok (result, all_include_tools)
        end
    end
  else Ok acc.

Fixpoint parse_loop (mcp_configs : list string)
    (acc : ParseResult * list string) : Outcome (ParseResult * list string) :=
  match mcp_configs with
  | [] => Ok acc
  | config :: rest =>
      match parse_step acc config with
      | Ok acc' => parse_loop rest acc'
      | Raise e => Raise e
      end
  end.

Definition parse_mcp_config (mcp_configs : list string)
  : Outcome ParseResult :=
  match parse_loop mcp_configs (mkParseResult [] [] None [], []) with
  | Raise e => Raise e
  | Ok (result, all_include_tools) =>
      Ok (mkParseResult (commands result) (env result)
            (list_or_none all_include_tools) (servers result))
  end.

End Loader.

(** ** Concurrent callers of [get_tool_runtime]

    A caller of [get_tool_runtime] first acquires [self._lock], runs the body
    and releases the lock. The body is split at the cache check, so that a
    schedule may switch tasks between the check and the construction; the
    lock is what keeps other callers out in between. *)

Inductive PC : Type :=
| Waiting
| Locked
| Missed
| Releasing (result : option Runtime)
| Done (result : option Runtime).

Record Sys : Type := mkSys {
  reg : ToolRegistry;
  lock : bool;
  tasks : list (string * PC)
}.

(** [l[i] = x] *)
Fixpoint upd {A : Type} (i : nat) (x : A) (l : list A) : list A :=
  match l, i with
  | [], _ => []
  | _ :: r, O => x :: r
  | y :: r, S j => y :: upd j x r
  end.

(** The first half of the body: the local entry and the cache check. *)
Definition check_phase (tool_ref : string) (r : ToolRegistry)
  : PC * ToolRegistry :=
  match local_entry tool_ref r with
  | Some md =>
      match runtime_factory md with
      | Some cls =>
          (Releasing (Some (LocalTool (next_oid r) cls)),
           mkToolRegistry (_tools r) (_mcp_runtime_cache r) (S (next_oid r)))
      | None => (Releasing None, r)
      end
  | None =>
      if PyStr.startswith "mcp:" tool_ref then
        match ODict.get (_mcp_runtime_cache r) tool_ref with
        | Some h => (Releasing (Some h), r)
        | None => (Missed, r)
        end
      else (Releasing None, r)
  end.

(** Task [i] takes one step, if it can. *)
Definition step (i : nat) (s : Sys) : Sys :=
  match nth_error (tasks s) i with
  | None => s
  | Some (ref, pc) =>
      match pc with
      | Waiting =>
          if lock s then s
          else mkSys (reg s) true (upd i (ref, Locked) (tasks s))
      | Locked =>
          let (pc', r') := check_phase ref (reg s) in
          mkSys r' (lock s) (upd i (ref, pc') (tasks s))
      | Missed =>
          let (res, r') := mcp_construct ref (reg s) in
          mkSys r' (lock s) (upd i (ref, Releasing res) (tasks s))
      | Releasing res =>
          mkSys (reg s) false (upd i (ref, Done res) (tasks s))
      | Done _ => s
      end
  end.

Definition run (schedule : list nat) (s : Sys) : Sys :=
  fold_left (fun s i => step i s) schedule s.

(** [n] callers of [get_tool_runtime(tool_ref)], none of them started. *)
Definition start (n : nat) (tool_ref : string) (r : ToolRegistry) : Sys :=
  mkSys r false (repeat (tool_ref, Waiting) n).

Definition all_done (s : Sys) : Prop :=
  Forall (fun t => exists res, snd t = Done res) (tasks s).

Definition results (s : Sys) : list (option Runtime) :=
  map (fun t : string * PC =>
         match snd t with Done res => res | _ => None end) (tasks s).

(** ** Auxiliary definitions used by the statements *)

(** The catalog record [register_mcp_tool] writes. *)
Definition mcp_entry (srv : string) (nm : option string) (cfg : Config)
  : ToolMetadata :=
  mkToolMetadata (name_or_server srv nm) MCP (Some srv) None
    (config_or_empty (Some cfg)).

(** The assignments [register_mcp_server_tools] performs, in order. *)
Definition server_writes (srv : string) (tools : list string) (cfg : Config)
  : ODict.t ToolMetadata :=
  map (fun t => (full_name srv (Some t), mcp_entry srv (Some t) cfg)) tools
  ++ [(full_name srv None, mcp_entry srv None cfg)].

(** The classes of the local tools a reference list instantiates: one for
    every reference without the ["mcp:"] prefix that names a [LOCAL] entry
    with a factory, in the order of the list. *)
Definition local_classes (tool_refs : list string) (r : ToolRegistry)
  : list string :=
  flat_map
    (fun ref =>
       if PyStr.startswith "mcp:" ref then []
       else match local_entry ref r with
            | Some md =>
                match runtime_factory md with
                | Some cls => [cls]
                | None => []
                end
            | None => []
            end)
    tool_refs.

(** One new instance per class, with consecutive identities from [o] on. *)
Fixpoint instantiate (o : nat) (classes : list string) : list Runtime :=
  match classes with
  | [] => []
  | cls :: rest => LocalTool o cls :: instantiate (S o) rest
  end.

(** The registry after [n] objects were allocated. *)
Definition allocated (n : nat) (r : ToolRegistry) : ToolRegistry :=
  mkToolRegistry (_tools r) (_mcp_runtime_cache r) (next_oid r + n).

(** The configuration [_get_mcp_runtime] finds for a reference: that of the
    server named by the second colon-separated part. *)
Definition server_config_of (tool_ref : string) (r : ToolRegistry)
  : option Config :=
  match PyStr.split ":" tool_ref with
  | _ :: srv :: _ => snd (scan_server srv (_tools r))
  | _ => None
  end.

(** The capability filter [_get_mcp_runtime] passes on: the colon-separated
    parts after the server name, as written. *)
Definition filter_of (tool_ref : string) : option (list string) :=
  match PyStr.split ":" tool_ref with
  | _ :: _ :: x :: l => Some (x :: l)
  | _ => None
  end.

(** Every cached runtime was allocated before the current serial. *)
Definition cache_wf (r : ToolRegistry) : Prop :=
  forall k h, In (k, h) (_mcp_runtime_cache r) -> oid_of h < next_oid r.

(** No catalog entry belongs to a server whose name holds a bracket. *)
Definition bracket_free_servers (r : ToolRegistry) : Prop :=
  forall k md s,
    In (k, md) (_tools r) -> server md = Some s ->
    PyStr.contains "[" s = false.

(** A reference in the bracket grammar: ["mcp:" provider "[" c1,c2,... "]"]. *)
Definition bracket_ref (p : string) (caps : list string) : string :=
  "mcp:" ++ p ++ "[" ++ PyStr.join "," caps ++ "]".

(** The invariant of [n] callers resolving one uncached reference. Before
    the construction ([built = false]) a caller waits, or holds the lock and
    is at or just past the cache check; afterwards ([built = true]) a caller
    waits, is done with the handle [h], or holds the lock and is about to
    find or return [h]. [owner] is the caller holding the lock. *)
Definition task_ok (h : Runtime) (built : bool) (owner : option nat)
    (j : nat) (pc : PC) : Prop :=
  match pc with
  | Waiting => owner <> Some j
  | Locked => owner = Some j
  | Missed => built = false /\ owner = Some j
  | Releasing res => built = true /\ res = Some h /\ owner = Some j
  | Done res => built = true /\ res = Some h /\ owner <> Some j
  end.

Definition sched_inv (tool_ref : string) (r0 r1 : ToolRegistry) (h : Runtime)
    (s : Sys) : Prop :=
  exists (built : bool) (owner : option nat),
    reg s = (if built then r1 else r0)
    /\ lock s = (match owner with Some _ => true | None => false end)
    /\ forall j t, nth_error (tasks s) j = Some t ->
         fst t = tool_ref /\ task_ok h built owner j (snd t).

(** The schedule that lets the callers run one after the other; four steps
    take a caller from [Waiting] to [Done]. *)
Definition one_by_one (n : nat) : list nat :=
  flat_map (fun i => [i; i; i; i]) (seq 0 n).

(** A configuration file in which every server is a mapping whose command
    can be built (its [args] are strings). *)
Definition well_shaped (getenv : string -> option string)
    (servers : ODict.t ServerEntry) : Prop :=
  forall nm e, In (nm, e) servers ->
    exists c, e = SMapping c /\ exists o, _build_command getenv c = Ok o.

(** [server_config.get("type") == "stdio"] *)
Definition is_stdio (c : ServerConfig) : bool :=
  match sc_type c with
  | Some t => String.eqb t "stdio"
  | None => false
  end.

(** The status a configured server ends up with: [True] exactly for a
    mapping of type [stdio] whose command line can be built. The outcome of
    the discovery probe plays no part. *)
Definition verdict (getenv : string -> option string) (e : ServerEntry)
  : bool :=
  match e with
  | SOther => false
  | SMapping c =>
      is_stdio c
      && match _build_command getenv c with
         | Ok _ => true
         | Raise _ => false
         end
  end.

Definition expected_results (getenv : string -> option string)
    (servers : ODict.t ServerEntry) : ODict.t bool :=
  map (fun kv => (fst kv, verdict getenv (snd kv))) servers.

(** The status [initialize_all_servers] records for an outcome. *)
Definition recorded (status : Outcome bool) : bool :=
  match status with
  | Ok b => b
  | Raise _ => false
  end.

(** The catalog only grows from [w] to [w'], and the configuration file is
    the same. *)
Definition grows (w w' : World) : Prop :=
  mcp_servers (fst w') = mcp_servers (fst w)
  /\ forall k, ODict.mem (_tools (snd w)) k = true ->
               ODict.mem (_tools (snd w')) k = true.

(** The phase in which [initialize_server] leaves a server that was not
    initialized before: a function of the configuration file alone. *)
Definition phase_of (getenv : string -> option string)
    (servers : ODict.t ServerEntry) (nm : string) : Phase :=
  fst (init_begin getenv nm (mkManager servers [], init)).

(** The tasks of a batch that finish without suspending ... *)
Definition done_of (getenv : string -> option string)
    (servers : ODict.t ServerEntry) (names : list string)
  : ODict.t (Outcome bool) :=
  flat_map
    (fun nm => match phase_of getenv servers nm with
               | Finished status => [(nm, status)]
               | Suspended _ _ _ => []
               end)
    names.

(** ... and those that wait for their probe. *)
Definition pend_of (getenv : string -> option string)
    (servers : ODict.t ServerEntry) (names : list string) : list Pending :=
  flat_map
    (fun nm => match phase_of getenv servers nm with
               | Finished _ => []
               | Suspended rc cmd env => [mkPending nm rc cmd env]
               end)
    names.

(** ** Further functions of the registry, the manager and their callers *)

(** [list_tools] is also called with a plain string ([tool_type="local"] in
    [initialize_tools_system]); a member of the [ToolType] enumeration never
    equals a string. *)
Inductive TypeArg : Type :=
| ArgEnum (t : ToolType)
| ArgStr (s : string).

Definition arg_truthy (a : TypeArg) : bool :=
  match a with
  | ArgEnum _ => true
  | ArgStr s => PyStr.truthy s
  end.

(** [metadata.type == tool_type] *)
Definition type_matches (ty : ToolType) (a : TypeArg) : bool :=
  match a with
  | ArgEnum t => ToolType_eqb ty t
  | ArgStr _ => false
  end.

(** [list_tools] for an argument of either kind. *)
Definition list_tools_arg (tool_type : option TypeArg) (r : ToolRegistry)
  : list string :=
  match tool_type with
  | Some a =>
      if arg_truthy a then
        map fst (filter (fun kv => type_matches (type (snd kv)) a) (_tools r))
      else ODict.keys (_tools r)
  | None => ODict.keys (_tools r)
  end.

(** *** [MCPServerManager]: accessors *)

Definition get_server_config (server_name : string) (m : MCPServerManager)
  : option ServerEntry :=
  ODict.get (mcp_servers m) server_name.

Definition list_configured_servers (m : MCPServerManager) : list string :=
  ODict.keys (mcp_servers m).

(** [self.initialized_servers.get(server_name, False)] *)
Definition is_server_initialized (server_name : string)
    (m : MCPServerManager) : bool :=
  match ODict.get (initialized_servers m) server_name with
  | Some b => b
  | None => false
  end.

(** *** [core/startup.py] *)

Definition register_local_tools (r : ToolRegistry) : ToolRegistry :=
  register_local_tool "YFinanceTools" "YFinanceTools"
    (Some [("description", VStr "Financial data and stock market analysis")])
    (register_local_tool "DuckDuckGoTools" "DuckDuckGoTools"
       (Some [("description", VStr "Web search capabilities via DuckDuckGo")])
       r).

Section Startup.

Variable getenv : string -> option string.
Variable probe : string -> CfgVal -> Outcome (list string).

(** The loop of [initialize_mcp_servers] over an explicit list: one server
    after the other; an exception leaves the loop. *)
Fixpoint initialize_each (servers : list string) (results : ODict.t bool)
    (w : World) : Outcome (ODict.t bool) * World :=
  match servers with
  | [] => (Ok results, w)
  | server :: rest =>
      match initialize_server getenv probe server w with
      | (Ok success, w') =>
          initialize_each rest (ODict.set results server success) w'
      | (Raise e, w') => (Raise e, w')
      end
  end.

Definition initialize_mcp_servers (servers : option (list string))
    (choose : nat -> nat) (w : World) : Outcome (ODict.t bool) * World :=
  match servers with
  | Some (server :: rest) => initialize_each (server :: rest) [] w
  | _ =>
      let (results, w') := initialize_all_servers getenv probe choose w in
      (Ok results, w')
  end.

(** The dictionary [initialize_tools_system] returns. *)
Record ToolsSystem : Type := mkToolsSystem {
  ts_local_tools : list string;
  ts_mcp_servers : ODict.t bool;
  ts_total_tools : nat
}.

Definition initialize_tools_system (choose : nat -> nat) (w : World)
  : Outcome ToolsSystem * World :=
  let (m, r) := w in
  let w0 := (m, register_local_tools r) in
  match initialize_mcp_servers None choose w0 with
  | (Raise e, w') => (Raise e, w')
  | (Ok mcp_results, w') =>
      let total_tools := List.length (list_tools_arg None (snd w')) in
      (Ok (mkToolsSystem
             (list_tools_arg (Some (ArgStr "local")) (snd w'))
             mcp_results total_tools),
       w')
  end.

End Startup.

(** The dictionary [get_tool_summary] returns. *)
Record ToolSummary : Type := mkToolSummary {
  sum_local_tools : list string;
  sum_mcp_tools : list string;
  sum_initialized_servers : list string;
  sum_configured_servers : list string;
  sum_total_tools : nat
}.

Definition get_tool_summary (w : World) : ToolSummary :=
  let (m, r) := w in
  mkToolSummary
    (list_tools_arg (Some (ArgEnum LOCAL)) r)
    (list_tools_arg (Some (ArgEnum MCP)) r)
    (ODict.keys (initialized_servers m))
    (list_configured_servers m)
    (List.length (list_tools_arg None r)).

(** *** [DynamicToolLoader]: building the tools *)

Section LoaderTools.

Variable getenv : string -> option string.
Variable loader_servers : ODict.t ServerEntry.

(** [get_mcp_tools]; [o] is the identity the constructed object gets. *)
Definition get_mcp_tools (o : nat) (mcp_configs : list string)
  : Outcome (option Runtime) :=
  match mcp_configs with
  | [] => Ok None
  | _ =>
      match parse_mcp_config getenv loader_servers mcp_configs with
      | Raise e => Raise e
      | Ok parsed =>
          match commands parsed with
          | [] => Ok None
          | [command] =>
              Ok (Some (MCPTools o (VStr command) (or_none (VDict (env parsed)))
                          (include_tools parsed)))
          | cmds =>
              Ok (Some (MultiMCPTools o (map VStr cmds)
                          (or_none (VDict (env parsed)))
                          (include_tools parsed)))
          end
      end
  end.

End LoaderTools.

(** [get_local_tool]: the two built-in tools, [None] for any other name. *)
Definition get_local_tool (o : nat) (tool_name : string) : option Runtime :=
  if String.eqb tool_name "DuckDuckGoTools" then
    Some (LocalTool o "DuckDuckGoTools")
  else if String.eqb tool_name "YFinanceTools" then
    Some (LocalTool o "YFinanceTools")
  else None.

(** [process_tools_list]; the entries of [tools_config] are YAML scalars and
    only strings are looked at. [o] is the next free identity; the result
    carries the one after the last instance. *)
Fixpoint process_tools_loop (tools_config : list Scalar)
    (local_tools : list Runtime) (mcp_configs : list string) (o : nat)
  : list Runtime * list string * nat :=
  match tools_config with
  | [] => (local_tools, mcp_configs, o)
  | SStr tool :: rest =>
      if PyStr.startswith "mcp:" tool then
        process_tools_loop rest local_tools (mcp_configs ++ [tool]) o
      else
        match get_local_tool o tool with
        | Some local_tool =>
            process_tools_loop rest (local_tools ++ [local_tool]) mcp_configs
              (S o)
        | None => process_tools_loop rest local_tools mcp_configs o
        end
  | SInt _ :: rest => process_tools_loop rest local_tools mcp_configs o
  end.

Definition process_tools_list (tools_config : list Scalar) (o : nat)
  : list Runtime * list string * nat :=
  process_tools_loop tools_config [] [] o.

(** *** [AgentConfigLoader] and [AgentFactory] *)

(** An agent description of [agents_config.yaml], each key optional. *)
Record AgentConfig : Type := mkAgentConfig {
  ac_name : option string;
  ac_agent_id : option string;
  ac_model : option string;
  ac_description : option string;
  ac_instructions : option string;
  ac_tools : option (list Scalar)
}.

Definition AgentConfigLoader := ODict.t AgentConfig.

Definition get_agent_config (agent_name : string) (cl : AgentConfigLoader)
  : Outcome AgentConfig :=
  match ODict.get cl agent_name with
  | Some c => Ok c
  | None => Raise ValueError
  end.




Definition get_agent_model (agent_name : string) (cl : AgentConfigLoader)
  : Outcome string :=
  match get_agent_config agent_name cl with
  | Ok c => Ok (match ac_model c with Some m => m | None => "gpt-4.1" end)
  | Raise e => Raise e
  end.




(** The loop of [AgentFactory._get_tools_from_registry]. *)
Fixpoint factory_loop (tools_config : list Scalar) (local_tools : list Runtime)
    (mcp_refs : list string) (r : ToolRegistry)
  : list Runtime * list string * ToolRegistry :=
  match tools_config with
  | [] => (local_tools, mcp_refs, r)
  | SStr tool_ref :: rest =>
      if PyStr.startswith "mcp:" tool_ref then
        factory_loop rest local_tools (mcp_refs ++ [tool_ref]) r
      else
        match get_tool_runtime tool_ref r with
        | (Some tool, r') =>
            factory_loop rest (local_tools ++ [tool]) mcp_refs r'
        | (None, r') => factory_loop rest local_tools mcp_refs r'
        end
  | SInt _ :: rest => factory_loop rest local_tools mcp_refs r
  end.

Definition _get_tools_from_registry (tools_config : list Scalar)
    (r : ToolRegistry) : Outcome (list Runtime) * ToolRegistry :=
  match factory_loop tools_config [] [] r with
  | (local_tools, mcp_refs, r1) =>
      match mcp_refs with
      | [] => (Ok local_tools, r1)
      | _ =>
          match _get_combined_mcp_runtime mcp_refs r1 with
          | (Ok (Some mcp_runtime), r2) =>
              (Ok (local_tools ++ [mcp_runtime]), r2)
          | (Ok None, r2) => (Ok local_tools, r2)
          | (Raise e, r2) => (Raise e, r2)
          end
      end
  end.

(** The registries a program can reach through the registry's operations,
    starting from [ToolRegistry()]. *)
Inductive reachable : ToolRegistry -> Prop :=
| reach_init : reachable init
| reach_register_local nm factory_func cfg r :
    reachable r -> reachable (register_local_tool nm factory_func cfg r)
| reach_register_mcp nm srv cfg r :
    reachable r -> reachable (register_mcp_tool nm srv cfg r)
| reach_register_server srv tools cfg r :
    reachable r -> reachable (register_mcp_server_tools srv tools cfg r)
| reach_get_tool_runtime tool_ref r :
    reachable r -> reachable (snd (get_tool_runtime tool_ref r))
| reach_get_tools_for_agent tool_refs r :
    reachable r -> reachable (snd (get_tools_for_agent tool_refs r))
| reach_combined mcp_refs r :
    reachable r -> reachable (snd (_get_combined_mcp_runtime mcp_refs r))
| reach_clear r :
    reachable r -> reachable (clear_mcp_cache r).

(** What holds of every reachable registry: no key occurs twice in the
    catalog or in the cache, every cache key is an ["mcp:"] reference, and
    every cached object is a single-server [MCPTools] allocated earlier. *)
Definition is_single_mcp (h : Runtime) : bool :=
  match h with MCPTools _ _ _ _ => true | _ => false end.

Record registry_inv (r : ToolRegistry) : Prop := mkRegistryInv {
  inv_tools_nodup : NoDup (ODict.keys (_tools r));
  inv_cache_nodup : NoDup (ODict.keys (_mcp_runtime_cache r));
  inv_cache_keys :
    forall k h, In (k, h) (_mcp_runtime_cache r) ->
      PyStr.startswith "mcp:" k = true /\ is_single_mcp h = true;
  inv_cache_wf : cache_wf r
}.

(** Every configuration of the catalog has a mapping (or nothing) under
    ["env"]. *)
Definition env_is_dict (catalog : ODict.t ToolMetadata) : Prop :=
  forall k md, In (k, md) catalog ->
    exists d, cfg_get_env (config md) = VDict d.

(** No reference of the list names a server with a configuration. *)
Definition unresolvable (mcp_refs : list string)
    (catalog : ODict.t ToolMetadata) : Prop :=
  forall ref p0 srv rest,
    In ref mcp_refs -> PyStr.split ":" ref = p0 :: srv :: rest ->
    first_server_entry srv catalog = None.

(** [value.startswith("${") and value.endswith("}")] *)
Definition is_placeholder (value : string) : bool :=
  PyStr.startswith "${" value && PyStr.endswith "}" value.

(** [server_config.get("args", [])] and the command as a list of parts. *)
Definition args_of (c : ServerConfig) : list Scalar :=
  match sc_args c with Some a => a | None => [] end.

Definition command_of (c : ServerConfig) : list string :=
  match sc_command c with Some s => [s] | None => [] end.

(** The memo [initialized_servers] holds for an entry of the configuration
    file once the entry was initialized: servers of another type and
    entries that are no mappings are not memoized. *)
Definition expected_memo (getenv : string -> option string)
    (e : ServerEntry) : option bool :=
  match e with
  | SOther => None
  | SMapping c =>
      if is_stdio c then Some (verdict getenv e) else None
  end.

Definition memo_settled (getenv : string -> option string) (w : World)
  : Prop :=
  forall nm e, In (nm, e) (mcp_servers (fst w)) ->
    ODict.get (initialized_servers (fst w)) nm = expected_memo getenv e.

(** The status [initialize_server] returns for an entry of the
    configuration file: an entry that is no mapping makes it raise. *)
Definition entry_status (getenv : string -> option string)
    (e : ServerEntry) : Outcome bool :=
  match e with
  | SOther => Raise AttributeError
  | SMapping _ => Ok (verdict getenv e)
  end.

Definition status_at (getenv : string -> option string)
    (servers : ODict.t ServerEntry) (nm : string) : Outcome bool :=
  match ODict.get servers nm with
  | Some e => entry_status getenv e
  | None => Ok false
  end.

(** Every entry of the configuration file is a mapping. *)
Definition all_mappings (servers : ODict.t ServerEntry) : Prop :=
  forall nm e, In (nm, e) servers -> exists c, e = SMapping c.

(** The strings of a YAML list. *)
Definition strings_of (l : list Scalar) : list string :=
  flat_map (fun x => match x with SStr s => [s] | SInt _ => [] end) l.

(** The tools a configuration string asks for in brackets. *)
Definition requested_tools (config : string) : list string :=
  if PyStr.startswith "mcp:" config then
    match parse_brackets (PyStr.drop 4 config) with
    | Ok (_, Some l) => l
    | _ => []
    end
  else [].

(** The command a configuration string contributes: that of its server, if
    the server is configured as a [stdio] mapping with a non-empty command. *)
Definition usable_command (getenv : string -> option string)
    (servers : ODict.t ServerEntry) (config : string) : list string :=
  if PyStr.startswith "mcp:" config then
    match parse_brackets (PyStr.drop 4 config) with
    | Ok (server_name, _) =>
        match ODict.get servers server_name with
        | Some (SMapping c) =>
            if is_stdio c then
              match _build_command getenv c with
              | Ok (Some (String a cmd)) => [String a cmd]
              | _ => []
              end
            else []
        | _ => []
        end
    | Raise _ => []
    end
  else [].

(** The names [get_local_tool] knows. *)
Definition is_builtin (tool_name : string) : bool :=
  String.eqb tool_name "DuckDuckGoTools" || String.eqb tool_name "YFinanceTools".

(** The runtime configuration [initialize_server] builds. *)
Definition manager_config (rc : Config) : Prop :=
  exists cmd d, rc = [("command", cmd); ("env", VDict d); ("type", VStr "stdio")].

(** The worlds the manager can make of a world: it registers what was
    discovered for a server and marks servers in its memo, nothing else. *)
Inductive evolves (w : World) : World -> Prop :=
| ev_refl : evolves w w
| ev_register nm tools rc w' :
    manager_config rc -> evolves w w' ->
    evolves w (register_discovered nm tools rc w')
| ev_mark nm b m' r' :
    evolves w (m', r') -> evolves w (mark nm b m', r').

(** The route [reload-tools] of [api/routes/agents_v2.py]: clear the cache,
    then initialize the tools system again. *)
Definition reload_tools (getenv : string -> option string)
    (probe : string -> CfgVal -> Outcome (list string))
    (choose : nat -> nat) (w : World) : Outcome ToolsSystem * World :=
  let (m, r) := w in
  initialize_tools_system getenv probe choose (m, clear_mcp_cache r).

(** Callers of [get_tool_runtime] with references of their own, none of
    them started. *)
Definition start_refs (tool_refs : list string) (r : ToolRegistry) : Sys :=
  mkSys r false (map (fun ref => (ref, Waiting)) tool_refs).

(** A caller is inside the body while it holds the lock. *)
Definition in_body (pc : PC) : bool :=
  match pc with
  | Locked | Missed | Releasing _ => true
  | Waiting | Done _ => false
  end.

Definition mutex_inv (s : Sys) : Prop :=
  exists owner : option nat,
    lock s = (match owner with Some _ => true | None => false end)
    /\ (forall j t, nth_error (tasks s) j = Some t ->
          (in_body (snd t) = true <-> owner = Some j))
    /\ (forall k, owner = Some k -> nth_error (tasks s) k <> None).

(** The class the catalog instantiates for a reference: that of the
    [LOCAL] record stored under the reference, if the record has a factory. *)
Definition catalog_class (catalog : ODict.t ToolMetadata) (ref : string)
  : list string :=
  match ODict.get catalog ref with
  | Some md =>
      match type md, runtime_factory md with
      | LOCAL, Some cls => [cls]
      | _, _ => []
      end
  | None => []
  end.

(** The catalog holds an MCP record of the server with a non-empty
    configuration. *)
Definition configured (catalog : ODict.t ToolMetadata) (srv : string) : Prop :=
  exists k md,
    In (k, md) catalog /\ type md = MCP /\ server md = Some srv
    /\ config md <> [].

(** Some reference of the list names, as its second colon-separated part, a
    server the catalog has a configuration for. *)
Definition names_configured (catalog : ODict.t ToolMetadata)
    (mcp_refs : list string) : Prop :=
  exists ref p0 srv rest,
    In ref mcp_refs /\ PyStr.split ":" ref = p0 :: srv :: rest
    /\ configured catalog srv.

(** * Properties *)

Unset Implicit Arguments.

(** ** Dictionaries *)

Module ODictFacts.

Section Facts.
Variable V : Type.
Implicit Types (d e : ODict.t V) (k : string) (v : V).

Lemma get_set_same d k v : ODict.get (ODict.set d k v) k = Some v.
Proof.
  induction d as [|[k' v'] r IH]; simpl.
  - now rewrite String.eqb_refl.
  - destruct (String.eqb k' k) eqn:E; simpl; rewrite E; auto.
Qed.

Lemma get_set_other d k k' v :
  k <> k' -> ODict.get (ODict.set d k v) k' = ODict.get d k'.
Proof.
  intros Hne. induction d as [|[k0 v0] r IH]; simpl.
  - destruct (String.eqb_spec k k'); congruence.
  - destruct (String.eqb_spec k0 k) as [->|Hk]; simpl.
    + destruct (String.eqb_spec k k'); congruence.
    + destruct (String.eqb_spec k0 k'); auto.
Qed.

(** Writing the value a key already holds changes nothing, not even the
    order of the keys. *)
Lemma set_same_id d k v : ODict.get d k = Some v -> ODict.set d k v = d.
Proof.
  induction d as [|[k' v'] r IH]; simpl; [discriminate|].
  destruct (String.eqb_spec k' k) as [->|Hk]; intros H.
  - now inversion H.
  - now rewrite IH.
Qed.

Lemma keys_set_mem d k v :
  ODict.mem d k = true -> ODict.keys (ODict.set d k v) = ODict.keys d.
Proof.
  unfold ODict.mem. induction d as [|[k' v'] r IH]; simpl; [discriminate|].
  destruct (String.eqb_spec k' k) as [->|Hk]; simpl; intros H; auto.
  now rewrite IH.
Qed.

Lemma keys_set_new d k v :
  ODict.mem d k = false -> ODict.keys (ODict.set d k v) = ODict.keys d ++ [k].
Proof.
  unfold ODict.mem. induction d as [|[k' v'] r IH]; simpl; auto.
  destruct (String.eqb_spec k' k) as [->|Hk]; simpl; intros H;
    [discriminate|]. now rewrite IH.
Qed.

Lemma get_None_not_In d k : ODict.get d k = None -> ~ In k (ODict.keys d).
Proof.
  induction d as [|[k' v'] r IH]; simpl; auto.
  destruct (String.eqb_spec k' k) as [->|Hk]; [discriminate|].
  intros H [E|HI]; [congruence|]. now apply IH.
Qed.

Lemma get_None_not_In_conv d k : ~ In k (ODict.keys d) -> ODict.get d k = None.
Proof.
  induction d as [|[k' v'] r IH]; simpl; auto.
  destruct (String.eqb_spec k' k) as [->|Hk]; intros H; [tauto|].
  apply IH. tauto.
Qed.

(** In a dictionary without duplicate keys a stored pair is the one found. *)
Lemma In_get d k v :
  NoDup (ODict.keys d) -> In (k, v) d -> ODict.get d k = Some v.
Proof.
  induction d as [|[k' v'] r IH]; simpl; [tauto|].
  intros Hnd [E|Hin].
  - inversion E; subst. now rewrite String.eqb_refl.
  - inversion Hnd; subst.
    destruct (String.eqb_spec k' k) as [->|Hk]; [|auto].
    exfalso. apply H1. unfold ODict.keys. apply in_map_iff. now exists (k, v).
Qed.

Lemma get_In d k v : ODict.get d k = Some v -> In (k, v) d.
Proof.
  induction d as [|[k' v'] r IH]; simpl; [discriminate|].
  destruct (String.eqb_spec k' k) as [->|Hk]; intros H.
  - inversion H; auto.
  - auto.
Qed.

(** Keys stay pairwise distinct under assignment. *)
Lemma NoDup_keys_set d k v :
  NoDup (ODict.keys d) -> NoDup (ODict.keys (ODict.set d k v)).
Proof.
  intros Hnd. destruct (ODict.mem d k) eqn:E.
  - now rewrite keys_set_mem.
  - rewrite keys_set_new by assumption.
    unfold ODict.mem in E. destruct (ODict.get d k) eqn:G; [discriminate|].
    apply get_None_not_In in G. clear E.
    induction (ODict.keys d) as [|a l IH]; simpl.
    + constructor; [easy|constructor].
    + inversion Hnd; subst. constructor.
      * rewrite in_app_iff. intros [H|[H|[]]]; [easy|].
        apply G. now left.
      * apply IH; auto. intros H. apply G. now right.
Qed.

Lemma mem_set_mono d k v k' :
  ODict.mem d k' = true -> ODict.mem (ODict.set d k v) k' = true.
Proof.
  unfold ODict.mem. destruct (String.eqb_spec k k') as [->|Hne].
  - now rewrite get_set_same.
  - now rewrite get_set_other.
Qed.

Lemma update_cons d k v e :
  ODict.update d ((k, v) :: e) = ODict.update (ODict.set d k v) e.
Proof. reflexivity. Qed.

Lemma update_app d e1 e2 :
  ODict.update d (e1 ++ e2) = ODict.update (ODict.update d e1) e2.
Proof. unfold ODict.update. now rewrite fold_left_app. Qed.

Lemma NoDup_keys_update e : forall d,
  NoDup (ODict.keys d) -> NoDup (ODict.keys (ODict.update d e)).
Proof.
  induction e as [|[k v] e IH]; intros d H; [exact H|].
  rewrite update_cons. apply IH. now apply NoDup_keys_set.
Qed.

Lemma get_update_notin e : forall d k,
  ~ In k (ODict.keys e) -> ODict.get (ODict.update d e) k = ODict.get d k.
Proof.
  induction e as [|[k0 v0] e IH]; intros d k Hn; [reflexivity|].
  rewrite update_cons, IH.
  - apply get_set_other. intros ->. apply Hn. now left.
  - intros H. apply Hn. now right.
Qed.

Lemma functional_tail kv e : ODict.functional (kv :: e) -> ODict.functional e.
Proof. intros F k v v' H H'. apply (F k); now right. Qed.

Lemma get_update_in e : forall d k v,
  ODict.functional e -> In (k, v) e -> ODict.get (ODict.update d e) k = Some v.
Proof.
  induction e as [|[k0 v0] e IH]; intros d k v F Hin; [destruct Hin|].
  rewrite update_cons.
  destruct (in_dec string_dec k (ODict.keys e)) as [Hk|Hk].
  - unfold ODict.keys in Hk. apply in_map_iff in Hk.
    destruct Hk as [[k1 v1] [E Hin1]]. simpl in E. subst k1.
    assert (v1 = v) by (apply (F k); [now right|exact Hin]). subst v1.
    apply IH; [now apply functional_tail in F|exact Hin1].
  - destruct Hin as [E|Hin].
    + inversion E; subst. rewrite get_update_notin by assumption.
      apply get_set_same.
    + exfalso. apply Hk. unfold ODict.keys. apply in_map_iff.
      now exists (k, v).
Qed.

Lemma update_satisfied e : forall d,
  (forall k v, In (k, v) e -> ODict.get d k = Some v) -> ODict.update d e = d.
Proof.
  induction e as [|[k v] e IH]; intros d H; [reflexivity|].
  rewrite update_cons, set_same_id by (apply H; now left).
  apply IH. intros k' v' Hin. apply H. now right.
Qed.

(** Applying such a batch a second time changes nothing. *)
Lemma update_idempotent d e :
  ODict.functional e -> ODict.update (ODict.update d e) e = ODict.update d e.
Proof.
  intros F. apply update_satisfied. intros k v Hin. now apply get_update_in.
Qed.

Lemma mem_update_mono e : forall d k,
  ODict.mem d k = true -> ODict.mem (ODict.update d e) k = true.
Proof.
  induction e as [|[k0 v0] e IH]; intros d k H; [exact H|].
  rewrite update_cons. apply IH. now apply mem_set_mono.
Qed.

End Facts.

End ODictFacts.

(** ** Strings *)

Module PyStrFacts.

Local Open Scope string_scope.

Lemma append_length s t :
  String.length (s ++ t) = String.length s + String.length t.
Proof. induction s; simpl; auto. Qed.

Lemma append_inj_l s t u : s ++ t = s ++ u -> t = u.
Proof. induction s; simpl; intros H; [exact H|]. inversion H; auto. Qed.

Lemma append_assoc s t u : (s ++ t) ++ u = s ++ (t ++ u).
Proof. induction s; simpl; congruence. Qed.

Lemma append_nil_r s : s ++ "" = s.
Proof. induction s; simpl; congruence. Qed.

(** A string is not one of its own proper extensions. *)
Lemma append_neq_self s a t : s <> s ++ String a t.
Proof.
  intros H. apply (f_equal String.length) in H.
  rewrite append_length in H. simpl in H. lia.
Qed.

Lemma startswith_append p s : PyStr.startswith p (p ++ s) = true.
Proof.
  unfold PyStr.startswith. induction p; simpl.
  - now destruct s.
  - destruct (ascii_dec a a); [exact IHp|congruence].
Qed.

Lemma split_nonempty c s : PyStr.split c s <> [].
Proof.
  destruct s as [|a s]; simpl; [discriminate|].
  destruct (Ascii.eqb a c); [discriminate|].
  destruct (PyStr.split c s); discriminate.
Qed.

(** Splitting passes over a prefix that does not hold the separator. *)
Lemma split_app c p s :
  PyStr.contains c p = false ->
  PyStr.split c (p ++ s)
  = match PyStr.split c s with
    | h :: t => (p ++ h) :: t
    | [] => [p]
    end.
Proof.
  induction p as [|a p IH]; simpl; intros H.
  - destruct (PyStr.split c s) eqn:E; [|reflexivity].
    now apply split_nonempty in E.
  - apply orb_false_iff in H. destruct H as [Ha Hp].
    rewrite Ha, (IH Hp). destruct (PyStr.split c s); reflexivity.
Qed.

Lemma contains_app c p s :
  PyStr.contains c (p ++ s) = PyStr.contains c p || PyStr.contains c s.
Proof.
  induction p as [|a p IH]; simpl; [reflexivity|].
  now rewrite IH, orb_assoc.
Qed.

Lemma index_app c p s :
  PyStr.contains c p = false ->
  PyStr.index c (p ++ String c s) = Some (String.length p).
Proof.
  induction p as [|a p IH]; simpl; intros H.
  - now rewrite Ascii.eqb_refl.
  - apply orb_false_iff in H. destruct H as [Ha Hp].
    now rewrite Ha, (IH Hp).
Qed.

Lemma substring_prefix p s :
  String.substring 0 (String.length p) (p ++ s) = p.
Proof.
  induction p as [|a p IH]; simpl; [now destruct s|now rewrite IH].
Qed.

Lemma substring_skip p n m s :
  String.substring (String.length p + n) m (p ++ s) = String.substring n m s.
Proof. induction p as [|a p IH]; simpl; auto. Qed.

Lemma contains_join_false c sep x rest :
  PyStr.contains c (PyStr.join sep (x :: rest)) = false ->
  PyStr.contains c x = false.
Proof.
  destruct rest; simpl; [auto|].
  rewrite contains_app. intros H. now apply orb_false_iff in H.
Qed.

(** [sep.join(parts).split(sep)] gives the parts back when none of them
    holds the separator and there is at least one. *)
Lemma split_join c parts :
  parts <> [] ->
  Forall (fun s => PyStr.contains c s = false) parts ->
  PyStr.split c (PyStr.join (String c "") parts) = parts.
Proof.
  induction parts as [|x rest IH]; [congruence|]. intros _ F.
  inversion F as [|? ? Hx Hrest]; subst.
  destruct rest as [|y rest].
  - simpl. rewrite <- (append_nil_r x) at 1. rewrite (split_app _ _ _ Hx).
    simpl. now rewrite append_nil_r.
  - change (PyStr.join (String c "") (x :: y :: rest))
      with (x ++ String c (PyStr.join (String c "") (y :: rest))).
    rewrite (split_app _ _ _ Hx).
    cbn [PyStr.split]. rewrite Ascii.eqb_refl.
    rewrite IH by (auto; discriminate). simpl. now rewrite append_nil_r.
Qed.

End PyStrFacts.

(** ** Registration *)

Section Registration.

Local Open Scope string_scope.
Import ODictFacts PyStrFacts.

Lemma register_mcp_tool_eq nm srv cfg r :
  register_mcp_tool nm srv (Some cfg) r
  = with_tools r (ODict.set (_tools r) (full_name srv nm) (mcp_entry srv nm cfg)).
Proof. reflexivity. Qed.

Lemma register_fold_eq srv cfg tools : forall r,
  fold_left (fun acc tool => register_mcp_tool (Some tool) srv (Some cfg) acc)
    tools r
  = with_tools r
      (ODict.update (_tools r)
         (map (fun t => (full_name srv (Some t), mcp_entry srv (Some t) cfg))
            tools)).
Proof.
  induction tools as [|t tools IH]; intros r; simpl.
  - now destruct r.
  - rewrite IH. reflexivity.
Qed.

(** [register_mcp_server_tools] is one batch of assignments to the catalog;
    the cache and the allocation serial are untouched. *)
Lemma register_mcp_server_tools_eq srv tools cfg r :
  register_mcp_server_tools srv tools cfg r
  = with_tools r (ODict.update (_tools r) (server_writes srv tools cfg)).
Proof.
  unfold register_mcp_server_tools, server_writes.
  rewrite register_fold_eq, register_mcp_tool_eq, update_app. reflexivity.
Qed.

(** For one server, the catalog key determines the record written. *)
Lemma full_name_determines_entry srv nm nm' cfg :
  full_name srv nm = full_name srv nm' ->
  mcp_entry srv nm cfg = mcp_entry srv nm' cfg.
Proof.
  unfold mcp_entry.
  destruct nm as [[|a s]|], nm' as [[|a' s']|]; simpl; intros H;
    try reflexivity; injection H as H;
    try (exfalso;
         first [ exact (append_neq_self _ _ _ H)
               | exact (append_neq_self _ _ _ (eq_sym H)) ]).
  apply append_inj_l in H. inversion H; reflexivity.
Qed.

Lemma server_writes_In srv tools cfg k v :
  In (k, v) (server_writes srv tools cfg) ->
  exists nm, k = full_name srv nm /\ v = mcp_entry srv nm cfg.
Proof.
  unfold server_writes. rewrite in_app_iff, in_map_iff.
  intros [[t [E _]]|[E|[]]]; inversion E; subst.
  - now exists (Some t).
  - now exists None.
Qed.

Lemma server_writes_functional srv tools cfg :
  ODict.functional (server_writes srv tools cfg).
Proof.
  intros k v v' H H'.
  apply server_writes_In in H. apply server_writes_In in H'.
  destruct H as [nm [-> ->]], H' as [nm' [E ->]].
  now apply full_name_determines_entry.
Qed.

End Registration.

(** C6 (as stated) fails for a capability whose name is the empty string:
    [register_mcp_tool] takes the [else] branch of [if name] and writes the
    server-wide key, so the list [[""]] leaves no entry under
    ["mcp:x:" ++ ""]; the catalog holds the single key ["mcp:x"]. *)
Lemma register_empty_capability_no_entry :
  let r1 := register_mcp_server_tools "x" [""] [("command", VStr "run")] init in
  (exists c, In c [""] /\ get_tool_metadata ("mcp:x:" ++ c) r1 = None)
  /\ list_tools None r1 = ["mcp:x"].
Proof.
  split; [exists ""; split; [now left|reflexivity]|reflexivity].
Qed.

(** C6 (amended): registering a server's tools a second time leaves the
    registry exactly as the first registration left it. After the
    registration every non-empty capability name [c] of the list has the
    entry ["mcp:{server}:{c}"] and the server has its server-wide entry
    ["mcp:{server}"], both carrying the configuration just given (the last
    write wins); all other keys keep their entries, a catalog without
    duplicate keys stays without duplicates, and the cache is untouched. *)
Theorem register_mcp_server_tools_idempotent srv tools cfg r :
  let r1 := register_mcp_server_tools srv tools cfg r in
  register_mcp_server_tools srv tools cfg r1 = r1
  /\ (forall c, In c tools -> c <> ""%string ->
        get_tool_metadata ("mcp:" ++ srv ++ ":" ++ c) r1
        = Some (mkToolMetadata c MCP (Some srv) None
                  (config_or_empty (Some cfg))))
  /\ get_tool_metadata ("mcp:" ++ srv) r1
     = Some (mkToolMetadata srv MCP (Some srv) None
               (config_or_empty (Some cfg)))
  /\ (forall k, ~ In k (ODict.keys (server_writes srv tools cfg)) ->
        get_tool_metadata k r1 = get_tool_metadata k r)
  /\ (NoDup (ODict.keys (_tools r)) -> NoDup (ODict.keys (_tools r1)))
  /\ _mcp_runtime_cache r1 = _mcp_runtime_cache r.
Proof.
  intros r1. subst r1. rewrite !register_mcp_server_tools_eq.
  pose proof (server_writes_functional srv tools cfg) as F.
  unfold get_tool_metadata, with_tools; simpl.
  repeat split.
  - now rewrite ODictFacts.update_idempotent.
  - intros c Hin Hc. apply ODictFacts.get_update_in; [exact F|].
    unfold server_writes. apply in_or_app. left.
    apply in_map_iff. exists c. split; [|exact Hin].
    destruct c as [|a c]; [congruence|reflexivity].
  - apply ODictFacts.get_update_in; [exact F|].
    unfold server_writes. apply in_or_app. right. now left.
  - intros k Hk. now apply ODictFacts.get_update_notin.
  - apply ODictFacts.NoDup_keys_update.
Qed.

(** The statement applied to a server with two capabilities. *)
Lemma register_mcp_server_tools_idempotent_witness :
  get_tool_metadata "mcp:x:a"
    (register_mcp_server_tools "x" ["a"; "b"] [("command", VStr "run")] init)
  = Some (mkToolMetadata "a" MCP (Some "x") None [("command", VStr "run")])
  /\ NoDup (ODict.keys (_tools
       (register_mcp_server_tools "x" ["a"; "b"] [("command", VStr "run")] init))).
Proof.
  pose proof (register_mcp_server_tools_idempotent
                "x" ["a"; "b"] [("command", VStr "run")] init) as H.
  cbv zeta in H. destruct H as (_ & Hc & _ & _ & Hnd & _).
  split.
  - apply (Hc "a"); [now left|discriminate].
  - apply Hnd. constructor.
Defined.

(** ** Resolving a list of references *)

Section ResolveMany.

Lemma allocated_0 r : allocated 0 r = r.
Proof. destruct r; unfold allocated; simpl. now rewrite Nat.add_0_r. Qed.

Lemma allocated_S n r :
  allocated n (mkToolRegistry (_tools r) (_mcp_runtime_cache r) (S (next_oid r)))
  = allocated (S n) r.
Proof. unfold allocated; simpl. f_equal. lia. Qed.

Lemma local_classes_alloc refs r o :
  local_classes refs (mkToolRegistry (_tools r) (_mcp_runtime_cache r) o)
  = local_classes refs r.
Proof. reflexivity. Qed.

Lemma instantiate_length o cs : List.length (instantiate o cs) = List.length cs.
Proof. revert o. induction cs; simpl; auto. Qed.

(** A reference without the prefix is served by the local branch only. *)
Lemma get_tool_runtime_local ref r :
  PyStr.startswith "mcp:" ref = false ->
  get_tool_runtime ref r
  = match local_entry ref r with
    | Some md =>
        match runtime_factory md with
        | Some cls =>
            (Some (LocalTool (next_oid r) cls),
             mkToolRegistry (_tools r) (_mcp_runtime_cache r) (S (next_oid r)))
        | None => (None, r)
        end
    | None => (None, r)
    end.
Proof.
  intros H. unfold get_tool_runtime. rewrite H.
  destruct (local_entry ref r); reflexivity.
Qed.

(** The loop appends the new local instances to [tools] and the prefixed
    references to [mcp_configs], both in input order. *)
Lemma agent_loop_spec refs : forall tools mcps r,
  agent_loop refs tools mcps r
  = (tools ++ instantiate (next_oid r) (local_classes refs r),
     mcps ++ filter (PyStr.startswith "mcp:") refs,
     allocated (List.length (local_classes refs r)) r).
Proof.
  induction refs as [|ref refs IH]; intros tools mcps r.
  - simpl. now rewrite !app_nil_r, allocated_0.
  - cbn [agent_loop filter local_classes flat_map].
    fold (local_classes refs r).
    destruct (PyStr.startswith "mcp:" ref) eqn:E.
    + rewrite IH, <- app_assoc. reflexivity.
    + rewrite (get_tool_runtime_local _ _ E).
      destruct (local_entry ref r) as [md|];
        [destruct (runtime_factory md) as [cls|]|]; rewrite IH;
        try reflexivity.
      rewrite local_classes_alloc, <- app_assoc, allocated_S. reflexivity.
Qed.

Lemma instantiate_local o cs :
  Forall (fun t => is_mcp_handle t = false) (instantiate o cs).
Proof. revert o. induction cs; simpl; constructor; auto. Qed.

Lemma instantiate_oids o cs :
  map oid_of (instantiate o cs) = seq o (List.length cs).
Proof. revert o. induction cs; simpl; intros; f_equal; auto. Qed.

(** Whatever [_get_combined_mcp_runtime] returns is an MCP runtime. *)
Lemma combined_is_mcp refs r h r' :
  _get_combined_mcp_runtime refs r = (Ok (Some h), r') -> is_mcp_handle h = true.
Proof.
  unfold _get_combined_mcp_runtime.
  destruct (combine_loop (_tools r) refs ([], [])) as [[svs env]|e];
    [|discriminate].
  destruct svs as [|[n1 i1] [|kv svs]]; intros H; inversion H; reflexivity.
Qed.

(** A handle it returns is newly allocated; nothing else changes. *)
Lemma combined_fresh refs r h r1 :
  _get_combined_mcp_runtime refs r = (Ok (Some h), r1) ->
  oid_of h = next_oid r /\ r1 = allocated 1 r.
Proof.
  unfold _get_combined_mcp_runtime, allocated. rewrite Nat.add_1_r.
  destruct (combine_loop (_tools r) refs ([], [])) as [[svs env]|e];
    [|discriminate].
  destruct svs as [|[n1 i1] [|kv svs]]; intros H; inversion H; auto.
Qed.

Lemma first_server_entry_In srv catalog md :
  first_server_entry srv catalog = Some md -> exists k, In (k, md) catalog.
Proof.
  unfold first_server_entry.
  destruct (find _ catalog) as [[k md']|] eqn:F; [|discriminate].
  intros E. inversion E; subst. apply find_some in F. exists k. apply F.
Qed.

Lemma combine_step_ok catalog acc ref :
  env_is_dict catalog -> exists acc', combine_step catalog acc ref = Ok acc'.
Proof.
  intros He. unfold combine_step. destruct acc as [servers all_env].
  destruct (PyStr.split ":" ref) as [|p0 [|srv parts]]; eauto.
  destruct (first_server_entry srv catalog) as [md|] eqn:F; eauto.
  destruct (ODict.mem servers srv); eauto.
  destruct (first_server_entry_In _ _ _ F) as [k Hin].
  destruct (He k md Hin) as [d ->]. simpl. eauto.
Qed.

Lemma combine_loop_ok catalog refs : forall acc,
  env_is_dict catalog -> exists acc', combine_loop catalog refs acc = Ok acc'.
Proof.
  induction refs as [|ref rest IH]; intros acc He; simpl; eauto.
  destruct (combine_step_ok catalog acc ref He) as [acc' ->]. now apply IH.
Qed.

Lemma combined_ok refs r :
  env_is_dict (_tools r) ->
  exists o, fst (_get_combined_mcp_runtime refs r) = Ok o.
Proof.
  intros He. unfold _get_combined_mcp_runtime.
  destruct (combine_loop_ok (_tools r) refs ([], []) He) as [[svs env] ->].
  destruct svs as [|[n1 i1] [|kv svs]]; simpl; eauto.
Qed.

End ResolveMany.

Section ResolveManyCatalog.

(** [local_classes] read off the catalog. *)
Lemma local_classes_catalog tool_refs r :
  local_classes tool_refs r
  = flat_map (catalog_class (_tools r))
      (filter (fun ref => negb (PyStr.startswith "mcp:" ref)) tool_refs).
Proof.
  unfold local_classes.
  induction tool_refs as [|ref refs IH]; [reflexivity|].
  cbn [flat_map filter]. rewrite IH.
  destruct (PyStr.startswith "mcp:" ref); [reflexivity|].
  cbn [negb flat_map]. f_equal.
  unfold local_entry, catalog_class.
  destruct (ODict.get (_tools r) ref) as [md|]; [|reflexivity].
  destruct (type md); reflexivity.
Qed.

(** The inner loop of the combination finds an entry exactly for the
    servers the catalog has a configuration for. *)
Lemma first_server_entry_configured srv catalog :
  (exists md, first_server_entry srv catalog = Some md)
  <-> configured catalog srv.
Proof.
  unfold first_server_entry, configured. split.
  - intros [md H].
    destruct (find _ catalog) as [[k md']|] eqn:F; [|discriminate].
    apply find_some in F. destruct F as [Hin Hp]. cbn [snd] in Hp.
    apply andb_prop in Hp. destruct Hp as [Hp Hc].
    apply andb_prop in Hp. destruct Hp as [Ht Hs].
    exists k, md'. repeat split.
    + exact Hin.
    + destruct (type md'); [discriminate|reflexivity].
    + destruct (server md') as [s|]; [|discriminate].
      simpl in Hs. apply String.eqb_eq in Hs. now subst.
    + intros E. rewrite E in Hc. discriminate.
  - intros (k & md & Hin & Ht & Hs & Hc).
    destruct (find _ catalog) as [[k' md']|] eqn:F; [eauto|].
    apply (find_none _ _ F) in Hin. cbn [snd] in Hin.
    rewrite Ht, Hs in Hin. simpl in Hin. rewrite String.eqb_refl in Hin.
    destruct (config md); [congruence|discriminate].
Qed.

Lemma mem_nonempty (d : ODict.t ServerInfo) k :
  ODict.mem d k = true -> d <> [].
Proof. intros H E. subst. discriminate. Qed.

Lemma mem_set_same (d : ODict.t ServerInfo) k v :
  ODict.mem (ODict.set d k v) k = true.
Proof. unfold ODict.mem. now rewrite ODictFacts.get_set_same. Qed.

(** One reference: the servers collected so far stay, the server of a
    reference with a configuration is among them afterwards, and nothing is
    added for any other reference. *)
Lemma combine_step_servers catalog acc ref acc' :
  combine_step catalog acc ref = Ok acc' ->
  (forall srv, ODict.mem (fst acc) srv = true ->
     ODict.mem (fst acc') srv = true)
  /\ (forall p0 srv rest,
        PyStr.split ":" ref = p0 :: srv :: rest ->
        configured catalog srv -> ODict.mem (fst acc') srv = true)
  /\ (fst acc' = fst acc \/ names_configured catalog [ref]).
Proof.
  unfold combine_step. destruct acc as [servers all_env].
  destruct (PyStr.split ":" ref) as [|p0 [|srv parts]] eqn:Es.
  - intros E. inversion E. subst. repeat split; auto; discriminate.
  - intros E. inversion E. subst. repeat split; auto; discriminate.
  - destruct (first_server_entry srv catalog) as [md|] eqn:F.
    + assert (Hc : configured catalog srv).
      { apply first_server_entry_configured. eauto. }
      destruct (ODict.mem servers srv) eqn:M.
      * intros E. inversion E. subst. repeat split; auto.
        intros p0' srv' rest' E' _. inversion E'. subst. exact M.
      * destruct (dict_update all_env (cfg_get_env (config md)));
          [|discriminate].
        intros E. inversion E. subst. cbn [fst]. repeat split.
        -- intros s. apply ODictFacts.mem_set_mono.
        -- intros p0' srv' rest' E' _. inversion E'. subst.
           apply mem_set_same.
        -- right. exists ref, p0, srv, parts.
           split; [now left|]. split; [exact Es|exact Hc].
    + intros E. inversion E. subst. repeat split; auto.
      intros p0' srv' rest' E' Hc. inversion E'. subst.
      apply first_server_entry_configured in Hc. destruct Hc as [md Hc].
      congruence.
Qed.

Lemma names_configured_cons catalog ref refs :
  names_configured catalog [ref] \/ names_configured catalog refs ->
  names_configured catalog (ref :: refs).
Proof.
  intros [(x & p0 & srv & rest & Hin & H)|(x & p0 & srv & rest & Hin & H)];
    exists x, p0, srv, rest; (split; [|exact H]).
  - destruct Hin as [->|[]]. now left.
  - now right.
Qed.

Lemma combine_loop_servers catalog refs : forall acc acc',
  combine_loop catalog refs acc = Ok acc' ->
  (forall srv, ODict.mem (fst acc) srv = true ->
     ODict.mem (fst acc') srv = true)
  /\ (names_configured catalog refs -> fst acc' <> [])
  /\ (fst acc' = fst acc \/ names_configured catalog refs).
Proof.
  induction refs as [|ref refs IH]; intros acc acc'.
  - intros E. inversion E. subst. repeat split; auto.
    intros (x & _ & _ & _ & [] & _).
  - cbn [combine_loop].
    destruct (combine_step catalog acc ref) as [acc1|e] eqn:Es; [|discriminate].
    intros El.
    destruct (combine_step_servers _ _ _ _ Es) as (S1 & S2 & S3).
    destruct (IH _ _ El) as (L1 & L2 & L3).
    repeat split.
    + intros srv H. apply L1, S1, H.
    + intros (x & p0 & srv & rest & [->|Hin] & Ex & Hc).
      * apply (mem_nonempty _ srv). apply L1. eapply S2; eassumption.
      * apply L2. exists x, p0, srv, rest. auto.
    + destruct L3 as [L3|L3].
      * destruct S3 as [S3|S3].
        -- left. congruence.
        -- right. apply names_configured_cons. now left.
      * right. apply names_configured_cons. now right.
Qed.

(** The combination returns a handle exactly when some reference names a
    server with a configuration. *)
Lemma combined_some_iff mcp_refs r o r' :
  _get_combined_mcp_runtime mcp_refs r = (Ok o, r') ->
  (o <> None <-> names_configured (_tools r) mcp_refs).
Proof.
  unfold _get_combined_mcp_runtime.
  destruct (combine_loop (_tools r) mcp_refs ([], [])) as [[svs env]|e] eqn:El;
    [|discriminate].
  destruct (combine_loop_servers _ _ _ _ El) as (_ & L2 & L3).
  cbn [fst] in L2, L3.
  destruct svs as [|[n1 i1] [|kv svs]]; intros E; inversion E; subst.
  - split; [congruence|]. intros H. now apply L2 in H.
  - split; [|discriminate]. intros _. destruct L3; [discriminate|assumption].
  - split; [|discriminate]. intros _. destruct L3; [discriminate|assumption].
Qed.

(** Without a handle the combination leaves the registry as it is. *)
Lemma combined_none_state mcp_refs r r' :
  _get_combined_mcp_runtime mcp_refs r = (Ok None, r') -> r' = r.
Proof.
  unfold _get_combined_mcp_runtime.
  destruct (combine_loop (_tools r) mcp_refs ([], [])) as [[svs env]|e];
    [|discriminate].
  destruct svs as [|[n1 i1] [|kv svs]]; intros E; inversion E; auto.
Qed.

End ResolveManyCatalog.

(** C1: [get_tools_for_agent], stated against the catalog. The returned
    list starts with one new instance for every reference without the
    ["mcp:"] prefix under which the catalog holds a [LOCAL] record with a
    factory, in input order and each with an identity of its own. All
    ["mcp:"] references are then handed together to a single call of
    [_get_combined_mcp_runtime]; the list ends with exactly one MCP handle,
    allocated after the local instances, when some ["mcp:"] reference names
    a server the catalog has a configuration for, and with none otherwise,
    however many ["mcp:"] references were given. The call returns normally
    whenever every configuration of the catalog has a mapping (or nothing)
    under ["env"]. *)
Theorem get_tools_for_agent_shape tool_refs r :
  let catalog := _tools r in
  let local_refs :=
    filter (fun ref => negb (PyStr.startswith "mcp:" ref)) tool_refs in
  let mcp_refs := filter (PyStr.startswith "mcp:") tool_refs in
  let locals :=
    instantiate (next_oid r) (flat_map (catalog_class catalog) local_refs) in
  let r1 := allocated (List.length locals) r in
  get_tools_for_agent tool_refs r
  = match mcp_refs with
    | [] => (Ok locals, r1)
    | _ =>
        match _get_combined_mcp_runtime mcp_refs r1 with
        | (Ok (Some h), r2) => (Ok (locals ++ [h]), r2)
        | (Ok None, r2) => (Ok locals, r2)
        | (Raise e, r2) => (Raise e, r2)
        end
    end
  /\ Forall (fun t => is_mcp_handle t = false) locals
  /\ NoDup (map oid_of locals)
  /\ (forall tools r',
        get_tools_for_agent tool_refs r = (Ok tools, r') ->
        exists combined,
          tools = locals ++ combined
          /\ List.length combined <= 1
          /\ Forall (fun t => is_mcp_handle t = true
                              /\ oid_of t = next_oid r + List.length locals)
               combined
          /\ (combined <> [] <-> names_configured catalog mcp_refs)
          /\ r' = allocated (List.length tools) r)
  /\ (env_is_dict catalog ->
      exists tools r', get_tools_for_agent tool_refs r = (Ok tools, r')).
Proof.
  intros catalog local_refs mcp_refs locals r1.
  assert (Hl : locals = instantiate (next_oid r) (local_classes tool_refs r)).
  { unfold locals, local_refs, catalog. now rewrite local_classes_catalog. }
  assert (Hn : List.length locals = List.length (local_classes tool_refs r)).
  { rewrite Hl. apply instantiate_length. }
  assert (Heq : get_tools_for_agent tool_refs r
    = match mcp_refs with
      | [] => (Ok locals, r1)
      | _ =>
          match _get_combined_mcp_runtime mcp_refs r1 with
          | (Ok (Some h), r2) => (Ok (locals ++ [h]), r2)
          | (Ok None, r2) => (Ok locals, r2)
          | (Raise e, r2) => (Raise e, r2)
          end
      end).
  { unfold get_tools_for_agent. rewrite agent_loop_spec.
    unfold r1. rewrite Hn, Hl. reflexivity. }
  split; [exact Heq|]. split; [rewrite Hl; apply instantiate_local|].
  split; [rewrite Hl, instantiate_oids; apply seq_NoDup|].
  split.
  - intros tools r'. rewrite Heq. clear Heq.
    destruct mcp_refs as [|m ms] eqn:Em.
    + intros H. inversion H. exists []. rewrite app_nil_r.
      repeat split; auto.
      * intros C. now contradict C.
      * intros (x & _ & _ & _ & [] & _).
    + destruct (_get_combined_mcp_runtime (m :: ms) r1) as [[[h|]|e] r2] eqn:Ec;
        intros H; inversion H; subst tools r'.
      * pose proof (combined_fresh _ _ _ _ Ec) as [Ho Hr].
        pose proof (combined_some_iff _ _ _ _ Ec) as Hi.
        exists [h]. repeat split; auto.
        -- constructor; [|constructor]. split.
           ++ eapply combined_is_mcp; eassumption.
           ++ rewrite Ho. reflexivity.
        -- intros _. apply Hi. discriminate.
        -- discriminate.
        -- rewrite Hr. unfold r1, allocated. simpl.
           rewrite length_app. simpl. f_equal. lia.
      * pose proof (combined_some_iff _ _ _ _ Ec) as Hi.
        apply combined_none_state in Ec. subst r2.
        exists []. rewrite app_nil_r. repeat split; auto.
        -- intros C. now contradict C.
        -- intros Hc. apply Hi in Hc. now contradict Hc.
  - intros He. rewrite Heq.
    destruct mcp_refs as [|m ms]; [eauto|].
    destruct (combined_ok (m :: ms) r1 He) as [o Ho].
    destruct (_get_combined_mcp_runtime (m :: ms) r1) as [[[h|]|e] r2];
      simpl in Ho; [eauto|eauto|discriminate].
Qed.

(** The statement applied to two local tools around two MCP references of
    two servers, and an unregistered name: the call returns two instances
    followed by one combined handle. *)
Lemma get_tools_for_agent_shape_witness :
  let r :=
    register_local_tool "Y" "YCls" None
      (register_local_tool "X" "XCls" None
         (register_mcp_server_tools "t" ["x"] [("command", VStr "node t.js")]
            (register_mcp_server_tools "s" ["a"] [("command", VStr "python s.py")]
               init))) in
  get_tools_for_agent ["X"; "mcp:s:a"; "Z"; "Y"; "mcp:t:x"] r
  = (Ok [LocalTool 0 "XCls"; LocalTool 1 "YCls";
         MultiMCPTools 2 [VStr "python s.py"; VStr "node t.js"] VNone
           (Some ["a"; "x"])],
     allocated 3 r)
  /\ exists combined,
       [LocalTool 0 "XCls"; LocalTool 1 "YCls";
        MultiMCPTools 2 [VStr "python s.py"; VStr "node t.js"] VNone
          (Some ["a"; "x"])]
       = [LocalTool 0 "XCls"; LocalTool 1 "YCls"] ++ combined
       /\ List.length combined <= 1
       /\ combined <> [].
Proof.
  intros r.
  destruct (get_tools_for_agent_shape ["X"; "mcp:s:a"; "Z"; "Y"; "mcp:t:x"] r)
    as (Heq & _ & _ & H & _).
  split; [rewrite Heq; reflexivity|].
  destruct (H _ _ eq_refl) as (combined & E & L & _ & Hi & _).
  exists combined. split; [exact E|]. split; [exact L|].
  apply Hi. exists "mcp:s:a", "mcp", "s", ["a"].
  split; [simpl; auto|]. split; [reflexivity|].
  exists "mcp:s", (mcp_entry "s" None [("command", VStr "python s.py")]).
  repeat split; [simpl; auto|discriminate].
Defined.

(** ** The connection cache *)

Section Cache.

Import ODictFacts.

(** What a cache miss does, in terms of the server's configuration. *)
Lemma mcp_construct_eq tool_ref r :
  mcp_construct tool_ref r
  = match server_config_of tool_ref r with
    | None => (None, r)
    | Some cfg =>
        let h := MCPTools (next_oid r) (cfg_get cfg "command")
                   (or_none (cfg_get_env cfg)) (filter_of tool_ref) in
        (Some h,
         mkToolRegistry (_tools r)
           (ODict.set (_mcp_runtime_cache r) tool_ref h) (S (next_oid r)))
    end.
Proof.
  unfold mcp_construct, server_config_of, filter_of.
  destruct (PyStr.split ":" tool_ref) as [|p0 [|srv rest]]; try reflexivity.
  destruct (snd (scan_server srv (_tools r))); [|reflexivity].
  destruct rest; reflexivity.
Qed.

Lemma get_mcp_runtime_hit tool_ref r h :
  ODict.get (_mcp_runtime_cache r) tool_ref = Some h ->
  _get_mcp_runtime tool_ref r = (Some h, r).
Proof. unfold _get_mcp_runtime. now intros ->. Qed.

Lemma get_mcp_runtime_miss tool_ref r :
  ODict.get (_mcp_runtime_cache r) tool_ref = None ->
  _get_mcp_runtime tool_ref r = mcp_construct tool_ref r.
Proof. unfold _get_mcp_runtime. now intros ->. Qed.

(** A reference that is not a [LOCAL] entry and carries the prefix is
    resolved by the cache path. *)
Lemma get_tool_runtime_mcp tool_ref r :
  local_entry tool_ref r = None ->
  PyStr.startswith "mcp:" tool_ref = true ->
  get_tool_runtime tool_ref r = _get_mcp_runtime tool_ref r.
Proof. unfold get_tool_runtime. now intros -> ->. Qed.

Lemma cache_wf_init : cache_wf init.
Proof. intros k h []. Qed.

Lemma In_set_inv {V} (d : ODict.t V) k v k' v' :
  In (k', v') (ODict.set d k v) -> In (k', v') d \/ (k' = k /\ v' = v).
Proof.
  induction d as [|[k0 v0] d IH]; simpl.
  - intros [E|[]]. inversion E. auto.
  - destruct (String.eqb_spec k0 k) as [->|Hne]; simpl.
    + intros [E|H]; [inversion E; auto|auto].
    + intros [E|H]; [auto|]. destruct (IH H); auto.
Qed.

(** Resolution keeps the cache well formed. *)
Lemma cache_wf_get_tool_runtime tool_ref r :
  cache_wf r -> cache_wf (snd (get_tool_runtime tool_ref r)).
Proof.
  intros W. unfold get_tool_runtime.
  destruct (local_entry tool_ref r) as [md|].
  - destruct (runtime_factory md); simpl; [|exact W].
    intros k h Hin. specialize (W k h Hin). simpl. lia.
  - destruct (PyStr.startswith "mcp:" tool_ref); [|exact W].
    unfold _get_mcp_runtime.
    destruct (ODict.get (_mcp_runtime_cache r) tool_ref); [exact W|].
    rewrite mcp_construct_eq.
    destruct (server_config_of tool_ref r); [|exact W].
    intros k h Hin. simpl in *. apply In_set_inv in Hin.
    destruct Hin as [Hin|[_ ->]]; [specialize (W k h Hin)|simpl]; lia.
Qed.

Lemma cache_wf_clear r : cache_wf r -> cache_wf (clear_mcp_cache r).
Proof. intros _ k h []. Qed.

End Cache.

(** C3 (as stated) fails: the cache key is not built from a sorted filter.
    ["mcp:s:a:b"] and ["mcp:s:b:a"] name the same server and the same two
    capabilities, yet they occupy two cache keys and two runtimes are
    constructed, each with the filter in the order it was written. *)
Lemma cache_key_not_sorted :
  let r := register_mcp_server_tools "s" ["a"; "b"]
             [("command", VStr "python s.py")] init in
  let '(h1, r1) := get_tool_runtime "mcp:s:a:b" r in
  let '(h2, r2) := get_tool_runtime "mcp:s:b:a" r1 in
  h1 = Some (MCPTools 0 (VStr "python s.py") VNone (Some ["a"; "b"]))
  /\ h2 = Some (MCPTools 1 (VStr "python s.py") VNone (Some ["b"; "a"]))
  /\ h1 <> h2
  /\ ODict.keys (_mcp_runtime_cache r2) = ["mcp:s:a:b"; "mcp:s:b:a"].
Proof. repeat split. discriminate. Qed.

(** C3 (amended): the cache key of a single-server resolution is the
    reference string itself. A hit returns the cached runtime and leaves
    the registry as it is. A miss for a server with a registered
    configuration constructs a new runtime (filtered by the capability
    parts in the order written, unfiltered when there are none), stores it
    under the reference string and returns it, and resolving the same
    string again returns that very runtime without constructing another; a
    miss for a server without a configuration returns [None]. *)
Theorem get_mcp_runtime_keyed_by_reference tool_ref r :
  (forall h, ODict.get (_mcp_runtime_cache r) tool_ref = Some h ->
     _get_mcp_runtime tool_ref r = (Some h, r))
  /\ (ODict.get (_mcp_runtime_cache r) tool_ref = None ->
      forall cfg, server_config_of tool_ref r = Some cfg ->
      let h := MCPTools (next_oid r) (cfg_get cfg "command")
                 (or_none (cfg_get_env cfg)) (filter_of tool_ref) in
      let r' := mkToolRegistry (_tools r)
                  (ODict.set (_mcp_runtime_cache r) tool_ref h)
                  (S (next_oid r)) in
      _get_mcp_runtime tool_ref r = (Some h, r')
      /\ _get_mcp_runtime tool_ref r' = (Some h, r'))
  /\ (ODict.get (_mcp_runtime_cache r) tool_ref = None ->
      server_config_of tool_ref r = None ->
      _get_mcp_runtime tool_ref r = (None, r)).
Proof.
  split; [intros h; apply get_mcp_runtime_hit|]. split.
  - intros Hmiss cfg Hcfg h r'.
    rewrite (get_mcp_runtime_miss _ _ Hmiss), mcp_construct_eq, Hcfg.
    split; [reflexivity|].
    apply get_mcp_runtime_hit. simpl. apply ODictFacts.get_set_same.
  - intros Hmiss Hcfg.
    now rewrite (get_mcp_runtime_miss _ _ Hmiss), mcp_construct_eq, Hcfg.
Qed.

(** The statement applied to a first resolution of ["mcp:s:a"]. *)
Lemma get_mcp_runtime_keyed_by_reference_witness :
  let r := register_mcp_server_tools "s" ["a"; "b"]
             [("command", VStr "python s.py")] init in
  let h := MCPTools 0 (VStr "python s.py") VNone (Some ["a"]) in
  let r' := mkToolRegistry (_tools r) [("mcp:s:a", h)] 1 in
  _get_mcp_runtime "mcp:s:a" r = (Some h, r')
  /\ _get_mcp_runtime "mcp:s:a" r' = (Some h, r').
Proof.
  intros r h r'.
  destruct (get_mcp_runtime_keyed_by_reference "mcp:s:a" r) as (_ & Hmiss & _).
  exact (Hmiss eq_refl _ eq_refl).
Defined.

(** C9 (as stated) fails: a reference that was served from the cache is
    not always reconstructed after the clearing. The server-wide entry of
    ["s"] is registered with a command and resolved, which caches a runtime
    under ["mcp:s"]; the entry is then registered again with an empty
    configuration. The cached runtime is still returned, but once the cache
    is cleared the same reference resolves to [None]: no runtime is
    constructed, because the catalog no longer holds a configuration. *)
Lemma cleared_reference_not_reconstructed :
  let h := MCPTools 0 (VStr "python s.py") VNone None in
  let r0 :=
    register_mcp_tool None "s" (Some [("command", VStr "python s.py")]) init in
  let r1 := snd (get_tool_runtime "mcp:s" r0) in
  let r2 := register_mcp_tool None "s" (Some []) r1 in
  get_tool_runtime "mcp:s" r0 = (Some h, r1)
  /\ ODict.get (_mcp_runtime_cache r2) "mcp:s" = Some h
  /\ get_tool_runtime "mcp:s" r2 = (Some h, r2)
  /\ get_tool_runtime "mcp:s" (clear_mcp_cache r2) = (None, clear_mcp_cache r2).
Proof. repeat split. Qed.

(** C9 (amended): [clear_mcp_cache] empties the cache and leaves the catalog
    as it is. Afterwards a reference that was cached before is never served
    by the old runtime: whatever its resolution returns is an object
    constructed by that call. For a reference with the ["mcp:"] prefix that
    is not the key of a [LOCAL] entry, the cached runtime was what a
    resolution returned before the clearing; after it, the resolution
    constructs a new runtime and caches it under the reference if the
    catalog still holds a configuration for the server, and returns [None]
    otherwise. *)
Theorem clear_mcp_cache_forces_reconstruction tool_ref r h :
  cache_wf r ->
  ODict.get (_mcp_runtime_cache r) tool_ref = Some h ->
  let r0 := clear_mcp_cache r in
  _mcp_runtime_cache r0 = []
  /\ _tools r0 = _tools r
  /\ (forall t r', get_tool_runtime tool_ref r0 = (Some t, r') ->
        t <> h /\ oid_of t = next_oid r /\ r' <> r0)
  /\ (local_entry tool_ref r = None ->
      PyStr.startswith "mcp:" tool_ref = true ->
      get_tool_runtime tool_ref r = (Some h, r)
      /\ (forall cfg, server_config_of tool_ref r = Some cfg ->
            let h' := MCPTools (next_oid r) (cfg_get cfg "command")
                        (or_none (cfg_get_env cfg)) (filter_of tool_ref) in
            get_tool_runtime tool_ref r0
            = (Some h',
               mkToolRegistry (_tools r) [(tool_ref, h')] (S (next_oid r))))
      /\ (server_config_of tool_ref r = None ->
          get_tool_runtime tool_ref r0 = (None, r0))).
Proof.
  intros W Hc r0.
  assert (Hold : oid_of h < next_oid r).
  { apply ODictFacts.get_In in Hc. now apply W in Hc. }
  assert (Hmiss : forall cfg, server_config_of tool_ref r = Some cfg ->
            _get_mcp_runtime tool_ref r0
            = (Some (MCPTools (next_oid r) (cfg_get cfg "command")
                       (or_none (cfg_get_env cfg)) (filter_of tool_ref)),
               mkToolRegistry (_tools r)
                 [(tool_ref, MCPTools (next_oid r) (cfg_get cfg "command")
                               (or_none (cfg_get_env cfg)) (filter_of tool_ref))]
                 (S (next_oid r)))).
  { intros cfg Hcfg. rewrite get_mcp_runtime_miss by reflexivity.
    rewrite mcp_construct_eq.
    change (server_config_of tool_ref r0) with (server_config_of tool_ref r).
    rewrite Hcfg. reflexivity. }
  assert (Hnone : server_config_of tool_ref r = None ->
            _get_mcp_runtime tool_ref r0 = (None, r0)).
  { intros Hcfg. rewrite get_mcp_runtime_miss by reflexivity.
    rewrite mcp_construct_eq.
    change (server_config_of tool_ref r0) with (server_config_of tool_ref r).
    rewrite Hcfg. reflexivity. }
  split; [reflexivity|]. split; [reflexivity|]. split.
  - intros t r'. unfold get_tool_runtime.
    change (local_entry tool_ref r0) with (local_entry tool_ref r).
    destruct (local_entry tool_ref r) as [md|].
    + destruct (runtime_factory md) as [cls|]; [|discriminate].
      intros E. inversion E. subst t r'. repeat split.
      * intros E'. rewrite <- E' in Hold. simpl in Hold. lia.
      * intros E'. unfold r0, clear_mcp_cache in E'. inversion E'. lia.
    + destruct (PyStr.startswith "mcp:" tool_ref); [|discriminate].
      destruct (server_config_of tool_ref r) as [cfg|] eqn:Hcfg.
      * rewrite (Hmiss cfg eq_refl). intros E. inversion E. subst t r'.
        repeat split.
        -- intros E'. rewrite <- E' in Hold. simpl in Hold. lia.
        -- intros E'. unfold r0, clear_mcp_cache in E'. inversion E'.
      * rewrite (Hnone eq_refl). discriminate.
  - intros Hl Hp. split; [|split].
    + rewrite (get_tool_runtime_mcp _ _ Hl Hp). now apply get_mcp_runtime_hit.
    + intros cfg Hcfg h'.
      rewrite get_tool_runtime_mcp by assumption. now apply Hmiss.
    + intros Hcfg. rewrite get_tool_runtime_mcp by assumption.
      now apply Hnone.
Qed.

(** The statement applied to ["mcp:s:a"], cached by a first resolution:
    after the clearing the resolution returns a runtime with a new
    identity. *)
Lemma clear_mcp_cache_forces_reconstruction_witness :
  let r := snd (get_tool_runtime "mcp:s:a"
                  (register_mcp_server_tools "s" ["a"; "b"]
                     [("command", VStr "python s.py")] init)) in
  get_tool_runtime "mcp:s:a" r
  = (Some (MCPTools 0 (VStr "python s.py") VNone (Some ["a"])), r)
  /\ get_tool_runtime "mcp:s:a" (clear_mcp_cache r)
     = (Some (MCPTools 1 (VStr "python s.py") VNone (Some ["a"])),
        mkToolRegistry (_tools r)
          [("mcp:s:a", MCPTools 1 (VStr "python s.py") VNone (Some ["a"]))] 2).
Proof.
  intros r.
  assert (W : cache_wf r).
  { apply cache_wf_get_tool_runtime. intros k h []. }
  destruct (clear_mcp_cache_forces_reconstruction "mcp:s:a" r
              (MCPTools 0 (VStr "python s.py") VNone (Some ["a"]))
              W eq_refl) as (_ & _ & _ & H).
  destruct (H eq_refl eq_refl) as (H1 & H2 & _).
  split; [exact H1|]. exact (H2 [("command", VStr "python s.py")] eq_refl).
Defined.

(** ** Combined runtimes *)

Section Combined.

(** The combination reads the catalog and the allocation serial only. *)
Lemma combined_ignores_cache refs catalog c1 c2 o :
  fst (_get_combined_mcp_runtime refs (mkToolRegistry catalog c1 o))
  = fst (_get_combined_mcp_runtime refs (mkToolRegistry catalog c2 o)).
Proof.
  unfold _get_combined_mcp_runtime; simpl.
  destruct (combine_loop catalog refs ([], [])) as [[svs env]|e];
    [|reflexivity].
  destruct svs as [|[n1 i1] [|kv svs]]; reflexivity.
Qed.

(** A second reference to a server already collected changes nothing: the
    guard [if server not in servers] skips it, filter included. *)
Lemma combine_step_repeated catalog servers all_env ref p0 srv rest :
  PyStr.split ":" ref = p0 :: srv :: rest ->
  ODict.mem servers srv = true ->
  combine_step catalog (servers, all_env) ref = Ok (servers, all_env).
Proof.
  intros Hs Hm. unfold combine_step. rewrite Hs, Hm.
  destruct (first_server_entry srv catalog); reflexivity.
Qed.

End Combined.

(** C4 (as stated) fails: a combination over two servers is not stored in
    the cache. The same request issued twice constructs two aggregated
    handles with different identities, and the cache stays empty. *)
Lemma combined_runtime_constructed_twice :
  let r := register_mcp_server_tools "t" ["x"] [("command", VStr "node t.js")]
             (register_mcp_server_tools "s" ["a"]
                [("command", VStr "python s.py")] init) in
  let '(h1, r1) := _get_combined_mcp_runtime ["mcp:s"; "mcp:t"] r in
  let '(h2, r2) := _get_combined_mcp_runtime ["mcp:s"; "mcp:t"] r1 in
  h1 = Ok (Some (MultiMCPTools 0 [VStr "python s.py"; VStr "node t.js"]
                   VNone None))
  /\ h2 = Ok (Some (MultiMCPTools 1 [VStr "python s.py"; VStr "node t.js"]
                      VNone None))
  /\ h1 <> h2
  /\ _mcp_runtime_cache r2 = [].
Proof. repeat split. discriminate. Qed.

(** C4 (amended): [_get_combined_mcp_runtime] neither reads nor writes the
    connection cache. Every call that produces a handle constructs a new
    one; issuing the same request again constructs a second handle, equal
    in content but with an identity of its own, and the cache is as it was
    before the first call. *)
Theorem combined_runtime_not_cached mcp_refs r h r1 :
  _get_combined_mcp_runtime mcp_refs r = (Ok (Some h), r1) ->
  _mcp_runtime_cache r1 = _mcp_runtime_cache r
  /\ oid_of h = next_oid r
  /\ (forall cache',
        fst (_get_combined_mcp_runtime mcp_refs
               (mkToolRegistry (_tools r) cache' (next_oid r)))
        = Ok (Some h))
  /\ exists h2 r2,
       _get_combined_mcp_runtime mcp_refs r1 = (Ok (Some h2), r2)
       /\ oid_of h2 = S (oid_of h)
       /\ h2 <> h
       /\ _mcp_runtime_cache r2 = _mcp_runtime_cache r.
Proof.
  intros H. destruct (combined_fresh _ _ _ _ H) as [Ho ->].
  split; [reflexivity|]. split; [exact Ho|]. split.
  - intros cache'.
    rewrite (combined_ignores_cache _ _ cache' (_mcp_runtime_cache r)).
    destruct r; simpl in *. now rewrite H.
  - revert H Ho. unfold _get_combined_mcp_runtime, allocated; simpl.
    destruct (combine_loop (_tools r) mcp_refs ([], [])) as [[svs env]|e];
      [|discriminate].
    destruct svs as [|[n1 i1] [|kv svs]]; intros H Ho; inversion H; subst;
      (eexists; eexists; split; [reflexivity|]); simpl;
      (split; [lia|split; [|reflexivity]]);
      intros E; inversion E; lia.
Qed.

(** The statement applied to a request over the servers [s] and [t]. *)
Lemma combined_runtime_not_cached_witness :
  let r := register_mcp_server_tools "t" ["x"] [("command", VStr "node t.js")]
             (register_mcp_server_tools "s" ["a"]
                [("command", VStr "python s.py")] init) in
  exists h2 r2,
    _get_combined_mcp_runtime ["mcp:s"; "mcp:t"] (allocated 1 r)
    = (Ok (Some h2), r2)
    /\ oid_of h2 = 1
    /\ _mcp_runtime_cache r2 = [].
Proof.
  intros r.
  destruct (combined_runtime_not_cached ["mcp:s"; "mcp:t"] r _ _ eq_refl)
    as (_ & _ & _ & h2 & r2 & E & Ho & _ & Hc).
  exists h2, r2. split; [exact E|]. split; [exact Ho|exact Hc].
Defined.

(** C5 fails on the code: of two references to the same server only the
    first one's filter is kept. For ["mcp:s:a"] and ["mcp:s:b"] the handle
    is restricted to [a]; the capability [b] of the second reference is
    dropped. The loader's [parse_mcp_config] keeps both for the same
    request. *)
Theorem combined_filter_of_repeated_server_dropped :
  let r := register_mcp_server_tools "s" ["a"; "b"]
             [("command", VStr "python s.py")] init in
  fst (_get_combined_mcp_runtime ["mcp:s:a"; "mcp:s:b"] r)
  = Ok (Some (MCPTools 0 (VStr "python s.py") VNone (Some ["a"])))
  /\ option_map include_tools
       (match parse_mcp_config (fun _ => None)
                [("s", SMapping (mkServerConfig (Some "stdio") (Some "python")
                                   (Some [SStr "s.py"]) None))]
                ["mcp:s[a]"; "mcp:s[b]"] with
        | Ok res => Some res
        | Raise _ => None
        end)
     = Some (Some ["a"; "b"]).
Proof. split; reflexivity. Qed.

(** ** References in the bracket grammar *)

Section Brackets.

Local Open Scope string_scope.
Import PyStrFacts.

Lemma scan_server_no_match srv catalog :
  (forall k md, In (k, md) catalog ->
     option_string_eqb (server md) srv = false) ->
  scan_server srv catalog = ([], None).
Proof.
  unfold scan_server. generalize (@nil string, @None Config).
  induction catalog as [|[k md] rest IH]; intros acc H; [reflexivity|].
  simpl. rewrite (H k md (or_introl eq_refl)), andb_false_r.
  apply IH. intros k' md' Hin. apply (H k'). now right.
Qed.

(** The registry reads the provider and the bracket as one server name. *)
Lemma bracket_ref_server p caps :
  PyStr.contains ":" p = false ->
  exists h rest,
    PyStr.split ":" (bracket_ref p caps) = "mcp" :: (p ++ String "[" h) :: rest.
Proof.
  intros Hp. unfold bracket_ref.
  change (PyStr.split ":" ("mcp:" ++ p ++ "[" ++ PyStr.join "," caps ++ "]"))
    with ("mcp" :: PyStr.split ":" (p ++ "[" ++ PyStr.join "," caps ++ "]")).
  rewrite (split_app _ _ _ Hp).
  change ("[" ++ PyStr.join "," caps ++ "]")
    with (String "[" (PyStr.join "," caps ++ "]")).
  cbn [PyStr.split]. change (Ascii.eqb "[" ":") with false. cbv iota.
  destruct (PyStr.split ":" (PyStr.join "," caps ++ "]")) as [|h t] eqn:E.
  - now apply split_nonempty in E.
  - now exists h, t.
Qed.

Lemma bracket_ref_unconfigured p caps r :
  PyStr.contains ":" p = false ->
  bracket_free_servers r ->
  server_config_of (bracket_ref p caps) r = None.
Proof.
  intros Hp Hfree. unfold server_config_of.
  destruct (bracket_ref_server p caps Hp) as (h & rest & ->).
  rewrite scan_server_no_match; [reflexivity|].
  intros k md Hin. destruct (server md) as [s|] eqn:Es; [|reflexivity].
  simpl. destruct (String.eqb_spec s (p ++ String "[" h)) as [->|]; auto.
  specialize (Hfree k md _ Hin Es).
  rewrite contains_app in Hfree. simpl in Hfree.
  now rewrite orb_true_r in Hfree.
Qed.

Lemma contains_join c sep caps :
  Ascii.eqb sep c = false ->
  Forall (fun s => PyStr.contains c s = false) caps ->
  PyStr.contains c (PyStr.join (String sep "") caps) = false.
Proof.
  intros Hsep. induction 1 as [|x rest Hx Hrest IH]; [reflexivity|].
  destruct rest as [|y rest]; [exact Hx|].
  change (PyStr.join (String sep "") (x :: y :: rest))
    with (x ++ String sep (PyStr.join (String sep "") (y :: rest))).
  rewrite contains_app, Hx. cbn [PyStr.contains orb].
  now rewrite Hsep, IH.
Qed.

(** The loader reads the same text as a provider and a capability list. *)
Lemma parse_brackets_bracket_ref p caps :
  PyStr.contains "[" p = false ->
  PyStr.contains "]" p = false ->
  caps <> [] ->
  Forall (fun c => PyStr.contains "," c = false) caps ->
  Forall (fun c => PyStr.contains "]" c = false) caps ->
  parse_brackets (PyStr.drop 4 (bracket_ref p caps))
  = Ok (p, Some (map PyStr.strip caps)).
Proof.
  intros Hl Hr Hne Hcomma Hclose.
  set (ts := PyStr.join "," caps).
  assert (Hts : PyStr.contains "]" ts = false)
    by (apply contains_join; [reflexivity|exact Hclose]).
  change (PyStr.drop 4 (bracket_ref p caps))
    with (p ++ String "[" (ts ++ String "]" "")).
  unfold parse_brackets.
  assert (H1 : PyStr.contains "[" (p ++ String "[" (ts ++ String "]" "")) = true).
  { rewrite contains_app. simpl. now rewrite orb_true_r. }
  assert (H2 : PyStr.contains "]" (p ++ String "[" (ts ++ String "]" "")) = true).
  { rewrite contains_app. simpl. rewrite contains_app. simpl.
    now rewrite !orb_true_r. }
  rewrite H1, H2. simpl andb. cbv iota.
  rewrite (index_app _ _ _ Hl).
  assert (H3 : PyStr.index "]" (p ++ String "[" (ts ++ String "]" ""))
               = Some (String.length p + S (String.length ts))).
  { change (p ++ String "[" (ts ++ String "]" ""))
      with (p ++ (String "[" ts) ++ String "]" "").
    rewrite <- append_assoc, index_app.
    - now rewrite append_length.
    - rewrite contains_app, Hr. simpl. exact Hts. }
  rewrite H3. unfold PyStr.slice.
  rewrite Nat.sub_0_r, substring_prefix.
  replace (String.length p + S (String.length ts) - (String.length p + 1))
    with (String.length ts) by lia.
  rewrite substring_skip. cbn [String.substring].
  rewrite substring_prefix. unfold ts.
  now rewrite (split_join "," caps Hne Hcomma).
Qed.

End Brackets.

(** C10: a reference in the bracket grammar is not resolved by the
    registry. [get_tool_runtime] splits ["mcp:p[c1,c2]"] at the colons only
    and looks for a server named ["p[c1,c2]"]; with no such server in the
    catalog the result is [None] and the registry is unchanged, whether or
    not [p] itself is registered. The loader's bracket parser reads the same
    text as the provider [p] with the capabilities [c1, c2]. *)
Theorem bracket_reference_not_resolved p caps r :
  PyStr.contains ":" p = false ->
  bracket_free_servers r ->
  local_entry (bracket_ref p caps) r = None ->
  ODict.get (_mcp_runtime_cache r) (bracket_ref p caps) = None ->
  get_tool_runtime (bracket_ref p caps) r = (None, r)
  /\ (PyStr.contains "[" p = false ->
      PyStr.contains "]" p = false ->
      caps <> [] ->
      Forall (fun c => PyStr.contains "," c = false) caps ->
      Forall (fun c => PyStr.contains "]" c = false) caps ->
      parse_brackets (PyStr.drop 4 (bracket_ref p caps))
      = Ok (p, Some (map PyStr.strip caps))).
Proof.
  intros Hp Hfree Hlocal Hmiss. split.
  - rewrite get_tool_runtime_mcp;
      [|exact Hlocal|exact (PyStrFacts.startswith_append "mcp:" _)].
    rewrite (get_mcp_runtime_miss _ _ Hmiss), mcp_construct_eq.
    now rewrite bracket_ref_unconfigured.
  - apply parse_brackets_bracket_ref.
Qed.

(** The statement applied to the registered server [custom_tools]: the
    bracket reference of two of its tools resolves to [None]. *)
Lemma bracket_reference_not_resolved_witness :
  let r := register_mcp_server_tools "custom_tools"
             ["generate_id"; "get_timestamp"]
             [("command", VStr "python custom_tools_server.py")] init in
  get_tool_metadata "mcp:custom_tools" r <> None
  /\ get_tool_runtime "mcp:custom_tools[generate_id,get_timestamp]" r
     = (None, r)
  /\ parse_brackets "custom_tools[generate_id,get_timestamp]"
     = Ok ("custom_tools", Some ["generate_id"; "get_timestamp"]).
Proof.
  intros r.
  assert (Hfree : bracket_free_servers r).
  { intros k md s [E|[E|[E|[]]]] Hs; inversion E; subst; simpl in Hs;
      inversion Hs; reflexivity. }
  destruct (bracket_reference_not_resolved "custom_tools"
              ["generate_id"; "get_timestamp"] r
              eq_refl Hfree eq_refl eq_refl) as [H1 H2].
  split; [discriminate|]. split; [exact H1|].
  apply H2; try reflexivity; try discriminate;
    repeat constructor.
Defined.

(** ** Concurrent resolution *)

Section Concurrent.

(** The two phases, run back to back, are [get_tool_runtime]. *)
Lemma get_tool_runtime_phases tool_ref r :
  get_tool_runtime tool_ref r
  = match check_phase tool_ref r with
    | (Releasing res, r') => (res, r')
    | (Missed, r') => mcp_construct tool_ref r'
    | (_, r') => (None, r')
    end.
Proof.
  unfold get_tool_runtime, check_phase, _get_mcp_runtime.
  destruct (local_entry tool_ref r) as [md|].
  - destruct (runtime_factory md); reflexivity.
  - destruct (PyStr.startswith "mcp:" tool_ref); [|reflexivity].
    destruct (ODict.get (_mcp_runtime_cache r) tool_ref); reflexivity.
Qed.

Lemma nth_error_upd_same {A} (l : list A) i x y :
  nth_error l i = Some y -> nth_error (upd i x l) i = Some x.
Proof.
  revert i. induction l as [|a l IH]; intros [|i]; simpl; try discriminate;
    auto.
Qed.

Lemma nth_error_upd_other {A} (l : list A) i j x :
  i <> j -> nth_error (upd i x l) j = nth_error l j.
Proof.
  revert i j. induction l as [|a l IH]; intros [|i] [|j] H; simpl; auto;
    congruence.
Qed.

Lemma upd_length {A} (l : list A) i x : List.length (upd i x l) = List.length l.
Proof. revert i. induction l as [|a l IH]; intros [|i]; simpl; auto. Qed.

Lemma step_length i s : List.length (tasks (step i s)) = List.length (tasks s).
Proof.
  unfold step. destruct (nth_error (tasks s) i) as [[ref pc]|]; [|reflexivity].
  destruct pc; try reflexivity.
  - destruct (lock s); [reflexivity|apply upd_length].
  - destruct (check_phase ref (reg s)). apply upd_length.
  - destruct (mcp_construct ref (reg s)). apply upd_length.
  - apply upd_length.
Qed.

Lemma run_length sch : forall s,
  List.length (tasks (run sch s)) = List.length (tasks s).
Proof.
  induction sch as [|i sch IH]; intros s; [reflexivity|].
  simpl. now rewrite IH, step_length.
Qed.

Variable tool_ref : string.
Variable r0 : ToolRegistry.
Variable cfg : Config.

Hypothesis Hprefix : PyStr.startswith "mcp:" tool_ref = true.
Hypothesis Hlocal : local_entry tool_ref r0 = None.
Hypothesis Hmiss : ODict.get (_mcp_runtime_cache r0) tool_ref = None.
Hypothesis Hcfg : server_config_of tool_ref r0 = Some cfg.

Let h : Runtime :=
  MCPTools (next_oid r0) (cfg_get cfg "command") (or_none (cfg_get_env cfg))
    (filter_of tool_ref).

Let r1 : ToolRegistry :=
  mkToolRegistry (_tools r0) (ODict.set (_mcp_runtime_cache r0) tool_ref h)
    (S (next_oid r0)).

Lemma check_before : check_phase tool_ref r0 = (Missed, r0).
Proof. unfold check_phase. now rewrite Hlocal, Hprefix, Hmiss. Qed.

Lemma construct_first : mcp_construct tool_ref r0 = (Some h, r1).
Proof. rewrite mcp_construct_eq, Hcfg. reflexivity. Qed.

Lemma check_after : check_phase tool_ref r1 = (Releasing (Some h), r1).
Proof.
  unfold check_phase.
  change (local_entry tool_ref r1) with (local_entry tool_ref r0).
  rewrite Hlocal, Hprefix. simpl. now rewrite ODictFacts.get_set_same.
Qed.

Lemma sched_inv_start n : sched_inv tool_ref r0 r1 h (start n tool_ref r0).
Proof.
  exists false, None. repeat split; auto;
    apply nth_error_In, repeat_spec in H; subst; simpl; auto; discriminate.
Qed.

(** Replacing the entry of caller [i] keeps the invariant when the new
    entry fits and every other caller still fits. *)
Lemma sched_inv_upd s i pc pc' (built : bool) (owner : option nat)
    (built' : bool) (owner' : option nat) reg' :
  nth_error (tasks s) i = Some (tool_ref, pc) ->
  (forall j t, nth_error (tasks s) j = Some t ->
     fst t = tool_ref /\ task_ok h built owner j (snd t)) ->
  reg' = (if built' then r1 else r0) ->
  task_ok h built' owner' i pc' ->
  (forall j pcj, j <> i ->
     task_ok h built owner j pcj -> task_ok h built' owner' j pcj) ->
  sched_inv tool_ref r0 r1 h
    (mkSys reg' (match owner' with Some _ => true | None => false end)
       (upd i (tool_ref, pc') (tasks s))).
Proof.
  intros Ei Htasks Hreg Hi Hothers.
  exists built', owner'. simpl. split; [exact Hreg|]. split; [reflexivity|].
  intros j t Hj. destruct (Nat.eq_dec i j) as [<-|Hne].
  - rewrite (nth_error_upd_same _ _ _ _ Ei) in Hj. inversion Hj; subst.
    split; [reflexivity|exact Hi].
  - rewrite nth_error_upd_other in Hj by assumption.
    destruct (Htasks j t Hj) as [Hr Hok]. split; [exact Hr|].
    apply Hothers; [congruence|exact Hok].
Qed.

Lemma step_preserves i s :
  sched_inv tool_ref r0 r1 h s -> sched_inv tool_ref r0 r1 h (step i s).
Proof.
  intros Hinv. pose proof Hinv as (built & owner & Hreg & Hlock & Htasks).
  unfold step.
  destruct (nth_error (tasks s) i) as [[ref pc]|] eqn:Ei; [|exact Hinv].
  destruct (Htasks i _ Ei) as [Hr Hok]. simpl in Hr, Hok. subst ref.
  destruct pc; simpl in Hok.
  - (* acquire *)
    destruct (lock s) eqn:El; [exact Hinv|].
    destruct owner; [discriminate|].
    apply (sched_inv_upd s i Waiting Locked built None built (Some i));
      auto; [reflexivity|].
    intros j pcj Hj; destruct pcj; simpl; intuition congruence.
  - (* the cache check *)
    subst owner. rewrite Hreg. destruct built.
    + rewrite check_after, Hlock.
      apply (sched_inv_upd s i Locked (Releasing (Some h)) true (Some i)
               true (Some i)); simpl; auto.
    + rewrite check_before, Hlock.
      apply (sched_inv_upd s i Locked Missed false (Some i)
               false (Some i)); simpl; auto.
  - (* the construction *)
    destruct Hok as [-> ->]. rewrite Hreg, construct_first, Hlock.
    apply (sched_inv_upd s i Missed (Releasing (Some h)) false (Some i)
             true (Some i)); simpl; auto.
    intros j pcj Hj; destruct pcj; simpl; intuition congruence.
  - (* release *)
    destruct Hok as (-> & -> & ->).
    replace false with (match @None nat with Some _ => true | None => false end)
      by reflexivity.
    apply (sched_inv_upd s i (Releasing (Some h)) (Done (Some h)) true
             (Some i) true None); simpl; auto.
    + repeat split; discriminate.
    + intros j pcj Hj; destruct pcj; simpl; intuition congruence.
  - exact Hinv.
Qed.

Lemma run_preserves sch : forall s,
  sched_inv tool_ref r0 r1 h s -> sched_inv tool_ref r0 r1 h (run sch s).
Proof.
  induction sch as [|i sch IH]; intros s H; [exact H|].
  simpl. apply IH. now apply step_preserves.
Qed.

Lemma map_const {A B} (f : A -> B) c l :
  (forall x, In x l -> f x = c) -> map f l = repeat c (List.length l).
Proof.
  induction l as [|a l IH]; intros H; [reflexivity|].
  simpl. rewrite (H a (or_introl eq_refl)), IH; auto.
  intros x Hx. apply H. now right.
Qed.

(** Once every caller is done, the runtime was constructed and every caller
    holds it. *)
Lemma all_done_results s :
  sched_inv tool_ref r0 r1 h s -> all_done s -> tasks s <> [] ->
  reg s = r1 /\ results s = repeat (Some h) (List.length (tasks s)).
Proof.
  intros (built & owner & Hreg & _ & Htasks) Hdone Hne.
  unfold all_done in Hdone. rewrite Forall_forall in Hdone.
  assert (Hall : forall t, In t (tasks s) ->
                   built = true /\ snd t = Done (Some h)).
  { intros t Hin. destruct (Hdone t Hin) as [res Hres].
    apply In_nth_error in Hin. destruct Hin as [j Hj].
    destruct (Htasks j t Hj) as [_ Hok]. rewrite Hres in Hok.
    destruct Hok as (Hb & -> & _). now split. }
  split.
  - destruct (tasks s) as [|t l] eqn:E; [congruence|].
    destruct (Hall t (or_introl eq_refl)) as [Hb _]. now rewrite Hreg, Hb.
  - unfold results. apply map_const. intros t Hin.
    destruct (Hall t Hin) as [_ ->]. reflexivity.
Qed.

Lemma upd_app_middle {A} (l1 : list A) x y l2 :
  upd (List.length l1) x (l1 ++ y :: l2) = l1 ++ x :: l2.
Proof. induction l1 as [|a l1 IH]; simpl; [reflexivity|now rewrite IH]. Qed.

Lemma nth_error_app_middle {A} (l1 : list A) y l2 :
  nth_error (l1 ++ y :: l2) (List.length l1) = Some y.
Proof. induction l1 as [|a l1 IH]; simpl; auto. Qed.

(** Four steps take the first caller through the construction ... *)
Lemma four_steps_first waiting :
  run [0; 0; 0; 0] (mkSys r0 false ((tool_ref, Waiting) :: waiting))
  = mkSys r1 false ((tool_ref, Done (Some h)) :: waiting).
Proof.
  unfold run, fold_left, step; cbn [tasks lock reg nth_error upd].
  rewrite check_before. cbn [tasks lock reg nth_error upd].
  rewrite construct_first. reflexivity.
Qed.

(** ... and every later caller to the cached runtime. *)
Lemma four_steps_next done waiting :
  let k := List.length done in
  run [k; k; k; k]
    (mkSys r1 false (done ++ (tool_ref, Waiting) :: waiting))
  = mkSys r1 false (done ++ (tool_ref, Done (Some h)) :: waiting).
Proof.
  intros k. subst k. unfold run, fold_left.
  unfold step at 4; cbn [tasks lock reg].
  rewrite nth_error_app_middle, upd_app_middle.
  unfold step at 3; cbn [tasks lock reg].
  rewrite nth_error_app_middle, check_after, upd_app_middle.
  unfold step at 2; cbn [tasks lock reg].
  rewrite nth_error_app_middle, upd_app_middle.
  unfold step; cbn [tasks lock reg].
  now rewrite nth_error_app_middle.
Qed.

Lemma run_app sch1 sch2 s : run (sch1 ++ sch2) s = run sch2 (run sch1 s).
Proof. unfold run. apply fold_left_app. Qed.

Lemma one_by_one_rest m : forall done,
  run (flat_map (fun i => [i; i; i; i]) (seq (List.length done) m))
    (mkSys r1 false (done ++ repeat (tool_ref, Waiting) m))
  = mkSys r1 false (done ++ repeat (tool_ref, Done (Some h)) m).
Proof.
  induction m as [|m IH]; intros done; [reflexivity|].
  cbn [seq flat_map repeat]. rewrite run_app, (four_steps_next done).
  replace (S (List.length done))
    with (List.length (done ++ [(tool_ref, Done (Some h))]))
    by (rewrite length_app; simpl; lia).
  replace (done ++ (tool_ref, Done (Some h)) :: repeat (tool_ref, Waiting) m)
    with ((done ++ [(tool_ref, Done (Some h))]) ++ repeat (tool_ref, Waiting) m)
    by (now rewrite <- app_assoc).
  rewrite IH, <- app_assoc. reflexivity.
Qed.

(** Run one after the other, all callers finish. *)
Lemma one_by_one_done n : all_done (run (one_by_one n) (start n tool_ref r0)).
Proof.
  unfold one_by_one, start, all_done. destruct n as [|n]; [constructor|].
  cbn [seq flat_map repeat]. rewrite run_app, four_steps_first.
  pose proof (one_by_one_rest n [(tool_ref, Done (Some h))]) as E.
  cbn [List.length app] in E. rewrite E.
  cbn [tasks]. apply Forall_forall. intros t [<-|Hin].
  - now exists (Some h).
  - apply repeat_spec in Hin. subst t. now exists (Some h).
Qed.

(** Under every schedule that lets all callers finish, one runtime is
    constructed and every caller receives it. *)
Lemma concurrent_callers_share n sch :
  0 < n ->
  all_done (run sch (start n tool_ref r0)) ->
  reg (run sch (start n tool_ref r0)) = r1
  /\ results (run sch (start n tool_ref r0)) = repeat (Some h) n.
Proof.
  intros Hn Hdone.
  pose proof (run_length sch (start n tool_ref r0)) as Hlen.
  simpl in Hlen. rewrite repeat_length in Hlen.
  destruct (all_done_results (run sch (start n tool_ref r0))) as [H1 H2].
  - apply run_preserves, sched_inv_start.
  - exact Hdone.
  - intros E. rewrite E in Hlen. simpl in Hlen. lia.
  - split; [exact H1|]. now rewrite H2, Hlen.
Qed.

End Concurrent.

(** C2: [n] concurrent callers of [get_tool_runtime] with the same uncached
    reference of a registered server. Whatever the schedule, once all
    callers have returned exactly one runtime was constructed (the
    allocation serial advanced by one, the cache gained the one entry) and
    every caller holds that same runtime: a caller that finds the lock taken
    waits, so nobody runs between another caller's cache check and its
    insertion. Some schedule lets all callers return, and a single caller
    gets the same answer from [get_tool_runtime]. *)
Theorem concurrent_resolve_constructs_once n sch tool_ref r0 cfg :
  PyStr.startswith "mcp:" tool_ref = true ->
  local_entry tool_ref r0 = None ->
  ODict.get (_mcp_runtime_cache r0) tool_ref = None ->
  server_config_of tool_ref r0 = Some cfg ->
  0 < n ->
  let h := MCPTools (next_oid r0) (cfg_get cfg "command")
             (or_none (cfg_get_env cfg)) (filter_of tool_ref) in
  let r1 := mkToolRegistry (_tools r0)
              (ODict.set (_mcp_runtime_cache r0) tool_ref h)
              (S (next_oid r0)) in
  let s := run sch (start n tool_ref r0) in
  (all_done s ->
     results s = repeat (Some h) n
     /\ reg s = r1
     /\ next_oid (reg s) = S (next_oid r0))
  /\ all_done (run (one_by_one n) (start n tool_ref r0))
  /\ get_tool_runtime tool_ref r0 = (Some h, r1).
Proof.
  intros Hp Hl Hm Hc Hn h r1 s. split; [|split].
  - intros Hdone.
    destruct (concurrent_callers_share tool_ref r0 cfg Hp Hl Hm Hc n sch
                Hn Hdone) as [Hreg Hres].
    fold s in Hreg, Hres. split; [exact Hres|]. split; [exact Hreg|].
    now rewrite Hreg.
  - exact (one_by_one_done tool_ref r0 cfg Hp Hl Hm Hc n).
  - rewrite get_tool_runtime_phases,
      (check_before tool_ref r0 Hp Hl Hm).
    exact (construct_first tool_ref r0 cfg Hc).
Qed.

(** The statement applied to three callers of ["mcp:s:a"] under a schedule
    in which the third caller takes the lock first and the other two try
    to enter while it is between the cache check and the insertion. *)
Lemma concurrent_resolve_constructs_once_witness :
  let r0 := register_mcp_server_tools "s" ["a"; "b"]
              [("command", VStr "python s.py")] init in
  let sch := [2; 0; 2; 1; 0; 2; 1; 2; 0; 0; 1; 0; 0; 1; 1; 1] in
  let h := MCPTools 0 (VStr "python s.py") VNone (Some ["a"]) in
  results (run sch (start 3 "mcp:s:a" r0)) = [Some h; Some h; Some h]
  /\ next_oid (reg (run sch (start 3 "mcp:s:a" r0))) = 1.
Proof.
  intros r0 sch h.
  destruct (concurrent_resolve_constructs_once 3 sch "mcp:s:a" r0
              [("command", VStr "python s.py")]
              eq_refl eq_refl eq_refl eq_refl (Nat.lt_0_succ 2))
    as [H _].
  assert (Hdone : all_done (run sch (start 3 "mcp:s:a" r0))).
  { vm_compute. repeat constructor; eexists; reflexivity. }
  destruct (H Hdone) as (Hres & _ & Hn). split; [exact Hres|exact Hn].
Defined.

(** ** Malformed references *)

Section Malformed.

Variable getenv : string -> option string.
Variable servers : ODict.t ServerEntry.

Lemma index_of_contains c s :
  PyStr.contains c s = true -> exists n, PyStr.index c s = Some n.
Proof.
  induction s as [|a s IH]; simpl; [discriminate|].
  destruct (Ascii.eqb a c); simpl; [now exists 0|].
  intros H. destruct (IH H) as [n ->]. now exists (S n).
Qed.

(** The bracket parser accepts every string. *)
Lemma parse_brackets_total config :
  exists nm tools, parse_brackets config = Ok (nm, tools).
Proof.
  unfold parse_brackets.
  destruct (PyStr.contains "[" config) eqn:E1;
    [destruct (PyStr.contains "]" config) eqn:E2|]; simpl; eauto.
  destruct (index_of_contains _ _ E1) as [i ->].
  destruct (index_of_contains _ _ E2) as [j ->]. eauto.
Qed.

(** Without both brackets the whole text is the server name. *)
Lemma parse_brackets_unbalanced config :
  PyStr.contains "[" config && PyStr.contains "]" config = false ->
  parse_brackets config = Ok (config, None).
Proof. unfold parse_brackets. now intros ->. Qed.

Lemma parse_step_total acc config :
  well_shaped getenv servers ->
  exists acc', parse_step getenv servers acc config = Ok acc'.
Proof.
  intros W. unfold parse_step. destruct acc as [result all_tools].
  destruct (PyStr.startswith "mcp:" config); [|eauto].
  destruct (parse_brackets_total (PyStr.drop 4 config)) as (nm & tools & ->).
  destruct (ODict.get servers nm) as [e|] eqn:G; [|eauto].
  apply ODictFacts.get_In in G.
  destruct (W _ _ G) as (c & -> & o & Hb).
  destruct (match sc_type c with
            | Some t => (t =? "stdio")%string
            | None => false
            end); [|eauto].
  unfold build_mcp_command. rewrite Hb.
  destruct o as [[|a cmd]|]; eauto.
Qed.

Lemma parse_loop_total mcp_configs : forall acc,
  well_shaped getenv servers ->
  exists acc', parse_loop getenv servers mcp_configs acc = Ok acc'.
Proof.
  induction mcp_configs as [|config rest IH]; intros acc W; simpl; [eauto|].
  destruct (parse_step_total acc config W) as [acc' ->]. now apply IH.
Qed.

(** A reference whose text is not a configured server contributes
    nothing. *)
Lemma parse_step_unknown acc config :
  PyStr.startswith "mcp:" config = true ->
  PyStr.contains "[" (PyStr.drop 4 config)
  && PyStr.contains "]" (PyStr.drop 4 config) = false ->
  ODict.get servers (PyStr.drop 4 config) = None ->
  parse_step getenv servers acc config = Ok acc.
Proof.
  intros Hp Hb Hg. unfold parse_step. destruct acc as [result all_tools].
  now rewrite Hp, (parse_brackets_unbalanced _ Hb), Hg.
Qed.

End Malformed.

(** C8 (as stated) fails: no reference is rejected. With the server [s]
    configured, the references ["mcp:s[a"] (unbalanced bracket) and
    ["mcp:"] (empty provider name) are parsed without any error and simply
    contribute nothing, and the registry resolves ["mcp:s[a"] to [None]. *)
Lemma malformed_reference_accepted :
  let servers :=
    [("s", SMapping (mkServerConfig (Some "stdio") (Some "python")
                       (Some [SStr "s.py"]) None))] in
  let r := register_mcp_server_tools "s" ["a"]
             [("command", VStr "python s.py")] init in
  parse_mcp_config (fun _ => None) servers ["mcp:s[a"; "mcp:"]
  = Ok (mkParseResult [] [] None [])
  /\ get_tool_runtime "mcp:s[a" r = (None, r)
  /\ fst (_get_combined_mcp_runtime ["mcp:s[a"; "mcp:"] r) = Ok None.
Proof. repeat split. Qed.

(** C8 (amended): a reference is never rejected for its format. The loader
    parses every list of references without raising, given a configuration
    file whose servers are mappings with buildable commands; a text without
    both brackets is taken verbatim as the server name, and contributes
    nothing when no server of that name is configured. The registry
    resolves a reference whose server part has no configuration to [None]
    and stays unchanged. *)
Theorem malformed_reference_never_rejected getenv servers :
  well_shaped getenv servers ->
  (forall mcp_configs,
     exists res, parse_mcp_config getenv servers mcp_configs = Ok res)
  /\ (forall config,
        PyStr.contains "[" config && PyStr.contains "]" config = false ->
        parse_brackets config = Ok (config, None))
  /\ (forall acc config,
        PyStr.startswith "mcp:" config = true ->
        PyStr.contains "[" (PyStr.drop 4 config)
        && PyStr.contains "]" (PyStr.drop 4 config) = false ->
        ODict.get servers (PyStr.drop 4 config) = None ->
        parse_step getenv servers acc config = Ok acc)
  /\ (forall r tool_ref,
        PyStr.startswith "mcp:" tool_ref = true ->
        local_entry tool_ref r = None ->
        ODict.get (_mcp_runtime_cache r) tool_ref = None ->
        server_config_of tool_ref r = None ->
        get_tool_runtime tool_ref r = (None, r)).
Proof.
  intros W. split; [|split; [|split]].
  - intros mcp_configs. unfold parse_mcp_config.
    destruct (parse_loop_total getenv servers mcp_configs
                (mkParseResult [] [] None [], []) W) as [[res tools] ->].
    eauto.
  - apply parse_brackets_unbalanced.
  - apply parse_step_unknown.
  - intros r tool_ref Hp Hl Hm Hc.
    rewrite (get_tool_runtime_mcp _ _ Hl Hp), (get_mcp_runtime_miss _ _ Hm),
      mcp_construct_eq, Hc. reflexivity.
Qed.

(** The statement applied to a file with the one server [s] and the
    reference ["mcp:s[a"]. *)
Lemma malformed_reference_never_rejected_witness :
  let servers :=
    [("s", SMapping (mkServerConfig (Some "stdio") (Some "python")
                       (Some [SStr "s.py"]) None))] in
  (exists res,
     parse_mcp_config (fun _ => None) servers ["mcp:s[a"; "mcp:"] = Ok res)
  /\ parse_brackets "s[a" = Ok ("s[a", None).
Proof.
  intros servers.
  assert (W : well_shaped (fun _ => None) servers).
  { intros nm e [E|[]]. inversion E; subst. eexists. split; [reflexivity|].
    eexists. reflexivity. }
  destruct (malformed_reference_never_rejected (fun _ => None) servers W)
    as (H1 & H2 & _).
  split; [apply H1|apply H2; reflexivity].
Defined.

(** ** Initializing the configured servers *)

Section Lifecycle.

Variable getenv : string -> option string.
Variable probe : string -> CfgVal -> Outcome (list string).

Lemma grows_refl w : grows w w.
Proof. split; auto. Qed.

Lemma grows_trans w1 w2 w3 : grows w1 w2 -> grows w2 w3 -> grows w1 w3.
Proof. intros [A B] [C D]. split; [congruence|auto]. Qed.

Lemma register_mcp_tool_mem nm srv cfg r k :
  ODict.mem (_tools r) k = true ->
  ODict.mem (_tools (register_mcp_tool nm srv (Some cfg) r)) k = true.
Proof. rewrite register_mcp_tool_eq. simpl. apply ODictFacts.mem_set_mono. Qed.

Lemma register_mcp_server_tools_mem srv tools cfg r k :
  ODict.mem (_tools r) k = true ->
  ODict.mem (_tools (register_mcp_server_tools srv tools cfg r)) k = true.
Proof.
  rewrite register_mcp_server_tools_eq. simpl.
  apply ODictFacts.mem_update_mono.
Qed.

Lemma register_mcp_server_tools_keys srv tools cfg r :
  ODict.mem (_tools (register_mcp_server_tools srv tools cfg r))
    (full_name srv None) = true
  /\ forall t, In t tools ->
       ODict.mem (_tools (register_mcp_server_tools srv tools cfg r))
         (full_name srv (Some t)) = true.
Proof.
  rewrite register_mcp_server_tools_eq. unfold with_tools. cbn [_tools].
  pose proof (server_writes_functional srv tools cfg) as F.
  unfold ODict.mem. split.
  - erewrite ODictFacts.get_update_in; [reflexivity|exact F|].
    unfold server_writes. apply in_or_app. right. now left.
  - intros t Hin.
    erewrite ODictFacts.get_update_in; [reflexivity|exact F|].
    unfold server_writes. apply in_or_app. left.
    apply in_map_iff. now exists t.
Qed.

(** After the registration every discovered tool and the server itself are
    in the catalog. *)
Lemma register_discovered_keys nm tools rc m r :
  let w' := register_discovered nm tools rc (m, r) in
  grows (m, r) w'
  /\ ODict.mem (_tools (snd w')) (full_name nm None) = true
  /\ forall t, In t tools ->
       ODict.mem (_tools (snd w')) (full_name nm (Some t)) = true.
Proof.
  unfold register_discovered, grows. destruct tools as [|t0 tools];
    cbn [fst snd mark mcp_servers].
  - split; [split; [reflexivity|intros k; apply register_mcp_tool_mem]|].
    split; [|intros t []].
    rewrite register_mcp_tool_eq. unfold ODict.mem, with_tools. cbn [_tools].
    now rewrite ODictFacts.get_set_same.
  - split;
      [split; [reflexivity|intros k; apply register_mcp_server_tools_mem]|].
    apply register_mcp_server_tools_keys.
Qed.

Lemma register_discovered_memo nm tools rc w nm' :
  nm' <> nm ->
  ODict.get (initialized_servers (fst (register_discovered nm tools rc w))) nm'
  = ODict.get (initialized_servers (fst w)) nm'.
Proof.
  intros Hne. destruct w as [m r]. unfold register_discovered. simpl.
  apply ODictFacts.get_set_other. congruence.
Qed.

(** [init_begin] touches the memo of its own server only, and the catalog
    only grows. *)
Lemma init_begin_frame nm w :
  grows w (snd (init_begin getenv nm w))
  /\ forall nm', nm' <> nm ->
       ODict.get (initialized_servers (fst (snd (init_begin getenv nm w)))) nm'
       = ODict.get (initialized_servers (fst w)) nm'.
Proof.
  destruct w as [m r]. unfold init_begin.
  destruct (ODict.get (initialized_servers m) nm);
    [split; [apply grows_refl|reflexivity]|].
  destruct (ODict.get (mcp_servers m) nm) as [[c|]|];
    try (split; [apply grows_refl|reflexivity]).
  destruct (negb _); [split; [apply grows_refl|reflexivity]|].
  destruct (_build_command getenv c) as [command|e].
  - destruct (discover_begin getenv c) as [tools|[cmd env]];
      [|split; [apply grows_refl|reflexivity]].
    split.
    + apply register_discovered_keys.
    + intros nm' Hne. now apply register_discovered_memo.
  - split; [split; [reflexivity|auto]|].
    intros nm' Hne. simpl. apply ODictFacts.get_set_other. congruence.
Qed.

Lemma init_begin_phase nm m r :
  ODict.get (initialized_servers m) nm = None ->
  fst (init_begin getenv nm (m, r)) = phase_of getenv (mcp_servers m) nm.
Proof.
  intros H. unfold phase_of, init_begin. cbn [initialized_servers mcp_servers].
  rewrite H. cbn [ODict.get].
  destruct (ODict.get (mcp_servers m) nm) as [[c|]|]; try reflexivity.
  destruct (negb _); [reflexivity|].
  destruct (_build_command getenv c); [|reflexivity].
  destruct (discover_begin getenv c) as [tools|[cmd env]]; reflexivity.
Qed.

Lemma discover_begin_inr c cmd env :
  discover_begin getenv c = inr (cmd, env) ->
  exists o, _build_command getenv c = Ok o.
Proof.
  unfold discover_begin. destruct (_build_command getenv c); [eauto|].
  discriminate.
Qed.

(** A finished task carries the status foreseen for its server; a suspended
    one belongs to a [stdio] server whose command was built. *)
Lemma phase_verdict servers nm e :
  ODict.get servers nm = Some e ->
  match phase_of getenv servers nm with
  | Finished status => recorded status = verdict getenv e
  | Suspended rc cmd env =>
      verdict getenv e = true
      /\ exists c, e = SMapping c /\ discover_begin getenv c = inr (cmd, env)
  end.
Proof.
  intros H. unfold phase_of, init_begin.
  cbn [initialized_servers mcp_servers ODict.get fst]. rewrite H.
  destruct e as [c|]; [|reflexivity]. unfold verdict. fold (is_stdio c).
  destruct (is_stdio c); [|reflexivity]. cbn [negb andb].
  destruct (_build_command getenv c) as [command|err] eqn:Eb; [|reflexivity].
  destruct (discover_begin getenv c) as [tools|[cmd env]] eqn:Ed;
    cbn [fst]; [reflexivity|]. split; [reflexivity|]. now exists c.
Qed.

Lemma phase_suspended servers nm c cmd env :
  ODict.get servers nm = Some (SMapping c) ->
  is_stdio c = true ->
  discover_begin getenv c = inr (cmd, env) ->
  exists rc, phase_of getenv servers nm = Suspended rc cmd env.
Proof.
  intros H Hs Hd. unfold phase_of, init_begin.
  cbn [initialized_servers mcp_servers ODict.get fst]. rewrite H.
  fold (is_stdio c). rewrite Hs. cbn [negb].
  destruct (discover_begin_inr _ _ _ Hd) as [o ->]. rewrite Hd.
  eexists. reflexivity.
Qed.

(** The first round of the batch. *)
Lemma start_all_spec names : forall w,
  NoDup names ->
  (forall nm, In nm names ->
     ODict.get (initialized_servers (fst w)) nm = None) ->
  fst (fst (start_all getenv names w))
  = done_of getenv (mcp_servers (fst w)) names
  /\ snd (fst (start_all getenv names w))
     = pend_of getenv (mcp_servers (fst w)) names
  /\ grows w (snd (start_all getenv names w)).
Proof.
  induction names as [|nm rest IH]; intros w Hnd Hfresh.
  - simpl. repeat split; auto.
  - inversion Hnd as [|? ? Hnotin Hnd']; subst.
    destruct w as [m r].
    pose proof (init_begin_phase nm m r (Hfresh nm (or_introl eq_refl))) as Hph.
    destruct (init_begin_frame nm (m, r)) as [Hg Hmemo].
    cbn [start_all done_of pend_of flat_map].
    destruct (init_begin getenv nm (m, r)) as [ph w'] eqn:Ei.
    cbn [fst snd] in Hph, Hg, Hmemo. cbn [fst] . rewrite <- Hph.
    assert (Hfresh' : forall nm', In nm' rest ->
              ODict.get (initialized_servers (fst w')) nm' = None).
    { intros nm' Hin. rewrite Hmemo; [apply Hfresh; now right|].
      intros ->. contradiction. }
    destruct (IH w' Hnd' Hfresh') as (Hd & Hp & Hg').
    destruct Hg as [Hsrv Hmono]. rewrite Hsrv in Hd, Hp.
    fold (done_of getenv (mcp_servers m) rest).
    fold (pend_of getenv (mcp_servers m) rest).
    destruct (start_all getenv rest w') as [[done pend] w''].
    cbn [fst snd] in *. subst done pend.
    destruct ph; cbn [fst snd app]; repeat split; auto;
      try (apply (grows_trans (m, r) w' w''); [split; auto|exact Hg']);
      destruct Hg' as [A B]; cbn [fst snd] in *; congruence.
Qed.

Lemma pick_some {A} i (l : list A) y l' :
  pick i l = Some (y, l') ->
  List.length l = S (List.length l')
  /\ forall z, In z l <-> z = y \/ In z l'.
Proof.
  revert i y l'. induction l as [|x l IH]; intros i y l';
    [simpl; discriminate|].
  destruct i as [|i]; simpl.
  - intros H. inversion H; subst. split; [reflexivity|].
    intros z. split; intros [E|E]; auto.
  - destruct (pick i l) as [[y0 l0]|] eqn:E; intros H; inversion H; subst.
    + destruct (IH _ _ _ E) as [Hl Hin]. split; [simpl; lia|].
      intros z. simpl. rewrite Hin. tauto.
    + split; [reflexivity|]. intros z. split; intros [E'|E']; auto.
Qed.

Lemma pick_nonempty {A} i (x : A) l : pick i (x :: l) <> None.
Proof.
  destruct i; simpl; [discriminate|]. destruct (pick i l) as [[? ?]|];
    discriminate.
Qed.

(** The second round: every suspended task is resumed, whatever the order
    in which the probes complete, and reports [True]. *)
Lemma finish_all_spec choose fuel : forall pend k w,
  List.length pend = fuel ->
  let res := finish_all probe choose k fuel pend w in
  grows w (snd res)
  /\ (forall nm, In nm (map p_name pend) ->
        ODict.get (fst res) nm = Some (Ok true))
  /\ (forall nm, ~ In nm (map p_name pend) -> ODict.get (fst res) nm = None)
  /\ (forall p, In p pend ->
        ODict.mem (_tools (snd (snd res))) (full_name (p_name p) None) = true
        /\ forall t,
             In t (discover_end (probe (p_command p) (p_env p))) ->
             ODict.mem (_tools (snd (snd res)))
               (full_name (p_name p) (Some t)) = true).
Proof.
  induction fuel as [|fuel IH]; intros pend k w Hlen.
  - destruct pend; [|discriminate]. simpl.
    split; [apply grows_refl|]. repeat split; auto; contradiction.
  - destruct pend as [|p0 pend0]; [discriminate|].
    cbn [finish_all].
    destruct (pick (choose k) (p0 :: pend0)) as [[p pend']|] eqn:Ep;
      [|now apply pick_nonempty in Ep].
    destruct (pick_some _ _ _ _ Ep) as [Hl Hin].
    unfold init_finish. destruct w as [m r].
    destruct (register_discovered_keys (p_name p)
                (discover_end (probe (p_command p) (p_env p)))
                (p_config p) m r) as (Hg & Hsrv & Htools).
    set (w' := register_discovered (p_name p)
                 (discover_end (probe (p_command p) (p_env p)))
                 (p_config p) (m, r)) in *.
    assert (Hlen' : List.length pend' = fuel) by (rewrite Hl in Hlen; lia).
    destruct (IH pend' (S k) w' Hlen') as (Hg' & Hyes & Hno & Hkeys).
    destruct (finish_all probe choose (S k) fuel pend' w') as [done w''].
    cbn [fst snd] in *.
    split; [exact (grows_trans _ _ _ Hg Hg')|]. split; [|split].
    + intros nm Hnm. simpl.
      destruct (String.eqb_spec (p_name p) nm) as [_|Hne]; [reflexivity|].
      apply Hyes. apply in_map_iff in Hnm. destruct Hnm as [q [Hq Hqin]].
      apply Hin in Hqin. destruct Hqin as [->|Hqin]; [congruence|].
      apply in_map_iff. now exists q.
    + intros nm Hnm. simpl.
      destruct (String.eqb_spec (p_name p) nm) as [Heq|Hne].
      * exfalso. apply Hnm. apply in_map_iff. exists p. split; [exact Heq|].
        apply Hin. now left.
      * apply Hno. intros Hc. apply Hnm. apply in_map_iff in Hc.
        destruct Hc as [q [Hq Hqin]]. apply in_map_iff. exists q.
        split; [exact Hq|]. apply Hin. now right.
    + intros q Hq. apply Hin in Hq. destruct Hq as [->|Hq]; [|now apply Hkeys].
      destruct Hg' as [_ Hmono]. split; [now apply Hmono|].
      intros t Ht. apply Hmono. now apply Htools.
Qed.

Lemma set_new {V} (d : ODict.t V) k v :
  ~ In k (ODict.keys d) -> ODict.set d k v = d ++ [(k, v)].
Proof.
  induction d as [|[k0 v0] d IH]; simpl; intros H; [reflexivity|].
  destruct (String.eqb_spec k0 k) as [->|Hne]; [tauto|].
  now rewrite IH by tauto.
Qed.

(** With a status for every name, [results] lists the names in order. *)
Lemma collect_spec statuses names : forall acc,
  NoDup names ->
  (forall nm, In nm names -> ~ In nm (ODict.keys acc)) ->
  (forall nm, In nm names -> ODict.get statuses nm <> None) ->
  fold_left
    (fun (results : ODict.t bool) (nm : string) =>
       match ODict.get statuses nm with
       | Some (Ok status) => ODict.set results nm status
       | Some (Raise _) => ODict.set results nm false
       | None => results
       end) names acc
  = acc ++ map (fun nm => (nm, match ODict.get statuses nm with
                                | Some status => recorded status
                                | None => false
                                end)) names.
Proof.
  induction names as [|nm rest IH]; intros acc Hnd Hacc Hall; simpl.
  - now rewrite app_nil_r.
  - inversion Hnd as [|? ? Hnotin Hnd']; subst.
    assert (Hset : forall b, ODict.set acc nm b = acc ++ [(nm, b)]).
    { intros b. apply set_new. apply Hacc. now left. }
    assert (Hnext : forall b nm', In nm' rest ->
              ~ In nm' (ODict.keys (acc ++ [(nm, b)]))).
    { intros b nm' Hin. unfold ODict.keys. rewrite map_app, in_app_iff.
      intros [H|[H|[]]]; [apply (Hacc nm'); [now right|exact H]|].
      simpl in H. congruence. }
    destruct (ODict.get statuses nm) as [[b|e]|] eqn:G.
    + rewrite Hset, IH;
        [now rewrite <- app_assoc|exact Hnd'|apply Hnext
        |intros nm' Hin; apply Hall; now right].
    + rewrite Hset, IH;
        [now rewrite <- app_assoc|exact Hnd'|apply Hnext
        |intros nm' Hin; apply Hall; now right].
    + exfalso. apply (Hall nm); [now left|exact G].
Qed.

Lemma get_app {V} (d1 d2 : ODict.t V) k :
  ODict.get (d1 ++ d2) k
  = match ODict.get d1 k with
    | Some v => Some v
    | None => ODict.get d2 k
    end.
Proof.
  induction d1 as [|[k0 v0] d1 IH]; simpl; [reflexivity|].
  destruct (String.eqb k0 k); auto.
Qed.

Lemma get_done_of servers names nm :
  In nm names ->
  ODict.get (done_of getenv servers names) nm
  = match phase_of getenv servers nm with
    | Finished status => Some status
    | Suspended _ _ _ => None
    end.
Proof.
  induction names as [|n0 rest IH]; [contradiction|].
  cbn [done_of flat_map]. fold (done_of getenv servers rest).
  rewrite get_app. destruct (String.eqb_spec n0 nm) as [->|Hne].
  - intros _. destruct (phase_of getenv servers nm) eqn:E.
    + simpl. now rewrite String.eqb_refl.
    + simpl. destruct (in_dec string_dec nm rest) as [Hin|Hnin].
      * now rewrite (IH Hin).
      * apply ODictFacts.get_None_not_In_conv. intros Hk.
        apply Hnin. unfold done_of, ODict.keys in Hk.
        apply in_map_iff in Hk. destruct Hk as [[k v] [Hk Hkv]].
        apply in_flat_map in Hkv. destruct Hkv as [n1 [Hn1 Hkv]].
        destruct (phase_of getenv servers n1); [|contradiction].
        destruct Hkv as [Hkv|[]]. inversion Hkv; subst. exact Hn1.
  - intros [E|Hin]; [congruence|].
    destruct (phase_of getenv servers n0); simpl;
      [destruct (String.eqb_spec n0 nm); [congruence|]|]; exact (IH Hin).
Qed.

Lemma In_pend_of servers names nm :
  In nm (map p_name (pend_of getenv servers names))
  <-> In nm names /\ exists rc cmd env,
        phase_of getenv servers nm = Suspended rc cmd env.
Proof.
  unfold pend_of. rewrite in_map_iff. split.
  - intros [p [Hp Hin]]. apply in_flat_map in Hin.
    destruct Hin as [n0 [Hn0 Hin]].
    destruct (phase_of getenv servers n0) eqn:E; [contradiction|].
    destruct Hin as [<-|[]]. simpl in Hp. subst n0. split; [exact Hn0|].
    eauto.
  - intros [Hin (rc & cmd & env & E)]. exists (mkPending nm rc cmd env).
    split; [reflexivity|]. apply in_flat_map. exists nm. split; [exact Hin|].
    rewrite E. now left.
Qed.

(** The batch as a whole, for a manager that has initialized nothing yet:
    the statuses are those foreseen from the configuration file, in its
    order; the catalog only grows; and every server that was probed has its
    server-wide entry and an entry for every tool its probe reported. *)
Lemma initialize_all_servers_spec choose m r :
  NoDup (ODict.keys (mcp_servers m)) ->
  initialized_servers m = [] ->
  let res := initialize_all_servers getenv probe choose (m, r) in
  fst res = expected_results getenv (mcp_servers m)
  /\ grows (m, r) (snd res)
  /\ forall nm c cmd env,
       In (nm, SMapping c) (mcp_servers m) ->
       is_stdio c = true ->
       discover_begin getenv c = inr (cmd, env) ->
       ODict.mem (_tools (snd (snd res))) (full_name nm None) = true
       /\ forall t, In t (discover_end (probe cmd env)) ->
            ODict.mem (_tools (snd (snd res))) (full_name nm (Some t)) = true.
Proof.
  intros Hnd Hinit. unfold initialize_all_servers. cbn [fst].
  set (servers := mcp_servers m). set (names := ODict.keys servers).
  assert (Hfresh : forall nm, In nm names ->
            ODict.get (initialized_servers (fst (m, r))) nm = None)
    by (intros nm _; cbn [fst]; now rewrite Hinit).
  destruct (start_all_spec names (m, r) Hnd Hfresh) as (Hd & Hp & Hg).
  destruct (start_all getenv names (m, r)) as [[done1 pend] w1].
  cbn [fst snd] in Hd, Hp, Hg. fold servers in Hd, Hp.
  pose proof (finish_all_spec choose (List.length pend) pend 0 w1 eq_refl)
    as (Hg2 & Hyes & Hno & Hkeys).
  destruct (finish_all probe choose 0 (List.length pend) pend w1)
    as [done2 w2].
  cbn [fst snd] in *.
  assert (Hstat : forall nm e, In (nm, e) servers ->
            exists status, ODict.get (done1 ++ done2) nm = Some status
                           /\ recorded status = verdict getenv e).
  { intros nm e Hin.
    assert (Hnm : In nm names)
      by (unfold names, ODict.keys; apply in_map_iff; now exists (nm, e)).
    pose proof (ODictFacts.In_get _ _ _ _ Hnd Hin) as Hget.
    pose proof (phase_verdict servers nm e Hget) as Hv.
    rewrite get_app, Hd, (get_done_of servers names nm Hnm).
    destruct (phase_of getenv servers nm) as [status|rc cmd env] eqn:E.
    - now exists status.
    - exists (Ok true). destruct Hv as [Hv _]. split; [|now rewrite Hv].
      apply Hyes. rewrite Hp. apply In_pend_of. split; [exact Hnm|eauto]. }
  split; [|split].
  - unfold collect. rewrite collect_spec; [|exact Hnd|auto|].
    + unfold expected_results, names, ODict.keys. rewrite map_map. simpl.
      apply map_ext_in. intros [nm e] Hin. cbn [fst snd].
      destruct (Hstat nm e Hin) as (status & -> & Hrec). now rewrite Hrec.
    + intros nm Hnm. unfold names, ODict.keys in Hnm.
      apply in_map_iff in Hnm. destruct Hnm as [[nm' e] [E Hin]].
      simpl in E. subst nm'. destruct (Hstat nm e Hin) as (status & -> & _).
      discriminate.
  - exact (grows_trans _ _ _ Hg Hg2).
  - intros nm c cmd env Hin Hs Hdisc.
    pose proof (ODictFacts.In_get _ _ _ _ Hnd Hin) as Hget.
    destruct (phase_suspended servers nm c cmd env Hget Hs Hdisc) as [rc Hph].
    assert (Hpin : In (mkPending nm rc cmd env) pend).
    { rewrite Hp. unfold pend_of. apply in_flat_map. exists nm. split.
      - unfold names, ODict.keys. apply in_map_iff. now exists (nm, SMapping c).
      - rewrite Hph. now left. }
    exact (Hkeys _ Hpin).
Qed.

End Lifecycle.

(** C7 (as stated) fails: a provider whose discovery probe fails is recorded
    as [True], not [False]. With three [stdio] servers of which the probe of
    [B] raises, the batch returns [{A: True, B: True, C: True}], whichever
    probe completes first; [B] got its server-wide entry and the tools of
    [A] and [C] are in the catalog. *)
Lemma failed_probe_recorded_true :
  let cfg := fun file =>
    SMapping (mkServerConfig (Some "stdio") (Some "python") (Some [SStr file])
                None) in
  let servers := [("A", cfg "a.py"); ("B", cfg "b.py"); ("C", cfg "c.py")] in
  let probe := fun (command : string) (_ : CfgVal) =>
    if String.eqb command "python a.py" then Ok ["fa"]
    else if String.eqb command "python c.py" then Ok ["fc"]
    else Raise ConnectionFailure in
  let w := (mkManager servers [], init) in
  let res := initialize_all_servers (fun _ => None) probe (fun _ => 0) w in
  let res' := initialize_all_servers (fun _ => None) probe (fun _ => 2) w in
  fst res = [("A", true); ("B", true); ("C", true)]
  /\ fst res' = [("A", true); ("B", true); ("C", true)]
  /\ fst res <> [("A", true); ("B", false); ("C", true)]
  /\ list_tools None (snd (snd res))
     = ["mcp:A:fa"; "mcp:A"; "mcp:B"; "mcp:C:fc"; "mcp:C"]
  /\ list_tools None (snd (snd res'))
     = ["mcp:C:fc"; "mcp:C"; "mcp:B"; "mcp:A:fa"; "mcp:A"].
Proof. repeat split. discriminate. Qed.

(** C7 (amended): for a manager that has initialized nothing yet,
    [initialize_all_servers] returns, whatever the order in which the
    probes complete, one status per configured server in the order of the
    file: [True] for every mapping of type [stdio] whose command line can
    be built, [False] for every other entry (not a mapping, another type, a
    command that cannot be built); no entry aborts the batch. In particular
    a server that reaches its probe is recorded as [True] whether the probe
    succeeds or fails: a failed probe counts as an empty tool list and the
    server still gets its server-wide entry. The catalog keeps what it had
    and holds every tool reported by a successful probe. *)
Theorem initialize_all_servers_degrades getenv probe choose m r :
  NoDup (ODict.keys (mcp_servers m)) ->
  initialized_servers m = [] ->
  let res := initialize_all_servers getenv probe choose (m, r) in
  fst res = expected_results getenv (mcp_servers m)
  /\ (forall nm c cmd env,
        In (nm, SMapping c) (mcp_servers m) ->
        is_stdio c = true ->
        discover_begin getenv c = inr (cmd, env) ->
        ODict.get (fst res) nm = Some true
        /\ ODict.mem (_tools (snd (snd res))) (full_name nm None) = true
        /\ forall tools t,
             probe cmd env = Ok tools -> In t tools ->
             ODict.mem (_tools (snd (snd res))) (full_name nm (Some t)) = true)
  /\ (forall k, ODict.mem (_tools r) k = true ->
                ODict.mem (_tools (snd (snd res))) k = true).
Proof.
  intros Hnd Hinit res.
  destruct (initialize_all_servers_spec getenv probe choose m r Hnd Hinit)
    as (Hres & [_ Hmono] & Hkeys).
  fold res in Hres, Hmono, Hkeys. split; [exact Hres|]. split; [|exact Hmono].
  intros nm c cmd env Hin Hs Hd.
  destruct (Hkeys nm c cmd env Hin Hs Hd) as [Hsrv Htools].
  split; [|split; [exact Hsrv|]].
  - rewrite Hres. apply ODictFacts.In_get.
    + unfold expected_results, ODict.keys. rewrite map_map. exact Hnd.
    + unfold expected_results. apply in_map_iff. exists (nm, SMapping c).
      split; [|exact Hin]. cbn [fst snd verdict]. rewrite Hs.
      destruct (discover_begin_inr getenv c cmd env Hd) as [o ->].
      reflexivity.
  - intros tools t Hp Ht. apply Htools. rewrite Hp. exact Ht.
Qed.

(** The statement applied to the servers [A], [B], [C], the probe of [B]
    failing and the probe of [C] completing first. *)
Lemma initialize_all_servers_degrades_witness :
  let cfg := fun file =>
    SMapping (mkServerConfig (Some "stdio") (Some "python") (Some [SStr file])
                None) in
  let servers := [("A", cfg "a.py"); ("B", cfg "b.py"); ("C", cfg "c.py")] in
  let probe := fun (command : string) (_ : CfgVal) =>
    if String.eqb command "python a.py" then Ok ["fa"]
    else if String.eqb command "python c.py" then Ok ["fc"]
    else Raise ConnectionFailure in
  let res := initialize_all_servers (fun _ => None) probe (fun _ => 2)
               (mkManager servers [], init) in
  ODict.get (fst res) "B" = Some true
  /\ ODict.mem (_tools (snd (snd res))) "mcp:B" = true
  /\ ODict.mem (_tools (snd (snd res))) "mcp:A:fa" = true.
Proof.
  intros cfg servers probe res.
  assert (Hnd : NoDup (ODict.keys (mcp_servers (mkManager servers [])))).
  { repeat constructor; simpl; intuition discriminate. }
  destruct (initialize_all_servers_degrades (fun _ => None) probe
              (fun _ => 2) (mkManager servers []) init Hnd eq_refl)
    as (_ & H & _).
  destruct (H "B" _ "python b.py" VNone (or_intror (or_introl eq_refl))
              eq_refl eq_refl) as (HB & HBs & _).
  destruct (H "A" _ "python a.py" VNone (or_introl eq_refl)
              eq_refl eq_refl) as (_ & _ & HA).
  split; [exact HB|]. split; [exact HBs|].
  exact (HA ["fa"] "fa" eq_refl (or_introl eq_refl)).
Defined.

(** * Further properties *)

(** ** The registry *)

Section RegistryFacts.

Import ODictFacts.

Lemma combined_state refs r :
  snd (_get_combined_mcp_runtime refs r) = r
  \/ snd (_get_combined_mcp_runtime refs r) = allocated 1 r.
Proof.
  unfold _get_combined_mcp_runtime, allocated. rewrite Nat.add_1_r.
  destruct (combine_loop (_tools r) refs ([], [])) as [[svs env]|e]; auto.
  destruct svs as [|[n1 i1] [|kv svs]]; auto.
Qed.

Lemma allocated_allocated a b r :
  allocated a (allocated b r) = allocated (b + a) r.
Proof. unfold allocated; simpl. now rewrite Nat.add_assoc. Qed.

Lemma get_tools_for_agent_state refs r :
  exists n, snd (get_tools_for_agent refs r) = allocated n r.
Proof.
  unfold get_tools_for_agent. rewrite agent_loop_spec. cbn [app].
  set (r1 := allocated _ r).
  destruct (filter (PyStr.startswith "mcp:") refs) as [|m ms];
    [eexists; reflexivity|].
  pose proof (combined_state (m :: ms) r1) as E.
  destruct (_get_combined_mcp_runtime (m :: ms) r1) as [[[h|]|e] r2];
    cbn [snd] in *; destruct E as [->| ->]; unfold r1;
    try rewrite allocated_allocated; eexists; reflexivity.
Qed.

(** What [get_tool_runtime] does to the registry: nothing, one allocation,
    or one allocation together with one new cache entry. *)
Lemma get_tool_runtime_state tool_ref r :
  snd (get_tool_runtime tool_ref r) = r
  \/ snd (get_tool_runtime tool_ref r) = allocated 1 r
  \/ exists cfg,
       PyStr.startswith "mcp:" tool_ref = true
       /\ ODict.get (_mcp_runtime_cache r) tool_ref = None
       /\ server_config_of tool_ref r = Some cfg
       /\ snd (get_tool_runtime tool_ref r)
          = mkToolRegistry (_tools r)
              (ODict.set (_mcp_runtime_cache r) tool_ref
                 (MCPTools (next_oid r) (cfg_get cfg "command")
                    (or_none (cfg_get_env cfg)) (filter_of tool_ref)))
              (S (next_oid r)).
Proof.
  unfold get_tool_runtime, allocated. rewrite Nat.add_1_r.
  destruct (local_entry tool_ref r) as [md|].
  - destruct (runtime_factory md); auto.
  - destruct (PyStr.startswith "mcp:" tool_ref) eqn:Ep; auto.
    unfold _get_mcp_runtime.
    destruct (ODict.get (_mcp_runtime_cache r) tool_ref) eqn:Ec; auto.
    rewrite mcp_construct_eq.
    destruct (server_config_of tool_ref r) as [cfg|] eqn:Es; auto.
    right. right. exists cfg. auto.
Qed.

End RegistryFacts.

(** X1: resolving references never changes the catalog, and never replaces
    or removes a runtime that is already cached: [get_tool_runtime],
    [get_tools_for_agent] and [_get_combined_mcp_runtime] leave every
    catalog entry and every existing cache entry as it was. *)
Theorem resolution_frame tool_ref tool_refs r :
  let r1 := snd (get_tool_runtime tool_ref r) in
  let r2 := snd (get_tools_for_agent tool_refs r) in
  let r3 := snd (_get_combined_mcp_runtime tool_refs r) in
  _tools r1 = _tools r /\ _tools r2 = _tools r /\ _tools r3 = _tools r
  /\ _mcp_runtime_cache r2 = _mcp_runtime_cache r
  /\ _mcp_runtime_cache r3 = _mcp_runtime_cache r
  /\ (forall k h, ODict.get (_mcp_runtime_cache r) k = Some h ->
        ODict.get (_mcp_runtime_cache r1) k = Some h).
Proof.
  intros r1 r2 r3.
  destruct (get_tools_for_agent_state tool_refs r) as [n E2].
  fold r2 in E2. rewrite E2.
  assert (E3 : r3 = r \/ r3 = allocated 1 r) by apply combined_state.
  assert (E1 := get_tool_runtime_state tool_ref r). fold r1 in E1.
  repeat split; try reflexivity;
    try (destruct E3 as [->| ->]; reflexivity).
  - destruct E1 as [->|[->|(cfg & _ & _ & _ & ->)]]; reflexivity.
  - intros k h Hk.
    destruct E1 as [->|[->|(cfg & _ & Hmiss & _ & ->)]]; try exact Hk.
    simpl. rewrite ODictFacts.get_set_other; [exact Hk|].
    intros ->. congruence.
Qed.

(** X2: a local tool is constructed anew on every resolution and is never
    cached: two resolutions of the same local reference give two instances
    with different identities, and the cache is as before. This holds for
    every key registered as [LOCAL], also one that starts with ["mcp:"]. *)
Theorem local_tool_instances_are_fresh tool_ref r md cls :
  local_entry tool_ref r = Some md ->
  runtime_factory md = Some cls ->
  let '(t1, r1) := get_tool_runtime tool_ref r in
  let '(t2, r2) := get_tool_runtime tool_ref r1 in
  t1 = Some (LocalTool (next_oid r) cls)
  /\ t2 = Some (LocalTool (S (next_oid r)) cls)
  /\ t1 <> t2
  /\ _mcp_runtime_cache r2 = _mcp_runtime_cache r.
Proof.
  intros Hl Hf. unfold get_tool_runtime at 1. rewrite Hl, Hf.
  unfold get_tool_runtime.
  change (local_entry tool_ref
            (mkToolRegistry (_tools r) (_mcp_runtime_cache r) (S (next_oid r))))
    with (local_entry tool_ref r).
  rewrite Hl, Hf. simpl. repeat split. intros E. inversion E. lia.
Qed.

Lemma local_tool_instances_are_fresh_witness :
  let r := register_local_tools init in
  fst (get_tool_runtime "DuckDuckGoTools" r)
  = Some (LocalTool 0 "DuckDuckGoTools")
  /\ fst (get_tool_runtime "DuckDuckGoTools"
            (snd (get_tool_runtime "DuckDuckGoTools" r)))
     = Some (LocalTool 1 "DuckDuckGoTools").
Proof.
  intros r.
  pose proof (local_tool_instances_are_fresh "DuckDuckGoTools" r _
                "DuckDuckGoTools" eq_refl eq_refl) as H.
  cbv zeta in H. simpl in H. destruct H as (H1 & H2 & _).
  split; [exact H1|exact H2].
Defined.

(** X3: [register_local_tool] followed by a lookup. The key holds the new
    [LOCAL] record whatever it held before (an MCP entry of the same key is
    replaced), it is listed among the local tools, every other key keeps its
    record, and resolving the key constructs an instance of the registered
    factory. *)
Theorem register_local_tool_lookup nm factory_func cfg r :
  let r' := register_local_tool nm factory_func cfg r in
  get_tool_metadata nm r'
  = Some (mkToolMetadata nm LOCAL None (Some factory_func)
            (config_or_empty cfg))
  /\ (forall k, k <> nm -> get_tool_metadata k r' = get_tool_metadata k r)
  /\ In nm (list_tools (Some LOCAL) r')
  /\ get_tool_runtime nm r'
     = (Some (LocalTool (next_oid r) factory_func), allocated 1 r').
Proof.
  intros r'.
  assert (Hget : get_tool_metadata nm r'
                 = Some (mkToolMetadata nm LOCAL None (Some factory_func)
                           (config_or_empty cfg)))
    by apply ODictFacts.get_set_same.
  split; [exact Hget|]. split; [|split].
  - intros k Hk. unfold get_tool_metadata, r', register_local_tool. simpl.
    apply ODictFacts.get_set_other. congruence.
  - unfold list_tools. apply in_map_iff.
    exists (nm, mkToolMetadata nm LOCAL None (Some factory_func)
                  (config_or_empty cfg)).
    split; [reflexivity|]. apply filter_In. split; [|reflexivity].
    apply ODictFacts.get_In. exact Hget.
  - unfold get_tool_runtime, local_entry. unfold get_tool_metadata in Hget.
    rewrite Hget. simpl. unfold allocated. simpl. now rewrite Nat.add_1_r.
Qed.

Lemma register_local_tool_lookup_witness :
  get_tool_metadata "mcp:s"
    (register_mcp_tool None "s" None
       (register_local_tool "Search" "SearchTool" None init))
  = Some (mkToolMetadata "s" MCP (Some "s") None [])
  /\ get_tool_metadata "Search"
       (register_local_tool "Search" "SearchTool" None
          (register_mcp_tool None "s" None init))
     = Some (mkToolMetadata "Search" LOCAL None (Some "SearchTool") []).
Proof.
  split; [reflexivity|].
  destruct (register_local_tool_lookup "Search" "SearchTool" None
              (register_mcp_tool None "s" None init)) as (H & _).
  exact H.
Defined.

Section Listing.

Lemma filter_partition {A} (f : A -> bool) (l : list A) :
  Permutation l (filter f l ++ filter (fun x => negb (f x)) l).
Proof.
  induction l as [|a l IH]; simpl; [constructor|].
  destruct (f a); simpl.
  - now constructor.
  - now apply Permutation_cons_app.
Qed.

Lemma is_local_or_mcp (ty : ToolType) :
  negb (ToolType_eqb ty LOCAL) = ToolType_eqb ty MCP.
Proof. now destruct ty. Qed.

End Listing.

(** X4: every catalog key is listed under exactly one type. [list_tools()]
    is a rearrangement of the local keys followed by the MCP keys, so the
    total number of tools is the number of local tools plus the number of
    MCP tools. *)
Theorem list_tools_partition r :
  Permutation (list_tools None r)
    (list_tools (Some LOCAL) r ++ list_tools (Some MCP) r)
  /\ List.length (list_tools None r)
     = List.length (list_tools (Some LOCAL) r)
       + List.length (list_tools (Some MCP) r).
Proof.
  assert (P : Permutation (list_tools None r)
                (list_tools (Some LOCAL) r ++ list_tools (Some MCP) r)).
  { unfold list_tools, ODict.keys. rewrite <- map_app.
    apply Permutation_map.
    erewrite (filter_ext (fun kv => ToolType_eqb (type (snd kv)) MCP)).
    - apply (filter_partition
               (fun kv : string * ToolMetadata =>
                  ToolType_eqb (type (snd kv)) LOCAL)).
    - intros kv. symmetry. apply is_local_or_mcp. }
  split; [exact P|].
  rewrite <- length_app. now apply Permutation_length.
Qed.

Section Reachable.

Lemma registry_inv_allocated n r : registry_inv r -> registry_inv (allocated n r).
Proof.
  intros [A B C D]. constructor; simpl; auto.
  intros k h Hin. specialize (D k h Hin). simpl. lia.
Qed.

Lemma registry_inv_with_tools r d :
  registry_inv r -> NoDup (ODict.keys d) -> registry_inv (with_tools r d).
Proof. intros [A B C D] Hd. constructor; simpl; auto. Qed.

Lemma registry_inv_get_tool_runtime tool_ref r :
  registry_inv r -> registry_inv (snd (get_tool_runtime tool_ref r)).
Proof.
  intros Hinv.
  destruct (get_tool_runtime_state tool_ref r)
    as [->|[->|(cfg & Hp & Hmiss & Hcfg & ->)]]; auto.
  - now apply registry_inv_allocated.
  - destruct Hinv as [A B C D]. constructor; simpl; auto.
    + now apply ODictFacts.NoDup_keys_set.
    + intros k h Hin. apply In_set_inv in Hin.
      destruct Hin as [Hin|[-> ->]]; [now apply C|now split].
    + intros k h Hin. apply In_set_inv in Hin. simpl.
      destruct Hin as [Hin|[_ ->]]; [specialize (D k h Hin)|simpl]; lia.
Qed.

End Reachable.

(** X5: an invariant of the registry. In every registry reached from
    [ToolRegistry()] through registrations, resolutions and cache clearing,
    no key is held twice by the catalog or by the cache, every cache key is
    an ["mcp:"] reference, and every cached object is a single-server
    [MCPTools] with an identity older than the allocation serial (aggregated
    and local objects are never cached). *)
Theorem reachable_registry_inv r : reachable r -> registry_inv r.
Proof.
  induction 1 as [|nm f cfg r _ IH|nm srv cfg r _ IH|srv tools cfg r _ IH
                 |ref r _ IH|refs r _ IH|refs r _ IH|r _ IH].
  - constructor; simpl;
      [constructor|constructor|intros k h []|intros k h []].
  - apply registry_inv_with_tools; [exact IH|].
    apply ODictFacts.NoDup_keys_set, IH.
  - apply registry_inv_with_tools; [exact IH|].
    apply ODictFacts.NoDup_keys_set, IH.
  - rewrite register_mcp_server_tools_eq.
    apply registry_inv_with_tools; [exact IH|].
    apply ODictFacts.NoDup_keys_update, IH.
  - now apply registry_inv_get_tool_runtime.
  - destruct (get_tools_for_agent_state refs r) as [n ->].
    now apply registry_inv_allocated.
  - destruct (combined_state refs r) as [->| ->]; [exact IH|].
    now apply registry_inv_allocated.
  - destruct IH as [A B C D].
    constructor; simpl;
      [exact A|constructor|intros k h []|intros k h []].
Qed.

Lemma reachable_registry_inv_witness :
  registry_inv
    (snd (get_tool_runtime "mcp:s:a"
            (register_mcp_server_tools "s" ["a"]
               [("command", VStr "python s.py")] init))).
Proof.
  apply reachable_registry_inv.
  apply reach_get_tool_runtime, reach_register_server, reach_init.
Defined.

Section CombinedFacts.

Lemma combine_loop_unresolvable catalog refs : forall acc,
  unresolvable refs catalog -> combine_loop catalog refs acc = Ok acc.
Proof.
  induction refs as [|ref rest IH]; intros acc Hu; [reflexivity|].
  cbn [combine_loop].
  assert (Hstep : combine_step catalog acc ref = Ok acc).
  { unfold combine_step. destruct acc as [servers all_env].
    destruct (PyStr.split ":" ref) as [|p0 [|srv parts]] eqn:Es;
      try reflexivity.
    now rewrite (Hu ref p0 srv parts (or_introl eq_refl) Es). }
  rewrite Hstep. apply IH.
  intros r p0 srv parts Hin. apply Hu. now right.
Qed.

End CombinedFacts.

(** X6: references to servers without a registered configuration are left
    out, not reported. When none of the MCP references of a request names a
    configured server, [_get_combined_mcp_runtime] returns [None] without
    constructing anything, and [get_tools_for_agent] returns the local
    tools only. *)
Theorem unconfigured_servers_are_skipped tool_refs r :
  unresolvable (filter (PyStr.startswith "mcp:") tool_refs) (_tools r) ->
  _get_combined_mcp_runtime (filter (PyStr.startswith "mcp:") tool_refs) r
  = (Ok None, r)
  /\ get_tools_for_agent tool_refs r
     = (Ok (instantiate (next_oid r) (local_classes tool_refs r)),
        allocated (List.length (local_classes tool_refs r)) r).
Proof.
  intros Hu.
  assert (Hc : forall r', _tools r' = _tools r ->
             _get_combined_mcp_runtime
               (filter (PyStr.startswith "mcp:") tool_refs) r' = (Ok None, r')).
  { intros r' Ht. unfold _get_combined_mcp_runtime.
    rewrite Ht, combine_loop_unresolvable by exact Hu. reflexivity. }
  split; [now apply Hc|].
  unfold get_tools_for_agent. rewrite agent_loop_spec. cbn [app].
  destruct (filter (PyStr.startswith "mcp:") tool_refs) as [|m ms] eqn:Ef;
    [reflexivity|].
  now rewrite Hc.
Qed.

Lemma unconfigured_servers_are_skipped_witness :
  get_tools_for_agent ["DuckDuckGoTools"; "mcp:github"; "mcp:jira:search"]
    (register_local_tools init)
  = (Ok [LocalTool 0 "DuckDuckGoTools"], allocated 1 (register_local_tools init)).
Proof.
  apply (unconfigured_servers_are_skipped
           ["DuckDuckGoTools"; "mcp:github"; "mcp:jira:search"]
           (register_local_tools init)).
  intros ref p0 srv rest [<-|[<-|[]]] E; inversion E; reflexivity.
Defined.

(** X7: the only exception the resolution of a reference list can raise
    comes from a configuration whose ["env"] is not a mapping. When every
    configuration in the catalog has a mapping under ["env"], or no such
    key, [_get_combined_mcp_runtime] and [get_tools_for_agent] return
    normally for every list of references. *)
Theorem resolution_never_raises tool_refs r :
  env_is_dict (_tools r) ->
  (exists o, fst (_get_combined_mcp_runtime tool_refs r) = Ok o)
  /\ (exists tools, fst (get_tools_for_agent tool_refs r) = Ok tools).
Proof.
  intros He. split; [now apply combined_ok|].
  unfold get_tools_for_agent. rewrite agent_loop_spec. cbn [app].
  destruct (filter (PyStr.startswith "mcp:") tool_refs) as [|m ms];
    [simpl; eauto|].
  set (r1 := allocated _ r).
  destruct (combined_ok (m :: ms) r1 He) as [o Ho].
  destruct (_get_combined_mcp_runtime (m :: ms) r1) as [res r2].
  simpl in Ho. subst res. destruct o; simpl; eauto.
Qed.

Lemma resolution_never_raises_witness :
  exists tools,
    fst (get_tools_for_agent ["mcp:s:a"; "mcp:t"]
           (register_mcp_server_tools "s" ["a"]
              [("command", VStr "python s.py"); ("env", VDict [("K", "v")])]
              init))
    = Ok tools.
Proof.
  apply (resolution_never_raises ["mcp:s:a"; "mcp:t"]).
  intros k md [E|[E|[]]]; inversion E; subst; eexists; reflexivity.
Defined.

(** ** The server manager *)

Section ManagerFacts.

Variable getenv : string -> option string.

Lemma join_parts_strings ss : join_parts (map SStr ss) = Ok ss.
Proof. induction ss as [|s ss IH]; simpl; [reflexivity|now rewrite IH]. Qed.

Lemma join_parts_int parts z :
  In (SInt z) parts -> join_parts parts = Raise TypeError.
Proof.
  induction parts as [|[s|z'] parts IH]; simpl; [tauto| |reflexivity].
  intros [E|Hin]; [discriminate|]. now rewrite IH.
Qed.

Lemma resolve_scalar_int l z :
  In (SInt z) l -> In (SInt z) (map (resolve_scalar getenv) l).
Proof. intros H. apply in_map_iff. now exists (SInt z). Qed.

Lemma resolve_str_not_placeholder v :
  is_placeholder v = false -> resolve_str getenv v = v.
Proof. unfold resolve_str, is_placeholder. now intros ->. Qed.

Lemma resolve_str_result v :
  (forall nm x, getenv nm = Some x -> is_placeholder x = false) ->
  is_placeholder (resolve_str getenv v) = false.
Proof.
  intros H. unfold resolve_str. fold (is_placeholder v).
  destruct (is_placeholder v) eqn:E; [|exact E].
  destruct (getenv _) as [x|] eqn:G; [exact (H _ _ G)|reflexivity].
Qed.

Lemma resolve_str_idem v :
  (forall nm x, getenv nm = Some x -> is_placeholder x = false) ->
  resolve_str getenv (resolve_str getenv v) = resolve_str getenv v.
Proof.
  intros H. apply resolve_str_not_placeholder. now apply resolve_str_result.
Qed.

End ManagerFacts.

(** X8: how [_build_command] fails and what it builds. A number among the
    arguments makes it raise [TypeError]; with string arguments only it
    returns the command and the arguments, each with its placeholder
    resolved, joined by single blanks, and [None] when there is neither a
    command nor an argument. *)
Theorem build_command_spec getenv c :
  ((exists z, In (SInt z) (args_of c)) ->
     _build_command getenv c = Raise TypeError)
  /\ (forall ss, args_of c = map SStr ss ->
        _build_command getenv c
        = Ok (match command_of c ++ ss with
              | [] => None
              | l => Some (PyStr.join " " (map (resolve_str getenv) l))
              end)).
Proof.
  unfold _build_command, _resolve_env_vars, args_of, command_of.
  cbn [sc_command sc_args]. split.
  - intros [z Hz].
    assert (Hin : In (SInt z)
                    (match option_map (map (resolve_scalar getenv)) (sc_args c)
                     with Some a => a | None => [] end)).
    { destruct (sc_args c) as [a|]; [|destruct Hz]. simpl.
      now apply resolve_scalar_int. }
    destruct (sc_command c) as [cmd|]; simpl.
    + now rewrite (join_parts_int _ z Hin).
    + destruct (match option_map _ (sc_args c) with Some a => a | None => [] end)
        as [|x l] eqn:E; [destruct Hin|].
      now rewrite (join_parts_int _ z Hin).
  - intros ss Hss.
    assert (Hargs : match option_map (map (resolve_scalar getenv)) (sc_args c)
                    with Some a => a | None => [] end
                    = map SStr (map (resolve_str getenv) ss)).
    { destruct (sc_args c) as [a|]; simpl; [subst a|].
      - rewrite !map_map. reflexivity.
      - destruct ss; [reflexivity|discriminate]. }
    rewrite Hargs. destruct (sc_command c) as [cmd|]; simpl.
    + now rewrite join_parts_strings.
    + destruct ss as [|s ss]; [reflexivity|].
      cbn [map]. rewrite <- (map_cons SStr). now rewrite join_parts_strings.
Qed.

Lemma build_command_spec_witness :
  _build_command (fun nm => if String.eqb nm "PORT" then Some "8080" else None)
    (mkServerConfig (Some "stdio") (Some "npx")
       (Some [SStr "server"; SStr "${PORT}"; SStr "${UNSET}"]) None)
  = Ok (Some "npx server 8080 ")
  /\ _build_command (fun _ => None)
       (mkServerConfig (Some "stdio") (Some "npx")
          (Some [SStr "server"; SInt 8080]) None)
     = Raise TypeError.
Proof.
  split.
  - destruct (build_command_spec
                (fun nm => if String.eqb nm "PORT" then Some "8080" else None)
                (mkServerConfig (Some "stdio") (Some "npx")
                   (Some [SStr "server"; SStr "${PORT}"; SStr "${UNSET}"])
                   None)) as [_ H].
    exact (H ["server"; "${PORT}"; "${UNSET}"] eq_refl).
  - destruct (build_command_spec (fun _ => None)
                (mkServerConfig (Some "stdio") (Some "npx")
                   (Some [SStr "server"; SInt 8080]) None)) as [H _].
    apply H. exists 8080%Z. right. now left.
Defined.

(** X9: resolving the environment placeholders of a server description a
    second time changes nothing, provided no environment variable holds a
    value that itself has the form of a placeholder; a string that is not a
    placeholder is never touched. *)
Theorem resolve_env_vars_idempotent getenv c :
  (forall nm x, getenv nm = Some x -> is_placeholder x = false) ->
  _resolve_env_vars getenv (_resolve_env_vars getenv c)
  = _resolve_env_vars getenv c
  /\ (forall v, is_placeholder v = false -> resolve_str getenv v = v).
Proof.
  intros H. split; [|apply resolve_str_not_placeholder].
  assert (Hs := resolve_str_idem getenv).
  unfold _resolve_env_vars. cbn [sc_type sc_command sc_args sc_env].
  f_equal.
  - destruct (sc_type c); simpl; [now rewrite Hs|reflexivity].
  - destruct (sc_command c); simpl; [now rewrite Hs|reflexivity].
  - destruct (sc_args c) as [a|]; simpl; [|reflexivity]. f_equal.
    rewrite map_map. apply map_ext. intros [s|z]; simpl; [|reflexivity].
    now rewrite Hs.
  - destruct (sc_env c) as [e|]; simpl; [|reflexivity]. f_equal.
    unfold resolve_env. rewrite map_map. apply map_ext.
    intros [k v]. simpl. now rewrite Hs.
Qed.

Lemma resolve_env_vars_idempotent_witness :
  let getenv := fun nm => if String.eqb nm "TOKEN" then Some "abc" else None in
  let c := mkServerConfig (Some "stdio") (Some "run") (Some [SStr "${TOKEN}"])
             (Some [("GITHUB_TOKEN", "${TOKEN}"); ("MODE", "prod")]) in
  _resolve_env_vars getenv c
  = mkServerConfig (Some "stdio") (Some "run") (Some [SStr "abc"])
      (Some [("GITHUB_TOKEN", "abc"); ("MODE", "prod")])
  /\ _resolve_env_vars getenv (_resolve_env_vars getenv c)
     = _resolve_env_vars getenv c.
Proof.
  intros getenv c. split; [reflexivity|].
  apply (resolve_env_vars_idempotent getenv c).
  intros nm x. unfold getenv.
  destruct (String.eqb nm "TOKEN"); intros E; inversion E; reflexivity.
Defined.

Section Memo.

Variable getenv : string -> option string.

Lemma mark_get nm b m :
  ODict.get (initialized_servers (mark nm b m)) nm = Some b.
Proof. apply ODictFacts.get_set_same. Qed.

Lemma register_discovered_marks nm tools rc w :
  ODict.get (initialized_servers (fst (register_discovered nm tools rc w))) nm
  = Some true.
Proof. destruct w as [m r]. apply mark_get. Qed.

(** What [init_begin] leaves in the memo of a server that was not
    initialized before. *)
Lemma init_begin_memo nm m r e :
  ODict.get (initialized_servers m) nm = None ->
  ODict.get (mcp_servers m) nm = Some e ->
  match fst (init_begin getenv nm (m, r)) with
  | Finished _ =>
      ODict.get (initialized_servers (fst (snd (init_begin getenv nm (m, r)))))
        nm = expected_memo getenv e
  | Suspended _ _ _ =>
      snd (init_begin getenv nm (m, r)) = (m, r)
      /\ expected_memo getenv e = Some true
  end.
Proof.
  intros Hm He. unfold init_begin. rewrite Hm, He.
  destruct e as [c|]; [|exact Hm]. unfold expected_memo, verdict.
  fold (is_stdio c). destruct (is_stdio c); [|exact Hm]. cbn [negb andb].
  destruct (_build_command getenv c) as [command|err]; [|apply mark_get].
  destruct (discover_begin getenv c) as [tools|[cmd env]]; cbn [fst snd].
  - apply register_discovered_marks.
  - now split.
Qed.

(** A server that is memoized answers from the memo and changes nothing. *)
Lemma init_begin_memoized nm m r b :
  ODict.get (initialized_servers m) nm = Some b ->
  init_begin getenv nm (m, r) = (Finished (Ok b), (m, r)).
Proof. intros H. unfold init_begin. now rewrite H. Qed.

(** A call of [initialize_server] either changes nothing and does not look
    at the probe, or leaves its status in the memo. *)
Lemma initialize_server_cases probe nm w :
  (snd (initialize_server getenv probe nm w) = w
   /\ forall probe',
        initialize_server getenv probe' nm w
        = initialize_server getenv probe nm w)
  \/ exists b,
       fst (initialize_server getenv probe nm w) = Ok b
       /\ ODict.get (initialized_servers
                       (fst (snd (initialize_server getenv probe nm w)))) nm
          = Some b.
Proof.
  destruct w as [m r]. unfold initialize_server, init_begin.
  destruct (ODict.get (initialized_servers m) nm) as [b|] eqn:Hm; [now left|].
  destruct (ODict.get (mcp_servers m) nm) as [[c|]|]; try now left.
  destruct (negb _); [now left|].
  destruct (_build_command getenv c) as [command|err].
  - destruct (discover_begin getenv c) as [tools|[cmd env]];
      right; exists true; (split; [reflexivity|]);
      unfold init_finish; cbn [fst snd p_name p_config];
      apply register_discovered_marks.
  - right. exists false. split; [reflexivity|]. apply mark_get.
Qed.

End Memo.

(** X10: [initialize_server] is memoized. Whatever a first call returned, a
    second call for the same server returns the same status and leaves the
    manager and the registry untouched; it does not depend on what a new
    probe would answer. *)
Theorem initialize_server_memoized getenv probe probe' nm w :
  initialize_server getenv probe' nm
    (snd (initialize_server getenv probe nm w))
  = initialize_server getenv probe nm w.
Proof.
  destruct (initialize_server_cases getenv probe nm w)
    as [[Hw Hp]|(b & Hs & Hm)].
  - rewrite Hw. apply Hp.
  - destruct (initialize_server getenv probe nm w) as [s [m' r']].
    cbn [fst snd] in *. subst s. unfold initialize_server.
    now rewrite (init_begin_memoized getenv nm m' r' b Hm).
Qed.

(** X11: what a first [initialize_server] of a server leaves behind. If it
    returns [True], the server-wide entry ["mcp:{server}"] is in the catalog
    and [is_server_initialized] answers [True]; with any other outcome the
    registry is exactly as before and [is_server_initialized] answers
    [False]. *)
Theorem initialize_server_registers getenv probe nm m r :
  ODict.get (initialized_servers m) nm = None ->
  let res := initialize_server getenv probe nm (m, r) in
  (fst res = Ok true ->
     ODict.mem (_tools (snd (snd res))) ("mcp:" ++ nm) = true
     /\ is_server_initialized nm (fst (snd res)) = true)
  /\ (fst res <> Ok true ->
        snd (snd res) = r
        /\ is_server_initialized nm (fst (snd res)) = false).
Proof.
  intros Hm res. subst res. unfold initialize_server, init_begin.
  rewrite Hm. unfold is_server_initialized.
  destruct (ODict.get (mcp_servers m) nm) as [[c|]|]; cbn [fst snd];
    try (rewrite Hm; split; [discriminate|now split]).
  destruct (negb _); cbn [fst snd];
    [rewrite Hm; split; [discriminate|now split]|].
  destruct (_build_command getenv c) as [command|err]; cbn [fst snd].
  - assert (Hreg : forall tools rc,
              ODict.mem (_tools (snd (register_discovered nm tools rc (m, r))))
                ("mcp:" ++ nm) = true
              /\ match ODict.get (initialized_servers
                          (fst (register_discovered nm tools rc (m, r)))) nm
                 with Some b => b | None => false end = true).
    { intros tools rc.
      destruct (register_discovered_keys nm tools rc m r) as (_ & Hk & _).
      split; [exact Hk|]. now rewrite register_discovered_marks. }
    destruct (discover_begin getenv c) as [tools|[cmd env]];
      unfold init_finish; cbn [fst snd p_name p_config];
      (split; [intros _; apply Hreg|intros H; now contradiction H]).
  - rewrite mark_get. split; [discriminate|now split].
Qed.

Lemma initialize_server_registers_witness :
  let m := mkManager
             [("A", SMapping (mkServerConfig (Some "stdio") (Some "python")
                                (Some [SStr "a.py"]) None));
              ("B", SMapping (mkServerConfig (Some "sse") (Some "python")
                                None None))] [] in
  let probe := fun (_ : string) (_ : CfgVal) => Ok ["fa"] in
  ODict.mem
    (_tools (snd (snd (initialize_server (fun _ => None) probe "A" (m, init)))))
    "mcp:A" = true
  /\ snd (snd (initialize_server (fun _ => None) probe "B" (m, init))) = init.
Proof.
  intros m probe.
  destruct (initialize_server_registers (fun _ => None) probe "A" m init
              eq_refl) as [HA _].
  destruct (initialize_server_registers (fun _ => None) probe "B" m init
              eq_refl) as [_ HB].
  split; [apply HA; reflexivity|apply HB; discriminate].
Defined.

Section Batch.

Variable getenv : string -> option string.
Variable probe : string -> CfgVal -> Outcome (list string).

Lemma start_all_cons_snd n0 rest w :
  snd (start_all getenv (n0 :: rest) w)
  = snd (start_all getenv rest (snd (init_begin getenv n0 w))).
Proof.
  cbn [start_all].
  destruct (init_begin getenv n0 w) as [[s|rc cmd env] w1]; cbn [snd];
    destruct (start_all getenv rest w1) as [[d p] w2]; reflexivity.
Qed.

Lemma start_all_memo names : forall w,
  NoDup names ->
  (forall nm, In nm names ->
     ODict.get (initialized_servers (fst w)) nm = None) ->
  let w' := snd (start_all getenv names w) in
  (forall nm e, In nm names ->
     ODict.get (mcp_servers (fst w)) nm = Some e ->
     ODict.get (initialized_servers (fst w')) nm
     = match phase_of getenv (mcp_servers (fst w)) nm with
       | Finished _ => expected_memo getenv e
       | Suspended _ _ _ => None
       end)
  /\ (forall nm, ~ In nm names ->
        ODict.get (initialized_servers (fst w')) nm
        = ODict.get (initialized_servers (fst w)) nm).
Proof.
  induction names as [|n0 rest IH]; intros w Hnd Hfresh.
  - simpl. split; [intros nm e []|reflexivity].
  - inversion Hnd as [|? ? Hnotin Hnd']; subst. destruct w as [m r].
    pose proof (init_begin_phase getenv n0 m r
                  (Hfresh n0 (or_introl eq_refl))) as Hph.
    destruct (init_begin_frame getenv n0 (m, r)) as [[Hsrv _] Hmemo].
    assert (Hfresh' : forall nm, In nm rest ->
              ODict.get (initialized_servers
                           (fst (snd (init_begin getenv n0 (m, r))))) nm
              = None).
    { intros nm Hin. rewrite Hmemo; [apply Hfresh; now right|].
      intros ->. contradiction. }
    destruct (IH (snd (init_begin getenv n0 (m, r))) Hnd' Hfresh')
      as [IHin IHout].
    cbv zeta. rewrite start_all_cons_snd. cbn [fst] in *. split.
    + intros nm e [<-|Hin] He.
      * rewrite IHout by exact Hnotin.
        pose proof (init_begin_memo getenv n0 m r e
                      (Hfresh n0 (or_introl eq_refl)) He) as Hm.
        rewrite Hph in Hm.
        destruct (phase_of getenv (mcp_servers m) n0); [exact Hm|].
        destruct Hm as [-> _]. apply Hfresh. now left.
      * rewrite <- Hsrv. apply IHin; [exact Hin|]. now rewrite Hsrv.
    + intros nm Hn. rewrite IHout by (intros H; apply Hn; now right).
      apply Hmemo. intros ->. apply Hn. now left.
Qed.

Lemma finish_all_memo choose fuel : forall pend k w,
  List.length pend = fuel ->
  let w' := snd (finish_all probe choose k fuel pend w) in
  (forall nm, In nm (map p_name pend) ->
     ODict.get (initialized_servers (fst w')) nm = Some true)
  /\ (forall nm, ~ In nm (map p_name pend) ->
        ODict.get (initialized_servers (fst w')) nm
        = ODict.get (initialized_servers (fst w)) nm).
Proof.
  induction fuel as [|fuel IH]; intros pend k w Hlen.
  - destruct pend; [|discriminate]. simpl. split; [intros nm []|reflexivity].
  - destruct pend as [|p0 pend0]; [discriminate|]. cbn [finish_all].
    destruct (pick (choose k) (p0 :: pend0)) as [[p pend']|] eqn:Ep;
      [|now apply pick_nonempty in Ep].
    destruct (pick_some _ _ _ _ Ep) as [Hl Hin].
    unfold init_finish.
    set (w1 := register_discovered (p_name p)
                 (discover_end (probe (p_command p) (p_env p)))
                 (p_config p) w).
    assert (Hlen' : List.length pend' = fuel) by (rewrite Hl in Hlen; lia).
    destruct (IH pend' (S k) w1 Hlen') as [IHin IHout].
    destruct (finish_all probe choose (S k) fuel pend' w1) as [done w2].
    cbn [fst snd] in *.
    assert (Hnames : forall nm, In nm (map p_name (p0 :: pend0))
                       <-> nm = p_name p \/ In nm (map p_name pend')).
    { intros nm. rewrite !in_map_iff. split.
      - intros [q [Hq Hqin]]. apply Hin in Hqin.
        destruct Hqin as [->|Hqin]; [now left|right; now exists q].
      - intros [->|[q [Hq Hqin]]]; [exists p|exists q];
          (split; [auto|apply Hin; auto]). }
    split.
    + intros nm Hnm. apply Hnames in Hnm.
      destruct (in_dec string_dec nm (map p_name pend')) as [Hi|Hni];
        [now apply IHin|].
      destruct Hnm as [->|Hnm]; [|contradiction].
      rewrite IHout by exact Hni. apply register_discovered_marks.
    + intros nm Hn. rewrite IHout.
      * apply register_discovered_memo. intros ->. apply Hn, Hnames. now left.
      * intros H. apply Hn, Hnames. now right.
Qed.

(** After a first batch every entry has the memo foreseen for it. *)
Lemma batch_settles choose m r :
  NoDup (ODict.keys (mcp_servers m)) ->
  initialized_servers m = [] ->
  memo_settled getenv
    (snd (initialize_all_servers getenv probe choose (m, r))).
Proof.
  intros Hnd Hinit.
  destruct (initialize_all_servers_spec getenv probe choose m r Hnd Hinit)
    as (_ & [Hsrv _] & _).
  unfold memo_settled. rewrite Hsrv. cbn [fst].
  unfold initialize_all_servers. cbn [fst].
  set (servers := mcp_servers m) in *. set (names := ODict.keys servers) in *.
  assert (Hfresh : forall nm, In nm names ->
            ODict.get (initialized_servers (fst (m, r))) nm = None)
    by (intros nm _; cbn [fst]; now rewrite Hinit).
  destruct (start_all_spec getenv names (m, r) Hnd Hfresh) as (_ & Hp & _).
  destruct (start_all_memo names (m, r) Hnd Hfresh) as [Hin1 Hout1].
  destruct (start_all getenv names (m, r)) as [[done1 pend] w1].
  cbn [fst snd] in *. fold servers in Hp, Hin1.
  destruct (finish_all_memo choose (List.length pend) pend 0 w1 eq_refl)
    as [Hin2 Hout2].
  destruct (finish_all probe choose 0 (List.length pend) pend w1)
    as [done2 w2].
  cbn [fst snd] in *.
  intros nm e Hin.
  assert (Hnm : In nm names)
    by (unfold names, ODict.keys; apply in_map_iff; now exists (nm, e)).
  pose proof (ODictFacts.In_get _ _ _ _ Hnd Hin) as Hget.
  pose proof (phase_verdict getenv servers nm e Hget) as Hv.
  specialize (Hin1 nm e Hnm Hget).
  destruct (phase_of getenv servers nm) as [s|rc cmd env] eqn:Eph.
  - rewrite Hout2; [exact Hin1|].
    rewrite Hp. intros Hc. apply In_pend_of in Hc.
    destruct Hc as [_ (rc & cmd & env & Hc)]. congruence.
  - rewrite Hin2.
    + destruct Hv as [Hv (c & -> & _)]. unfold expected_memo.
      destruct (is_stdio c) eqn:Es; [now rewrite Hv|].
      unfold verdict in Hv. rewrite Es in Hv. discriminate.
    + rewrite Hp. apply In_pend_of. split; [exact Hnm|eauto].
Qed.

Lemma get_map_key {V} (f : string -> V) names nm :
  In nm names -> ODict.get (map (fun n => (n, f n)) names) nm = Some (f nm).
Proof.
  induction names as [|n0 rest IH]; [contradiction|]. simpl.
  destruct (String.eqb_spec n0 nm) as [->|Hne]; [reflexivity|].
  intros [E|Hin]; [congruence|auto].
Qed.

(** In a settled world every task of a batch answers at once and changes
    nothing. *)
Lemma init_begin_settled nm e w :
  memo_settled getenv w ->
  NoDup (ODict.keys (mcp_servers (fst w))) ->
  In (nm, e) (mcp_servers (fst w)) ->
  init_begin getenv nm w = (Finished (entry_status getenv e), w).
Proof.
  intros Hs Hnd Hin. destruct w as [m r]. cbn [fst] in *.
  pose proof (Hs nm e Hin) as Hm. cbn [fst] in Hm.
  pose proof (ODictFacts.In_get _ _ _ _ Hnd Hin) as Hget.
  unfold init_begin. rewrite Hm, Hget.
  destruct e as [c|]; [|reflexivity]. unfold expected_memo, entry_status.
  fold (is_stdio c). destruct (is_stdio c) eqn:Es; [reflexivity|].
  simpl. unfold verdict. now rewrite Es.
Qed.

Lemma start_all_settled w names :
  memo_settled getenv w ->
  NoDup (ODict.keys (mcp_servers (fst w))) ->
  (forall nm, In nm names -> In nm (ODict.keys (mcp_servers (fst w)))) ->
  start_all getenv names w
  = (map (fun nm => (nm, status_at getenv (mcp_servers (fst w)) nm)) names,
     [], w).
Proof.
  intros Hs Hnd. induction names as [|n0 rest IH]; intros Hsub;
    [reflexivity|].
  cbn [start_all map].
  assert (Hin : In n0 (ODict.keys (mcp_servers (fst w))))
    by (apply Hsub; now left).
  unfold ODict.keys in Hin. apply in_map_iff in Hin.
  destruct Hin as [[n e] [E Hin]]. simpl in E. subst n.
  assert (Hst : status_at getenv (mcp_servers (fst w)) n0
                = entry_status getenv e)
    by (unfold status_at; now rewrite (ODictFacts.In_get _ _ _ _ Hnd Hin)).
  rewrite (init_begin_settled n0 e w Hs Hnd Hin).
  rewrite IH by (intros nm H; apply Hsub; now right).
  now rewrite Hst.
Qed.

(** A batch run in a settled world returns the foreseen statuses without
    probing and without changing anything. *)
Lemma settled_batch choose w :
  memo_settled getenv w ->
  NoDup (ODict.keys (mcp_servers (fst w))) ->
  initialize_all_servers getenv probe choose w
  = (expected_results getenv (mcp_servers (fst w)), w).
Proof.
  intros Hs Hnd. unfold initialize_all_servers.
  rewrite start_all_settled by auto. cbn [finish_all List.length].
  rewrite app_nil_r. f_equal.
  unfold collect. rewrite (collect_spec getenv probe); [|exact Hnd|auto|].
  - unfold expected_results, ODict.keys. rewrite map_map. simpl.
    apply map_ext_in. intros [nm e] Hin. cbn [fst snd].
    rewrite get_map_key
      by (apply in_map_iff; now exists (nm, e)).
    unfold status_at. rewrite (ODictFacts.In_get _ _ _ _ Hnd Hin).
    now destruct e.
  - intros nm Hnm. now rewrite get_map_key.
Qed.

End Batch.

(** X12: a second batch does nothing. After [initialize_all_servers] has run
    once on a new manager, running it again (as [reload-tools] does)
    returns the same statuses and leaves the manager and the registry
    exactly as they were: no server is probed again, whatever a new probe
    would answer and in whatever order. *)
Theorem second_batch_changes_nothing getenv probe probe' choose choose' m r :
  NoDup (ODict.keys (mcp_servers m)) ->
  initialized_servers m = [] ->
  initialize_all_servers getenv probe' choose'
    (snd (initialize_all_servers getenv probe choose (m, r)))
  = initialize_all_servers getenv probe choose (m, r).
Proof.
  intros Hnd Hinit.
  pose proof (batch_settles getenv probe choose m r Hnd Hinit) as Hs.
  destruct (initialize_all_servers_spec getenv probe choose m r Hnd Hinit)
    as (Hres & [Hsrv _] & _).
  destruct (initialize_all_servers getenv probe choose (m, r)) as [res w1].
  cbn [fst snd] in *.
  rewrite (settled_batch getenv probe' choose' w1 Hs)
    by (rewrite Hsrv; exact Hnd).
  now rewrite Hsrv, Hres.
Qed.

Lemma second_batch_changes_nothing_witness :
  let cfg := fun file =>
    SMapping (mkServerConfig (Some "stdio") (Some "python") (Some [SStr file])
                None) in
  let m := mkManager [("A", cfg "a.py"); ("B", SOther)] [] in
  let down := fun (_ : string) (_ : CfgVal) =>
                @Raise (list string) ConnectionFailure in
  let up := fun (_ : string) (_ : CfgVal) => Ok ["fa"] in
  initialize_all_servers (fun _ => None) up (fun _ => 0)
    (snd (initialize_all_servers (fun _ => None) down (fun _ => 0) (m, init)))
  = initialize_all_servers (fun _ => None) down (fun _ => 0) (m, init).
Proof.
  intros cfg m down up.
  apply (second_batch_changes_nothing (fun _ => None) down up).
  - repeat constructor; simpl; intuition discriminate.
  - reflexivity.
Defined.

(** X13: the statuses a batch returns can be read back. After
    [initialize_all_servers] on a new manager, the returned dictionary and
    [is_server_initialized] agree on every configured server, and the
    configuration itself is unchanged. *)
Theorem batch_status_is_queryable getenv probe choose m r :
  NoDup (ODict.keys (mcp_servers m)) ->
  initialized_servers m = [] ->
  let res := initialize_all_servers getenv probe choose (m, r) in
  list_configured_servers (fst (snd res)) = list_configured_servers m
  /\ forall nm e, In (nm, e) (mcp_servers m) ->
       get_server_config nm (fst (snd res)) = Some e
       /\ ODict.get (fst res) nm = Some (verdict getenv e)
       /\ is_server_initialized nm (fst (snd res)) = verdict getenv e.
Proof.
  intros Hnd Hinit res.
  pose proof (batch_settles getenv probe choose m r Hnd Hinit) as Hs.
  destruct (initialize_all_servers_spec getenv probe choose m r Hnd Hinit)
    as (Hres & [Hsrv _] & _).
  fold res in Hs, Hres, Hsrv. cbn [fst] in Hsrv.
  unfold list_configured_servers, get_server_config. rewrite Hsrv.
  split; [reflexivity|]. intros nm e Hin. split; [|split].
  - now apply ODictFacts.In_get.
  - rewrite Hres. apply ODictFacts.In_get.
    + unfold expected_results, ODict.keys. now rewrite map_map.
    + unfold expected_results. apply in_map_iff. now exists (nm, e).
  - unfold is_server_initialized, memo_settled in *.
    rewrite Hsrv in Hs. rewrite (Hs nm e Hin).
    destruct e as [c|]; [|reflexivity]. unfold expected_memo.
    destruct (is_stdio c) eqn:Es; [reflexivity|].
    unfold verdict. now rewrite Es.
Qed.

Lemma batch_status_is_queryable_witness :
  let m := mkManager
             [("A", SMapping (mkServerConfig (Some "stdio") (Some "python")
                                (Some [SStr "a.py"]) None));
              ("B", SMapping (mkServerConfig (Some "sse") (Some "python")
                                None None))] [] in
  let probe := fun (_ : string) (_ : CfgVal) => Ok ["fa"] in
  let res := initialize_all_servers (fun _ => None) probe (fun _ => 0)
               (m, init) in
  is_server_initialized "A" (fst (snd res)) = true
  /\ is_server_initialized "B" (fst (snd res)) = false.
Proof.
  intros m probe res.
  assert (Hnd : NoDup (ODict.keys (mcp_servers m)))
    by (repeat constructor; simpl; intuition discriminate).
  destruct (batch_status_is_queryable (fun _ => None) probe (fun _ => 0)
              m init Hnd eq_refl) as [_ H].
  destruct (H "A" _ (or_introl eq_refl)) as (_ & _ & HA).
  destruct (H "B" _ (or_intror (or_introl eq_refl))) as (_ & _ & HB).
  split; [exact HA|exact HB].
Defined.

Section Sequential.

Variable getenv : string -> option string.
Variable probe : string -> CfgVal -> Outcome (list string).

(** The status of a server that was not initialized before. *)
Lemma initialize_server_status nm m r e :
  ODict.get (initialized_servers m) nm = None ->
  ODict.get (mcp_servers m) nm = Some e ->
  fst (initialize_server getenv probe nm (m, r)) = entry_status getenv e.
Proof.
  intros Hm He. unfold initialize_server, init_begin. rewrite Hm, He.
  destruct e as [c|]; [|reflexivity]. unfold entry_status, verdict.
  fold (is_stdio c). destruct (is_stdio c); [|reflexivity]. cbn [negb andb].
  destruct (_build_command getenv c) as [command|err]; [|reflexivity].
  destruct (discover_begin getenv c) as [tools|[cmd env]]; reflexivity.
Qed.

Lemma initialize_server_frame nm w :
  mcp_servers (fst (snd (initialize_server getenv probe nm w)))
  = mcp_servers (fst w)
  /\ forall nm', nm' <> nm ->
       ODict.get (initialized_servers
                    (fst (snd (initialize_server getenv probe nm w)))) nm'
       = ODict.get (initialized_servers (fst w)) nm'.
Proof.
  destruct (init_begin_frame getenv nm w) as [[Hsrv _] Hmemo].
  unfold initialize_server.
  destruct (init_begin getenv nm w) as [[s|rc cmd env] w1]; cbn [fst snd] in *;
    [now split|].
  unfold init_finish. cbn [fst snd p_name p_config].
  destruct w1 as [m1 r1]. split; [exact Hsrv|].
  intros nm' Hne.
  rewrite (register_discovered_memo nm _ rc (m1, r1) nm' Hne).
  now apply Hmemo.
Qed.

Lemma initialize_each_spec names : forall results w,
  NoDup names ->
  (forall nm, In nm names ->
     ODict.get (initialized_servers (fst w)) nm = None) ->
  (forall nm, In nm names ->
     exists c, ODict.get (mcp_servers (fst w)) nm = Some (SMapping c)) ->
  (forall nm, In nm names -> ~ In nm (ODict.keys results)) ->
  fst (initialize_each getenv probe names results w)
  = Ok (results
        ++ map (fun nm =>
                  (nm, recorded (status_at getenv (mcp_servers (fst w)) nm)))
             names).
Proof.
  induction names as [|n0 rest IH]; intros results w Hnd Hfresh Hmap Hres.
  - simpl. now rewrite app_nil_r.
  - inversion Hnd as [|? ? Hnotin Hnd']; subst. cbn [initialize_each map].
    destruct (Hmap n0 (or_introl eq_refl)) as [c Hc].
    destruct w as [m r]. cbn [fst] in *.
    pose proof (initialize_server_status n0 m r _
                  (Hfresh n0 (or_introl eq_refl)) Hc) as Hst.
    destruct (initialize_server_frame n0 (m, r)) as [Hsrv Hmemo].
    destruct (initialize_server getenv probe n0 (m, r)) as [s w1].
    cbn [fst snd] in *. subst s. cbn [entry_status].
    rewrite IH; auto.
    + rewrite Hsrv, (set_new getenv probe) by (apply Hres; now left).
      rewrite <- app_assoc. unfold status_at at 2. rewrite Hc. reflexivity.
    + intros nm Hin. rewrite Hmemo; [apply Hfresh; now right|].
      intros ->. contradiction.
    + intros nm Hin. rewrite Hsrv. apply Hmap. now right.
    + intros nm Hin. rewrite (set_new getenv probe) by (apply Hres; now left).
      unfold ODict.keys. rewrite map_app, in_app_iff.
      intros [H|[H|[]]]; [apply (Hres nm); [now right|exact H]|].
      simpl in H. congruence.
Qed.

Lemma initialize_each_raises names : forall results w bad,
  NoDup names ->
  (forall nm, In nm names ->
     ODict.get (initialized_servers (fst w)) nm = None) ->
  (forall nm, In nm names ->
     exists e, ODict.get (mcp_servers (fst w)) nm = Some e) ->
  In bad names ->
  ODict.get (mcp_servers (fst w)) bad = Some SOther ->
  fst (initialize_each getenv probe names results w) = Raise AttributeError.
Proof.
  induction names as [|n0 rest IH];
    intros results w bad Hnd Hfresh Hcfg Hin Hbad; [destruct Hin|].
  inversion Hnd as [|? ? Hnotin Hnd']; subst.
  cbn [initialize_each]. destruct w as [m r]. cbn [fst] in *.
  destruct (Hcfg n0 (or_introl eq_refl)) as [e He].
  pose proof (initialize_server_status n0 m r e
                (Hfresh n0 (or_introl eq_refl)) He) as Hst.
  destruct (initialize_server_frame n0 (m, r)) as [Hsrv Hframe].
  destruct (initialize_server getenv probe n0 (m, r)) as [s w1].
  cbn [fst snd] in *. subst s.
  destruct e as [c|]; [|reflexivity]. cbn [entry_status].
  destruct Hin as [->|Hin]; [congruence|].
  apply (IH _ w1 bad); auto.
  - intros nm Hnm. rewrite Hframe; [apply Hfresh; now right|].
    intros ->. contradiction.
  - intros nm Hnm. rewrite Hsrv. apply Hcfg. now right.
  - now rewrite Hsrv.
Qed.

End Sequential.

(** X14: initializing the configured servers one after the other
    ([initialize_mcp_servers] with an explicit list) and all at once
    ([initialize_all_servers]) give the same statuses when every entry of
    the configuration file is a mapping. They differ on an entry that is no
    mapping: the batch records such a server as [False] and carries on,
    while the sequential loop is left by the [AttributeError]. *)
Theorem sequential_initialization getenv probe choose m r :
  NoDup (ODict.keys (mcp_servers m)) ->
  initialized_servers m = [] ->
  let names := list_configured_servers m in
  let batch := fst (initialize_all_servers getenv probe choose (m, r)) in
  (all_mappings (mcp_servers m) ->
     fst (initialize_mcp_servers getenv probe (Some names) choose (m, r))
     = Ok batch)
  /\ (forall bad, In (bad, SOther) (mcp_servers m) ->
        fst (initialize_mcp_servers getenv probe (Some names) choose (m, r))
        = Raise AttributeError
        /\ ODict.get batch bad = Some false).
Proof.
  intros Hnd Hinit names batch.
  destruct (initialize_all_servers_spec getenv probe choose m r Hnd Hinit)
    as (Hres & _). fold batch in Hres.
  assert (Hfresh : forall nm, In nm names ->
            ODict.get (initialized_servers (fst (m, r))) nm = None)
    by (intros nm _; cbn [fst]; now rewrite Hinit).
  assert (Hcfg : forall nm, In nm names ->
            exists e, In (nm, e) (mcp_servers m)
                      /\ ODict.get (mcp_servers m) nm = Some e).
  { intros nm Hin. unfold names, list_configured_servers, ODict.keys in Hin.
    apply in_map_iff in Hin. destruct Hin as [[n e] [E Hin]]. simpl in E.
    subst n. exists e. split; [exact Hin|]. now apply ODictFacts.In_get. }
  split.
  - intros Hall. unfold initialize_mcp_servers.
    destruct names as [|n0 rest] eqn:En.
    + destruct (initialize_all_servers getenv probe choose (m, r)).
      reflexivity.
    + rewrite initialize_each_spec; auto.
      * rewrite Hres. cbn [app fst]. rewrite <- En. apply f_equal.
        unfold names, list_configured_servers, expected_results, ODict.keys.
        rewrite map_map. apply map_ext_in. intros [nm e] Hin. cbn [fst snd].
        unfold status_at. rewrite (ODictFacts.In_get _ _ _ _ Hnd Hin).
        destruct (Hall nm e Hin) as [c ->]. reflexivity.
      * rewrite <- En. exact Hnd.
      * intros nm Hin. destruct (Hcfg nm Hin) as (e & He & Hget).
        destruct (Hall nm e He) as [c ->]. now exists c.
  - intros bad Hbad.
    assert (Hin : In bad names).
    { unfold names, list_configured_servers, ODict.keys.
      apply in_map_iff. now exists (bad, SOther). }
    split.
    + unfold initialize_mcp_servers.
      destruct names as [|n0 rest] eqn:En; [destruct Hin|].
      apply (initialize_each_raises getenv probe (n0 :: rest) [] (m, r) bad);
        auto.
      * rewrite <- En. exact Hnd.
      * intros nm Hnm. destruct (Hcfg nm Hnm) as (e & _ & Hget). now exists e.
      * now apply ODictFacts.In_get.
    + rewrite Hres. apply ODictFacts.In_get.
      * unfold expected_results, ODict.keys. now rewrite map_map.
      * unfold expected_results. apply in_map_iff. now exists (bad, SOther).
Qed.

Lemma sequential_initialization_witness :
  let cfg := fun file =>
    SMapping (mkServerConfig (Some "stdio") (Some "python") (Some [SStr file])
                None) in
  let probe := fun (_ : string) (_ : CfgVal) => Ok ["f"] in
  fst (initialize_mcp_servers (fun _ => None) probe (Some ["A"; "B"])
         (fun _ => 0) (mkManager [("A", cfg "a.py"); ("B", cfg "b.py")] [], init))
  = Ok [("A", true); ("B", true)]
  /\ fst (initialize_mcp_servers (fun _ => None) probe (Some ["A"; "B"])
            (fun _ => 0) (mkManager [("A", cfg "a.py"); ("B", SOther)] [], init))
     = Raise AttributeError.
Proof.
  intros cfg probe. split.
  - destruct (sequential_initialization (fun _ => None) probe (fun _ => 0)
                (mkManager [("A", cfg "a.py"); ("B", cfg "b.py")] []) init)
      as [H _].
    + repeat constructor; simpl; intuition discriminate.
    + reflexivity.
    + apply H. intros nm e [E|[E|[]]]; inversion E; eexists; reflexivity.
  - destruct (sequential_initialization (fun _ => None) probe (fun _ => 0)
                (mkManager [("A", cfg "a.py"); ("B", SOther)] []) init)
      as [_ H].
    + repeat constructor; simpl; intuition discriminate.
    + reflexivity.
    + apply (H "B"). right. now left.
Defined.

(** ** The tool loader *)

Section LoaderFacts.

Variable getenv : string -> option string.
Variable servers : ODict.t ServerEntry.

(** One iteration adds the requested tools and at most one command. *)
Lemma parse_step_effect result all config result' all' :
  parse_step getenv servers (result, all) config = Ok (result', all') ->
  all' = all ++ requested_tools config
  /\ commands result'
     = commands result ++ usable_command getenv servers config
  /\ include_tools result' = include_tools result.
Proof.
  unfold parse_step, requested_tools, usable_command.
  destruct (PyStr.startswith "mcp:" config).
  - destruct (parse_brackets (PyStr.drop 4 config)) as [[nm tools]|e];
      [|discriminate].
    assert (Hall : match tools with Some l => all ++ l | None => all end
                   = all ++ match tools with Some l => l | None => [] end)
      by (destruct tools; [reflexivity|now rewrite app_nil_r]).
    rewrite Hall.
    destruct (ODict.get servers nm) as [[c|]|];
      try (intros H; inversion H; subst; now rewrite app_nil_r);
      try discriminate.
    fold (is_stdio c). destruct (is_stdio c);
      [|intros H; inversion H; subst; now rewrite app_nil_r].
    unfold build_mcp_command.
    destruct (_build_command getenv c) as [[[|a cmd]|]|e];
      try discriminate; intros H; inversion H; subst; simpl;
      rewrite ?app_nil_r; auto.
  - intros H. inversion H; subst. now rewrite !app_nil_r.
Qed.

Lemma parse_loop_effect configs : forall result all result' all',
  parse_loop getenv servers configs (result, all) = Ok (result', all') ->
  all' = all ++ flat_map requested_tools configs
  /\ commands result'
     = commands result ++ flat_map (usable_command getenv servers) configs
  /\ include_tools result' = include_tools result.
Proof.
  induction configs as [|config rest IH]; intros result all result' all' H.
  - simpl in H. inversion H; subst. now rewrite !app_nil_r.
  - cbn [parse_loop] in H.
    destruct (parse_step getenv servers (result, all) config)
      as [[r1 a1]|e] eqn:Es; [|discriminate].
    destruct (parse_step_effect _ _ _ _ _ Es) as (Ha & Hc & Hi).
    destruct (IH _ _ _ _ H) as (Ha' & Hc' & Hi').
    cbn [flat_map]. rewrite Ha', Hc', Hi', Ha, Hc, Hi, !app_assoc. auto.
Qed.

Lemma parse_mcp_config_effect configs res :
  parse_mcp_config getenv servers configs = Ok res ->
  include_tools res = list_or_none (flat_map requested_tools configs)
  /\ commands res = flat_map (usable_command getenv servers) configs.
Proof.
  unfold parse_mcp_config.
  destruct (parse_loop getenv servers configs
              (mkParseResult [] [] None [], [])) as [[r1 a1]|e] eqn:El;
    [|discriminate].
  destruct (parse_loop_effect _ _ _ _ _ El) as (Ha & Hc & _).
  intros H. inversion H; subst. simpl. split; [reflexivity|exact Hc].
Qed.

End LoaderFacts.

(** X15: the tool filter [parse_mcp_config] returns is collected from every
    bracketed reference of the list, in order, whether or not the server it
    names is configured; without any bracketed reference there is no
    filter. *)
Theorem parse_mcp_config_include_tools getenv servers mcp_configs res :
  parse_mcp_config getenv servers mcp_configs = Ok res ->
  include_tools res = list_or_none (flat_map requested_tools mcp_configs).
Proof. intros H. now apply (parse_mcp_config_effect getenv servers). Qed.

Lemma parse_mcp_config_include_tools_witness :
  let servers :=
    [("s", SMapping (mkServerConfig (Some "stdio") (Some "python")
                       (Some [SStr "s.py"]) None))] in
  exists res,
    parse_mcp_config (fun _ => None) servers ["mcp:s"; "mcp:ghost[x, y]"]
    = Ok res
    /\ commands res = ["python s.py"]
    /\ include_tools res = Some ["x"; "y"].
Proof.
  intros servers. eexists. split; [reflexivity|]. split; [reflexivity|].
  exact (parse_mcp_config_include_tools (fun _ => None) servers
           ["mcp:s"; "mcp:ghost[x, y]"] _ eq_refl).
Defined.

(** X16: the loader does not merge repeated servers. Every reference to a
    usable server (a [stdio] mapping with a non-empty command) contributes
    its command once more, so [get_mcp_tools] returns [None] when no
    reference is usable, a single [MCPTools] for exactly one usable
    reference, and a [MultiMCPTools] over all the commands otherwise, also
    when the references name one and the same server. *)
Theorem get_mcp_tools_shape getenv servers o mcp_configs res :
  parse_mcp_config getenv servers mcp_configs = Ok res ->
  commands res = flat_map (usable_command getenv servers) mcp_configs
  /\ get_mcp_tools getenv servers o mcp_configs
     = Ok (match commands res with
           | [] => None
           | [command] =>
               Some (MCPTools o (VStr command) (or_none (VDict (env res)))
                       (include_tools res))
           | cmds =>
               Some (MultiMCPTools o (map VStr cmds)
                       (or_none (VDict (env res))) (include_tools res))
           end).
Proof.
  intros H.
  destruct (parse_mcp_config_effect getenv servers _ _ H) as [_ Hc].
  split; [exact Hc|]. unfold get_mcp_tools.
  destruct mcp_configs as [|c0 rest].
  - simpl in Hc. now rewrite Hc.
  - rewrite H. destruct (commands res) as [|c1 [|c2 cs]]; reflexivity.
Qed.

Lemma get_mcp_tools_shape_witness :
  let servers :=
    [("s", SMapping (mkServerConfig (Some "stdio") (Some "python")
                       (Some [SStr "s.py"]) None))] in
  get_mcp_tools (fun _ => None) servers 7 ["mcp:s[a]"; "mcp:s[b]"]
  = Ok (Some (MultiMCPTools 7 [VStr "python s.py"; VStr "python s.py"] VNone
                (Some ["a"; "b"]))).
Proof.
  intros servers.
  destruct (get_mcp_tools_shape (fun _ => None) servers 7
              ["mcp:s[a]"; "mcp:s[b]"] _ eq_refl) as [_ H].
  exact H.
Defined.

Section ToolLists.

Lemma get_local_tool_builtin o nm :
  get_local_tool o nm
  = if is_builtin nm then Some (LocalTool o nm) else None.
Proof.
  unfold get_local_tool, is_builtin.
  destruct (String.eqb_spec nm "DuckDuckGoTools") as [->|_]; [reflexivity|].
  destruct (String.eqb_spec nm "YFinanceTools") as [->|_]; reflexivity.
Qed.

Lemma process_tools_loop_spec cfg : forall locals mcps o,
  process_tools_loop cfg locals mcps o
  = (locals
     ++ instantiate o
          (filter (fun s => negb (PyStr.startswith "mcp:" s) && is_builtin s)
             (strings_of cfg)),
     mcps ++ filter (PyStr.startswith "mcp:") (strings_of cfg),
     o + List.length
           (filter (fun s => negb (PyStr.startswith "mcp:" s) && is_builtin s)
              (strings_of cfg))).
Proof.
  induction cfg as [|[s|z] cfg IH]; intros locals mcps o.
  - simpl. now rewrite !app_nil_r, Nat.add_0_r.
  - cbn [process_tools_loop strings_of flat_map app filter].
    fold (strings_of cfg).
    destruct (PyStr.startswith "mcp:" s) eqn:E; cbn [negb andb].
    + rewrite IH, <- app_assoc. reflexivity.
    + rewrite get_local_tool_builtin. destruct (is_builtin s).
      * rewrite IH, <- app_assoc. cbn [instantiate List.length app].
        now rewrite Nat.add_succ_r.
      * now rewrite IH.
  - cbn [process_tools_loop strings_of flat_map app]. apply IH.
Qed.


Lemma factory_loop_agent_loop cfg : forall locals mcps r,
  factory_loop cfg locals mcps r = agent_loop (strings_of cfg) locals mcps r.
Proof.
  induction cfg as [|[s|z] cfg IH]; intros locals mcps r.
  - reflexivity.
  - cbn [factory_loop strings_of flat_map app agent_loop].
    fold (strings_of cfg).
    destruct (PyStr.startswith "mcp:" s); [apply IH|].
    destruct (get_tool_runtime s r) as [[t|] r']; apply IH.
  - cbn [factory_loop strings_of flat_map app]. apply IH.
Qed.


End ToolLists.

(** X17: [process_tools_list] keeps the ["mcp:"] references as they are, in
    order, and turns every other string into a new instance only if it names
    one of the two built-in tools; any other name, and any entry that is not
    a string, is dropped. *)
Theorem process_tools_list_spec tools_config o :
  let names := strings_of tools_config in
  let builtin :=
    filter (fun s => negb (PyStr.startswith "mcp:" s) && is_builtin s) names in
  process_tools_list tools_config o
  = (instantiate o builtin, filter (PyStr.startswith "mcp:") names,
     o + List.length builtin)
  /\ Forall (fun s => s = "DuckDuckGoTools" \/ s = "YFinanceTools")%string
       builtin.
Proof.
  intros names builtin. split.
  - unfold process_tools_list. now rewrite process_tools_loop_spec.
  - apply Forall_forall. intros s Hs. apply filter_In in Hs.
    destruct Hs as [_ Hs]. apply andb_true_iff in Hs. destruct Hs as [_ Hs].
    unfold is_builtin in Hs. apply orb_true_iff in Hs.
    destruct Hs as [Hs|Hs]; apply String.eqb_eq in Hs; auto.
Qed.

(** X18: the agent factory resolves a tool list exactly as the registry
    does. [AgentFactory._get_tools_from_registry] on a configured list gives
    the result and the registry that [get_tools_for_agent] gives on the
    strings of that list; entries that are not strings are skipped. *)
Theorem factory_resolves_like_registry tools_config r :
  _get_tools_from_registry tools_config r
  = get_tools_for_agent (strings_of tools_config) r.
Proof.
  unfold _get_tools_from_registry, get_tools_for_agent.
  now rewrite factory_loop_agent_loop.
Qed.



(** ** Startup *)

Section Evolution.

Variable getenv : string -> option string.
Variable probe : string -> CfgVal -> Outcome (list string).

Lemma evolves_trans w1 w2 w3 : evolves w1 w2 -> evolves w2 w3 -> evolves w1 w3.
Proof.
  intros H12 H23. induction H23 as [|nm tools rc w' Hrc _ IH|nm b m' r' _ IH].
  - exact H12.
  - now apply ev_register.
  - now apply ev_mark.
Qed.

Lemma init_begin_evolves nm w :
  evolves w (snd (init_begin getenv nm w))
  /\ forall rc cmd env,
       fst (init_begin getenv nm w) = Suspended rc cmd env ->
       manager_config rc.
Proof.
  destruct w as [m r]. unfold init_begin.
  destruct (ODict.get (initialized_servers m) nm);
    [split; [constructor|discriminate]|].
  destruct (ODict.get (mcp_servers m) nm) as [[c|]|];
    try (split; [constructor|discriminate]).
  destruct (negb _); [split; [constructor|discriminate]|].
  destruct (_build_command getenv c) as [command|err]; cbn [fst snd].
  - assert (Hrc : manager_config
                    [("command", opt_str command);
                     ("env", VDict (resolved_env getenv c));
                     ("type", VStr "stdio")])
      by (eexists; eexists; reflexivity).
    destruct (discover_begin getenv c) as [tools|[cmd env]]; cbn [fst snd].
    + split; [apply ev_register; [exact Hrc|constructor]|discriminate].
    + split; [constructor|]. intros rc cmd' env' E. inversion E; subst.
      exact Hrc.
  - split; [apply ev_mark; constructor|discriminate].
Qed.

Lemma start_all_evolves names : forall w,
  evolves w (snd (start_all getenv names w))
  /\ forall p, In p (snd (fst (start_all getenv names w))) ->
       manager_config (p_config p).
Proof.
  induction names as [|n0 rest IH]; intros w.
  - simpl. split; [constructor|intros p []].
  - destruct (init_begin_evolves n0 w) as [Hev Hshape].
    destruct (IH (snd (init_begin getenv n0 w))) as [IHev IHp].
    cbn [start_all].
    destruct (init_begin getenv n0 w) as [[s|rc cmd env] w1]; cbn [fst snd] in *;
      destruct (start_all getenv rest w1) as [[d p] w2]; cbn [fst snd] in *.
    + split; [exact (evolves_trans _ _ _ Hev IHev)|exact IHp].
    + split; [exact (evolves_trans _ _ _ Hev IHev)|].
      intros q [<-|Hq]; [exact (Hshape _ _ _ eq_refl)|now apply IHp].
Qed.

Lemma finish_all_evolves choose fuel : forall pend k w,
  (forall p, In p pend -> manager_config (p_config p)) ->
  evolves w (snd (finish_all probe choose k fuel pend w)).
Proof.
  induction fuel as [|fuel IH]; intros pend k w Hshape; [constructor|].
  cbn [finish_all].
  destruct (pick (choose k) pend) as [[p pend']|] eqn:Ep; [|constructor].
  destruct (pick_some _ _ _ _ Ep) as [_ Hin].
  unfold init_finish.
  set (w1 := register_discovered (p_name p)
               (discover_end (probe (p_command p) (p_env p))) (p_config p) w).
  assert (Hev1 : evolves w w1)
    by (apply ev_register; [apply Hshape, Hin; now left|constructor]).
  assert (Hev2 := IH pend' (S k) w1
                    (fun q Hq => Hshape q (proj2 (Hin q) (or_intror Hq)))).
  destruct (finish_all probe choose (S k) fuel pend' w1) as [done w2].
  exact (evolves_trans _ _ _ Hev1 Hev2).
Qed.

(** A batch only registers discovered tools and marks servers. *)
Lemma batch_evolves choose w :
  evolves w (snd (initialize_all_servers getenv probe choose w)).
Proof.
  unfold initialize_all_servers.
  destruct (start_all_evolves (ODict.keys (mcp_servers (fst w))) w)
    as [Hev Hshape].
  destruct (start_all getenv (ODict.keys (mcp_servers (fst w))) w)
    as [[done1 pend] w1]. cbn [fst snd] in *.
  pose proof (finish_all_evolves choose (List.length pend) pend 0 w1 Hshape)
    as Hev2.
  destruct (finish_all probe choose 0 (List.length pend) pend w1)
    as [done2 w2].
  exact (evolves_trans _ _ _ Hev Hev2).
Qed.

End Evolution.

Section EvolutionFacts.

Lemma full_name_prefix srv nm : PyStr.startswith "mcp:" (full_name srv nm) = true.
Proof.
  destruct nm as [[|a s]|]; unfold full_name;
    apply PyStrFacts.startswith_append.
Qed.

Lemma server_writes_keys srv tools cfg k :
  In k (ODict.keys (server_writes srv tools cfg)) ->
  PyStr.startswith "mcp:" k = true.
Proof.
  unfold ODict.keys. rewrite in_map_iff. intros [[k' v] [E Hin]].
  simpl in E. subst k'. apply server_writes_In in Hin.
  destruct Hin as [nm [-> _]]. apply full_name_prefix.
Qed.

Lemma register_discovered_keeps nm tools rc w k :
  PyStr.startswith "mcp:" k = false ->
  ODict.get (_tools (snd (register_discovered nm tools rc w))) k
  = ODict.get (_tools (snd w)) k.
Proof.
  intros Hk. destruct w as [m r]. unfold register_discovered.
  destruct tools as [|t0 tools]; cbn [snd].
  - rewrite register_mcp_tool_eq. unfold with_tools. cbn [_tools].
    apply ODictFacts.get_set_other. intros E.
    rewrite <- E, full_name_prefix in Hk. discriminate.
  - rewrite register_mcp_server_tools_eq. unfold with_tools. cbn [_tools].
    apply ODictFacts.get_update_notin. intros Hin.
    apply server_writes_keys in Hin. congruence.
Qed.

Lemma evolves_keeps w w' k :
  evolves w w' ->
  PyStr.startswith "mcp:" k = false ->
  ODict.get (_tools (snd w')) k = ODict.get (_tools (snd w)) k.
Proof.
  intros Hev Hk. induction Hev as [|nm tools rc w' Hrc _ IH|nm b m' r' _ IH].
  - reflexivity.
  - now rewrite register_discovered_keeps.
  - exact IH.
Qed.

Lemma In_update_inv {V} (e : ODict.t V) : forall d k v,
  In (k, v) (ODict.update d e) -> In (k, v) d \/ In (k, v) e.
Proof.
  induction e as [|[k0 v0] e IH]; intros d k v Hin; [now left|].
  rewrite ODictFacts.update_cons in Hin. apply IH in Hin.
  destruct Hin as [Hin|Hin]; [|right; now right].
  apply In_set_inv in Hin. destruct Hin as [Hin|[-> ->]]; [now left|].
  right. now left.
Qed.



End EvolutionFacts.

(** X20: initializing the servers never touches a local tool. Every catalog
    entry whose key does not start with ["mcp:"] is the same before and
    after [initialize_all_servers], whatever the configuration file holds
    and whatever the probes answer. *)
Theorem initialization_keeps_local_tools getenv probe choose w k :
  PyStr.startswith "mcp:" k = false ->
  get_tool_metadata k (snd (snd (initialize_all_servers getenv probe choose w)))
  = get_tool_metadata k (snd w).
Proof.
  intros Hk. unfold get_tool_metadata.
  apply evolves_keeps; [apply batch_evolves|exact Hk].
Qed.

Lemma initialization_keeps_local_tools_witness :
  let m := mkManager
             [("DuckDuckGoTools",
               SMapping (mkServerConfig (Some "stdio") (Some "python") None
                           None))] [] in
  let probe := fun (_ : string) (_ : CfgVal) => Ok ["search"] in
  get_tool_metadata "DuckDuckGoTools"
    (snd (snd (initialize_all_servers (fun _ => None) probe (fun _ => 0)
                 (m, register_local_tools init))))
  = get_tool_metadata "DuckDuckGoTools" (register_local_tools init).
Proof.
  intros m probe.
  exact (initialization_keeps_local_tools (fun _ => None) probe (fun _ => 0)
           (m, register_local_tools init) "DuckDuckGoTools" eq_refl).
Defined.



Section StartupFacts.

Lemma filter_none {A} (l : list A) : filter (fun _ => false) l = [].
Proof. induction l; simpl; auto. Qed.

Lemma list_tools_string_filter s r :
  s <> ""%string -> list_tools_arg (Some (ArgStr s)) r = [].
Proof.
  intros Hs. unfold list_tools_arg, arg_truthy.
  destruct s as [|a s]; [congruence|]. simpl. now rewrite filter_none.
Qed.

Lemma register_local_tools_get r :
  ODict.get (_tools (register_local_tools r)) "DuckDuckGoTools"
  = Some (mkToolMetadata "DuckDuckGoTools" LOCAL None (Some "DuckDuckGoTools")
            [("description", VStr "Web search capabilities via DuckDuckGo")])
  /\ ODict.get (_tools (register_local_tools r)) "YFinanceTools"
     = Some (mkToolMetadata "YFinanceTools" LOCAL None (Some "YFinanceTools")
               [("description",
                 VStr "Financial data and stock market analysis")]).
Proof.
  unfold register_local_tools, register_local_tool, with_tools. cbn [_tools].
  split.
  - rewrite ODictFacts.get_set_other by discriminate.
    apply ODictFacts.get_set_same.
  - apply ODictFacts.get_set_same.
Qed.

(** Registering the built-in tools where they are registered already
    changes nothing. *)
Lemma register_local_tools_present r :
  ODict.get (_tools r) "DuckDuckGoTools"
  = ODict.get (_tools (register_local_tools init)) "DuckDuckGoTools" ->
  ODict.get (_tools r) "YFinanceTools"
  = ODict.get (_tools (register_local_tools init)) "YFinanceTools" ->
  register_local_tools r = r.
Proof.
  destruct (register_local_tools_get init) as [-> ->]. intros H1 H2.
  unfold register_local_tools, register_local_tool, with_tools.
  cbn [_tools _mcp_runtime_cache next_oid config_or_empty].
  rewrite (ODictFacts.set_same_id _ _ _ _ H1).
  rewrite (ODictFacts.set_same_id _ _ _ _ H2). now destruct r.
Qed.

Lemma local_listed k md r :
  ODict.get (_tools r) k = Some md -> type md = LOCAL ->
  In k (list_tools_arg (Some (ArgEnum LOCAL)) r).
Proof.
  intros Hg Ht. unfold list_tools_arg. simpl. apply in_map_iff.
  exists (k, md). split; [reflexivity|]. apply filter_In.
  split; [now apply ODictFacts.get_In|]. simpl. now rewrite Ht.
Qed.

End StartupFacts.

(** X22: the report of [initialize_tools_system]. The system never fails to
    start because of a server, and its report always shows an empty list of
    local tools, because [list_tools] is asked for the string ["local"]
    rather than the enumeration member; the two built-in tools are
    registered all the same, as [get_tool_summary] shows, and both reports
    give the same total. *)
Theorem initialize_tools_system_report getenv probe choose w :
  let res := initialize_tools_system getenv probe choose w in
  exists ts,
    fst res = Ok ts
    /\ ts_local_tools ts = []
    /\ ts_total_tools ts = sum_total_tools (get_tool_summary (snd res))
    /\ In "DuckDuckGoTools" (sum_local_tools (get_tool_summary (snd res)))
    /\ In "YFinanceTools" (sum_local_tools (get_tool_summary (snd res))).
Proof.
  destruct w as [m r]. unfold initialize_tools_system, initialize_mcp_servers.
  pose proof (batch_evolves getenv probe choose (m, register_local_tools r))
    as Hev.
  destruct (initialize_all_servers getenv probe choose
              (m, register_local_tools r)) as [results [m' r']].
  cbn [fst snd] in *. eexists. split; [reflexivity|].
  destruct (register_local_tools_get r) as [Hd Hy].
  cbn [ts_local_tools ts_total_tools get_tool_summary sum_total_tools
       sum_local_tools].
  split; [now apply list_tools_string_filter|]. split; [reflexivity|].
  split.
  - pose proof (evolves_keeps _ _ "DuckDuckGoTools" Hev eq_refl) as Hk.
    cbn [snd] in Hk. rewrite Hd in Hk.
    exact (local_listed _ _ _ Hk eq_refl).
  - pose proof (evolves_keeps _ _ "YFinanceTools" Hev eq_refl) as Hk.
    cbn [snd] in Hk. rewrite Hy in Hk.
    exact (local_listed _ _ _ Hk eq_refl).
Qed.

(** X23: reloading the tools discovers nothing anew. After a first
    [initialize_tools_system] on a new manager, [reload-tools] returns the
    same report and leaves the manager and the catalog exactly as they
    were; only the cache is emptied. No server is probed again, whatever the
    probes would answer now. *)
Theorem reload_tools_changes_nothing getenv probe probe' choose choose' m r :
  NoDup (ODict.keys (mcp_servers m)) ->
  initialized_servers m = [] ->
  let first := initialize_tools_system getenv probe choose (m, r) in
  let again := reload_tools getenv probe' choose' (snd first) in
  fst again = fst first
  /\ snd again = (fst (snd first), clear_mcp_cache (snd (snd first))).
Proof.
  intros Hnd Hinit. unfold reload_tools, initialize_tools_system,
    initialize_mcp_servers.
  pose proof (batch_settles getenv probe choose m (register_local_tools r)
                Hnd Hinit) as Hs.
  pose proof (batch_evolves getenv probe choose (m, register_local_tools r))
    as Hev.
  destruct (initialize_all_servers_spec getenv probe choose m
              (register_local_tools r) Hnd Hinit) as (Hres & [Hsrv _] & _).
  destruct (initialize_all_servers getenv probe choose
              (m, register_local_tools r)) as [results [m1 r1]].
  cbn [fst snd] in *.
  destruct (register_local_tools_get r) as [Hd Hy].
  destruct (register_local_tools_get init) as [Hd0 Hy0].
  assert (Hreg : register_local_tools (clear_mcp_cache r1) = clear_mcp_cache r1).
  { pose proof (evolves_keeps _ _ "DuckDuckGoTools" Hev eq_refl) as Hk1.
    pose proof (evolves_keeps _ _ "YFinanceTools" Hev eq_refl) as Hk2.
    cbn [snd] in Hk1, Hk2.
    apply register_local_tools_present; cbn [clear_mcp_cache _tools].
    - now rewrite Hk1, Hd, Hd0.
    - now rewrite Hk2, Hy, Hy0. }
  rewrite Hreg.
  assert (Hs' : memo_settled getenv (m1, clear_mcp_cache r1)) by exact Hs.
  rewrite (settled_batch getenv probe' choose' (m1, clear_mcp_cache r1) Hs')
    by (cbn [fst]; rewrite Hsrv; exact Hnd).
  cbn [fst snd]. rewrite Hsrv, <- Hres. split; reflexivity.
Qed.

Lemma reload_tools_changes_nothing_witness :
  let m := mkManager
             [("s", SMapping (mkServerConfig (Some "stdio") (Some "python")
                                (Some [SStr "s.py"]) None))] [] in
  let down := fun (_ : string) (_ : CfgVal) =>
                @Raise (list string) ConnectionFailure in
  let up := fun (_ : string) (_ : CfgVal) => Ok ["a"] in
  let first := initialize_tools_system (fun _ => None) down (fun _ => 0)
                 (m, init) in
  fst (reload_tools (fun _ => None) up (fun _ => 0) (snd first)) = fst first.
Proof.
  intros m down up first.
  destruct (reload_tools_changes_nothing (fun _ => None) down up
              (fun _ => 0) (fun _ => 0) m init) as [H _].
  - repeat constructor; simpl; intuition discriminate.
  - reflexivity.
  - exact H.
Defined.

(** ** Mutual exclusion *)

Section Mutex.

Lemma mutex_inv_upd s i ref pc pc' (owner owner' : option nat) reg' :
  nth_error (tasks s) i = Some (ref, pc) ->
  (forall j t, nth_error (tasks s) j = Some t ->
     (in_body (snd t) = true <-> owner = Some j)) ->
  (in_body pc' = true <-> owner' = Some i) ->
  (owner' = None \/ owner' = Some i) ->
  (owner = None \/ owner = Some i) ->
  mutex_inv
    (mkSys reg' (match owner' with Some _ => true | None => false end)
       (upd i (ref, pc') (tasks s))).
Proof.
  intros Ei Htasks Hi Ho' Ho. exists owner'. split; [reflexivity|]. split.
  - intros j t Hj. cbn [tasks] in Hj. destruct (Nat.eq_dec i j) as [<-|Hne].
    + rewrite (nth_error_upd_same _ _ _ _ Ei) in Hj. inversion Hj; subst.
      exact Hi.
    + rewrite nth_error_upd_other in Hj by assumption.
      rewrite (Htasks j t Hj).
      split; intros E; exfalso;
        [destruct Ho as [Ho|Ho]|destruct Ho' as [Ho'|Ho']]; congruence.
  - intros k Hk. cbn [tasks].
    destruct Ho' as [Ho'|Ho']; [congruence|].
    assert (k = i) by congruence. subst k.
    now rewrite (nth_error_upd_same _ _ _ _ Ei).
Qed.

Lemma check_phase_in_body ref r : in_body (fst (check_phase ref r)) = true.
Proof.
  unfold check_phase. destruct (local_entry ref r) as [md|].
  - destruct (runtime_factory md); reflexivity.
  - destruct (PyStr.startswith "mcp:" ref); [|reflexivity].
    destruct (ODict.get (_mcp_runtime_cache r) ref); reflexivity.
Qed.

Lemma mutex_step i s : mutex_inv s -> mutex_inv (step i s).
Proof.
  intros Hinv. pose proof Hinv as (owner & Hlock & Htasks & Hrange).
  unfold step.
  destruct (nth_error (tasks s) i) as [[ref pc]|] eqn:Ei; [|exact Hinv].
  pose proof (Htasks i _ Ei) as Hi. cbn [snd] in Hi.
  destruct pc; cbn [in_body] in Hi.
  - destruct (lock s) eqn:El; [exact Hinv|].
    destruct owner; [discriminate|].
    apply (mutex_inv_upd s i ref Waiting Locked None (Some i));
      [exact Ei|exact Htasks|now split|now right|now left].
  - assert (Ho : owner = Some i) by now apply Hi. subst owner. rewrite Hlock.
    pose proof (check_phase_in_body ref (reg s)) as Hb.
    destruct (check_phase ref (reg s)) as [pc' r']. cbn [fst] in Hb.
    apply (mutex_inv_upd s i ref Locked pc' (Some i) (Some i));
      [exact Ei|exact Htasks|now split|now right|now right].
  - assert (Ho : owner = Some i) by now apply Hi. subst owner. rewrite Hlock.
    destruct (mcp_construct ref (reg s)) as [res r'].
    apply (mutex_inv_upd s i ref Missed (Releasing res) (Some i) (Some i));
      [exact Ei|exact Htasks|now split|now right|now right].
  - assert (Ho : owner = Some i) by now apply Hi. subst owner.
    apply (mutex_inv_upd s i ref (Releasing result) (Done result)
             (Some i) None);
      [exact Ei|exact Htasks|split; discriminate|now left|now right].
  - exact Hinv.
Qed.

Lemma mutex_run sch : forall s, mutex_inv s -> mutex_inv (run sch s).
Proof.
  induction sch as [|i sch IH]; intros s H; [exact H|].
  simpl. apply IH. now apply mutex_step.
Qed.

Lemma mutex_start refs r : mutex_inv (start_refs refs r).
Proof.
  exists None. split; [reflexivity|]. split; [|discriminate].
  intros j t Hj.
  apply nth_error_In in Hj. cbn [start_refs tasks] in Hj.
  apply in_map_iff in Hj. destruct Hj as [ref [<- _]]. simpl.
  split; discriminate.
Qed.

End Mutex.

(** X24: mutual exclusion. Whatever the callers ask for and however they
    are scheduled, at most one caller is inside the body of
    [get_tool_runtime] at any time, and the lock is taken exactly while
    some caller is inside. *)
Theorem get_tool_runtime_mutual_exclusion tool_refs r sch :
  let s := run sch (start_refs tool_refs r) in
  (forall i j ti tj,
     nth_error (tasks s) i = Some ti -> nth_error (tasks s) j = Some tj ->
     in_body (snd ti) = true -> in_body (snd tj) = true -> i = j)
  /\ (lock s = true <->
      exists i ti, nth_error (tasks s) i = Some ti /\ in_body (snd ti) = true).
Proof.
  intros s.
  destruct (mutex_run sch _ (mutex_start tool_refs r))
    as (owner & Hlock & Htasks & Hrange).
  fold s in Hlock, Htasks, Hrange. split.
  - intros i j ti tj Hi Hj Bi Bj.
    apply (Htasks i ti Hi) in Bi. apply (Htasks j tj Hj) in Bj. congruence.
  - split.
    + intros Hl. rewrite Hl in Hlock. destruct owner as [k|]; [|discriminate].
      destruct (nth_error (tasks s) k) as [t|] eqn:Ek;
        [|now contradiction (Hrange k eq_refl)].
      exists k, t. split; [exact Ek|]. now apply (Htasks k t Ek).
    + intros (i & ti & Hi & Bi). apply (Htasks i ti Hi) in Bi.
      rewrite Hlock, Bi. reflexivity.
Qed.

Lemma get_tool_runtime_mutual_exclusion_witness :
  let r := register_mcp_server_tools "s" ["a"]
             [("command", VStr "python s.py")] (register_local_tools init) in
  let s := run [1; 0; 1; 2; 1] (start_refs ["mcp:s:a"; "mcp:s"; "YFinanceTools"] r) in
  lock s = true
  /\ map (fun t => in_body (snd t)) (tasks s) = [false; true; false].
Proof.
  intros r s. split; [|reflexivity].
  destruct (get_tool_runtime_mutual_exclusion
              ["mcp:s:a"; "mcp:s"; "YFinanceTools"] r [1; 0; 1; 2; 1])
    as [_ H].
  apply H. exists 1. eexists. split; reflexivity.
Defined.

(** ** Resolving a registered server *)

Section RegisteredServer.

Local Open Scope string_scope.
Import PyStrFacts.

Lemma split_no_sep c t : PyStr.contains c t = false -> PyStr.split c t = [t].
Proof.
  intros H. rewrite <- (append_nil_r t) at 1. rewrite (split_app _ _ _ H).
  simpl. now rewrite append_nil_r.
Qed.

Lemma split_simple_ref srv t :
  PyStr.contains ":" srv = false -> PyStr.contains ":" t = false ->
  PyStr.split ":" ("mcp:" ++ srv ++ ":" ++ t) = ["mcp"; srv; t].
Proof.
  intros Hs Ht.
  change (PyStr.split ":" ("mcp:" ++ srv ++ ":" ++ t))
    with ("mcp" :: PyStr.split ":" (srv ++ String ":" t)).
  rewrite (split_app _ _ _ Hs). cbn [PyStr.split]. rewrite Ascii.eqb_refl.
  now rewrite (split_no_sep _ _ Ht), append_nil_r.
Qed.

(** The configuration the scan ends with, when all entries of the server
    carry the same non-empty configuration. *)
Lemma scan_fold_config srv cfg catalog : forall acc,
  cfg <> [] ->
  (forall k md, In (k, md) catalog ->
     type md = MCP -> server md = Some srv -> config md = cfg) ->
  snd acc = Some cfg
  \/ (exists k md, In (k, md) catalog /\ type md = MCP /\ server md = Some srv) ->
  snd (fold_left
         (fun (acc : list string * option Config) (kv : string * ToolMetadata) =>
            let md := snd kv in
            if ToolType_eqb (type md) MCP && option_string_eqb (server md) srv
            then
              let cfg' := if config_truthy (config md) then Some (config md)
                          else snd acc in
              let tl' := if PyStr.truthy (name md)
                         then (fst acc ++ [name md])%list
                         else fst acc in
              (tl', cfg')
            else acc)
         catalog acc)
  = Some cfg.
Proof.
  induction catalog as [|[k md] rest IH]; intros acc Hne Hall Hex.
  - destruct Hex as [H|(k & md & [] & _)]. exact H.
  - cbn [fold_left]. apply IH; [exact Hne| |].
    + intros k' md' Hin. apply (Hall k'). now right.
    + cbn [snd].
      destruct (ToolType_eqb (type md) MCP && option_string_eqb (server md) srv)
        eqn:Em.
      * left. cbn [snd]. apply andb_true_iff in Em. destruct Em as [Et Es].
        assert (Hty : type md = MCP) by (destruct (type md); [discriminate|auto]).
        assert (Hsv : server md = Some srv).
        { destruct (server md) as [s|]; [|discriminate]. simpl in Es.
          apply String.eqb_eq in Es. now subst. }
        rewrite (Hall k md (or_introl eq_refl) Hty Hsv).
        destruct cfg; [congruence|reflexivity].
      * destruct Hex as [H|(k' & md' & [E|Hin] & Hty & Hsv)].
        -- now left.
        -- inversion E; subst. rewrite Hty, Hsv in Em. simpl in Em.
           now rewrite String.eqb_refl in Em.
        -- right. now exists k', md'.
Qed.

Lemma config_or_empty_some cfg : config_or_empty (Some cfg) = cfg.
Proof. now destruct cfg. Qed.

Lemma registered_server_config srv tools cfg r ref p0 rest :
  cfg <> [] ->
  (forall k md, In (k, md) (_tools r) -> server md <> Some srv) ->
  PyStr.split ":" ref = p0 :: srv :: rest ->
  server_config_of ref (register_mcp_server_tools srv tools cfg r) = Some cfg.
Proof.
  intros Hne Hnew Hs. unfold server_config_of. rewrite Hs.
  rewrite register_mcp_server_tools_eq. unfold with_tools. cbn [_tools].
  unfold scan_server. apply scan_fold_config; [exact Hne| |].
  - intros k md Hin Hty Hsv. apply In_update_inv in Hin.
    destruct Hin as [Hin|Hin]; [now contradiction (Hnew k md Hin)|].
    apply server_writes_In in Hin. destruct Hin as [nm [_ ->]].
    apply config_or_empty_some.
  - right. exists (full_name srv None), (mcp_entry srv None cfg).
    split; [|now split]. apply ODictFacts.get_In.
    apply ODictFacts.get_update_in; [apply server_writes_functional|].
    unfold server_writes. apply in_or_app. right. now left.
Qed.

End RegisteredServer.

(** X25: the registry does not check a requested capability against what
    was discovered. Once a server is registered with a non-empty
    configuration, every reference ["mcp:{server}:{t}"] that is not cached
    resolves to a new runtime of that server filtered to [[t]], whether or
    not [t] is among the registered tools. *)
Theorem registered_server_resolves srv tools cfg r t :
  cfg <> [] ->
  PyStr.contains ":" srv = false ->
  PyStr.contains ":" t = false ->
  (forall k md, In (k, md) (_tools r) -> server md <> Some srv) ->
  let r1 := register_mcp_server_tools srv tools cfg r in
  let ref := ("mcp:" ++ srv ++ ":" ++ t)%string in
  local_entry ref r1 = None ->
  ODict.get (_mcp_runtime_cache r1) ref = None ->
  fst (get_tool_runtime ref r1)
  = Some (MCPTools (next_oid r) (cfg_get cfg "command")
            (or_none (cfg_get_env cfg)) (Some [t])).
Proof.
  intros Hne Hs Ht Hnew r1 ref Hl Hm.
  rewrite get_tool_runtime_mcp;
    [|exact Hl|exact (PyStrFacts.startswith_append "mcp:" _)].
  rewrite (get_mcp_runtime_miss _ _ Hm), mcp_construct_eq.
  pose proof (split_simple_ref srv t Hs Ht) as Hsplit. fold ref in Hsplit.
  unfold r1.
  rewrite (registered_server_config srv tools cfg r ref _ _ Hne Hnew Hsplit).
  unfold filter_of. rewrite Hsplit.
  rewrite register_mcp_server_tools_eq. reflexivity.
Qed.

Lemma registered_server_resolves_witness :
  fst (get_tool_runtime "mcp:s:never_discovered"
         (register_mcp_server_tools "s" ["a"; "b"]
            [("command", VStr "python s.py")] (register_local_tools init)))
  = Some (MCPTools 0 (VStr "python s.py") VNone (Some ["never_discovered"])).
Proof.
  apply (registered_server_resolves "s" ["a"; "b"]
           [("command", VStr "python s.py")] (register_local_tools init)
           "never_discovered"); try reflexivity; try discriminate.
  intros k md [E|[E|[]]]; inversion E; subst; discriminate.
Defined.

(** The frame property X1 applied to a registry whose cache holds
    ["mcp:s:a"]: resolving ["mcp:s:b"] keeps that runtime cached. *)
Lemma resolution_frame_witness :
  let r := snd (get_tool_runtime "mcp:s:a"
                  (register_mcp_server_tools "s" ["a"; "b"]
                     [("command", VStr "python s.py")] init)) in
  ODict.get (_mcp_runtime_cache (snd (get_tool_runtime "mcp:s:b" r))) "mcp:s:a"
  = Some (MCPTools 0 (VStr "python s.py") VNone (Some ["a"]))
  /\ _tools (snd (get_tools_for_agent ["mcp:s:b"; "X"] r)) = _tools r.
Proof.
  intros r.
  destruct (resolution_frame "mcp:s:b" ["mcp:s:b"; "X"] r)
    as (_ & H2 & _ & _ & _ & H6).
  split; [exact (H6 "mcp:s:a" _ eq_refl)|exact H2].
Defined.
